(** * Order lifecycle of the tracker application

    A shallow embedding of the order workflow implemented by
    [tracker/views_start_order.py] and [tracker/admin.py]: the quick start of
    an order from a plate number, the started-order detail page with its
    update and complete actions, the quick stop, the overrun report, and the
    branch and status rules of the admin site.

    Conventions of the embedding.
    - The database is an explicit [Store]; a view takes the store, the
      authenticated [User], the request and the current time, and returns the
      new store and a response.
    - A [datetime] is a number of microseconds ([Time]); [timezone.now()] is an
      argument of the view.
    - A Python [str] is a [string]: an ASCII character is the byte of its
      code, any other character the bytes of its UTF-8 form. [strip], [upper]
      and [lower] act on the ASCII characters and leave the other bytes as
      they are, which is what Python does on a string of ASCII characters;
      statements that depend on it say so with [isascii].
    - Primary keys are integers of [Z]; a table lists its rows in primary-key
      order, which is the order Django gives to an unordered [first()]. *)

From Stdlib Require Import ZArith List String Ascii Bool Lia.
Import ListNotations.
Local Open Scope string_scope.
Local Open Scope Z_scope.

Set Implicit Arguments.

(** ** Python values *)

Definition Time := Z.

(** Microseconds in a minute. *)
Definition MINUTE : Z := 60000000.

(** The integer nearest to [n / d], the even one of two that are equally
    near; [d] is positive. *)
Definition round_half_even (n d : Z) : Z :=
  let q := n / d in
  let r := n mod d in
  if 2 * r <? d then q
  else if d <? 2 * r then q + 1
  else if Z.even q then q else q + 1.

(** The [float] that Python gives for the quotient [n / d] of two positive
    integers: the double nearest to the quotient, with 53 bits of
    significand. The result [(m, e)] stands for [m * 2^e]. Quotients as small
    as subnormal doubles or as large as infinity are out of the reach of a
    [timedelta] and are not told apart. *)
Definition nearest_double (n d : Z) : Z * Z :=
  let k := Z.log2 n - Z.log2 d in
  let below := if 0 <=? k then n <? d * 2 ^ k else n * 2 ^ (- k) <? d in
  let e := (if below then k - 1 else k) - 52 in
  let m :=
    if 0 <=? e then round_half_even n (d * 2 ^ e)
    else round_half_even (n * 2 ^ (- e)) d in
  (m, e).

(** [int(delta.total_seconds() // 60)] for a [timedelta] of [us]
    microseconds. [total_seconds()] is the float quotient of the
    microseconds by 10^6; the floor division of a double of that size by 60
    is exact. *)
Definition whole_minutes (us : Z) : Z :=
  if us =? 0 then 0
  else
    let (m, e) := nearest_double (Z.abs us) 1000000 in
    let m := Z.sgn us * m in
    if 0 <=? e then (m * 2 ^ e) / 60 else m / (60 * 2 ^ (- e)).

(** Truth value of an optional string: [None] and [''] are false. *)
Definition truthy_str (s : option string) : bool :=
  match s with
  | Some (String _ _) => true
  | _ => false
  end.

(** Truth value of an optional integer: [None] and [0] are false. *)
Definition truthy_int (n : option Z) : bool :=
  match n with
  | Some z => negb (z =? 0)
  | None => false
  end.

(** [a or b] on optional strings. *)
Definition or_str (a : option string) (b : string) : string :=
  match a with
  | Some (String c s) => String c s
  | _ => b
  end.

Definition is_empty_list {A : Type} (l : list A) : bool :=
  match l with [] => true | _ :: _ => false end.

Definition is_some {A : Type} (x : option A) : bool :=
  match x with Some _ => true | None => false end.

Definition opt_eqb {A : Type} (eqb : A -> A -> bool) (x y : option A) : bool :=
  match x, y with
  | Some a, Some b => eqb a b
  | None, None => true
  | _, _ => false
  end.

(** [Order.STATUS_CHOICES]. *)
Inductive Status : Type :=
| created | in_progress | overdue | completed | cancelled.

Definition status_eqb (a b : Status) : bool :=
  match a, b with
  | created, created | in_progress, in_progress | overdue, overdue
  | completed, completed | cancelled, cancelled => true
  | _, _ => false
  end.

Definition status_in (a : Status) (l : list Status) : bool :=
  existsb (status_eqb a) l.

(** ** Data model *)

Module Branch.
Record t : Type := mk {
  id : Z;
  name : string;
  parent : option Z
}.
End Branch.

Module User.
(** [request.user] with its profile; [profile_branch] is
    [user.profile.branch], [None] when the user has no profile or the profile
    has no branch. *)
Record t : Type := mk {
  id : Z;
  is_superuser : bool;
  is_staff : bool;
  profile_branch : option Branch.t
}.
End User.

Module Order.
Record t : Type := mk {
  id : Z;
  order_number : string;
  branch : option Z;
  customer : Z;
  vehicle : option Z;
  type : string;
  status : Status;
  priority : string;
  description : option string;
  item_name : option string;
  brand : option string;
  quantity : option Z;
  tire_type : option string;
  estimated_duration : option Z;
  actual_duration : option Z;
  created_at : Time;
  started_at : option Time;
  completed_at : option Time;
  completion_date : option Time;
  cancelled_at : option Time;
  delay_reason : option Z;
  delay_reason_reported_at : option Time;
  delay_reason_reported_by : option Z;
  exceeded_9_hours : bool;
  overrun_reason : option string;
  overrun_reported_at : option Time;
  overrun_reported_by : option Z
}.

Definition set_type (x : string) (o : t) : t :=
  {| id := id o; order_number := order_number o; branch := branch o; customer :=
     customer o; vehicle := vehicle o; type := x; status := status o; priority :=
     priority o; description := description o; item_name := item_name o; brand := brand
     o; quantity := quantity o; tire_type := tire_type o; estimated_duration :=
     estimated_duration o; actual_duration := actual_duration o; created_at :=
     created_at o; started_at := started_at o; completed_at := completed_at o;
     completion_date := completion_date o; cancelled_at := cancelled_at o; delay_reason
     := delay_reason o; delay_reason_reported_at := delay_reason_reported_at o;
     delay_reason_reported_by := delay_reason_reported_by o; exceeded_9_hours :=
     exceeded_9_hours o; overrun_reason := overrun_reason o; overrun_reported_at :=
     overrun_reported_at o; overrun_reported_by := overrun_reported_by o |}.

Definition set_status (x : Status) (o : t) : t :=
  {| id := id o; order_number := order_number o; branch := branch o; customer :=
     customer o; vehicle := vehicle o; type := type o; status := x; priority := priority
     o; description := description o; item_name := item_name o; brand := brand o;
     quantity := quantity o; tire_type := tire_type o; estimated_duration :=
     estimated_duration o; actual_duration := actual_duration o; created_at :=
     created_at o; started_at := started_at o; completed_at := completed_at o;
     completion_date := completion_date o; cancelled_at := cancelled_at o; delay_reason
     := delay_reason o; delay_reason_reported_at := delay_reason_reported_at o;
     delay_reason_reported_by := delay_reason_reported_by o; exceeded_9_hours :=
     exceeded_9_hours o; overrun_reason := overrun_reason o; overrun_reported_at :=
     overrun_reported_at o; overrun_reported_by := overrun_reported_by o |}.

Definition set_description (x : option string) (o : t) : t :=
  {| id := id o; order_number := order_number o; branch := branch o; customer :=
     customer o; vehicle := vehicle o; type := type o; status := status o; priority :=
     priority o; description := x; item_name := item_name o; brand := brand o; quantity
     := quantity o; tire_type := tire_type o; estimated_duration := estimated_duration
     o; actual_duration := actual_duration o; created_at := created_at o; started_at :=
     started_at o; completed_at := completed_at o; completion_date := completion_date o;
     cancelled_at := cancelled_at o; delay_reason := delay_reason o;
     delay_reason_reported_at := delay_reason_reported_at o; delay_reason_reported_by :=
     delay_reason_reported_by o; exceeded_9_hours := exceeded_9_hours o; overrun_reason
     := overrun_reason o; overrun_reported_at := overrun_reported_at o;
     overrun_reported_by := overrun_reported_by o |}.

Definition set_item_name (x : option string) (o : t) : t :=
  {| id := id o; order_number := order_number o; branch := branch o; customer :=
     customer o; vehicle := vehicle o; type := type o; status := status o; priority :=
     priority o; description := description o; item_name := x; brand := brand o;
     quantity := quantity o; tire_type := tire_type o; estimated_duration :=
     estimated_duration o; actual_duration := actual_duration o; created_at :=
     created_at o; started_at := started_at o; completed_at := completed_at o;
     completion_date := completion_date o; cancelled_at := cancelled_at o; delay_reason
     := delay_reason o; delay_reason_reported_at := delay_reason_reported_at o;
     delay_reason_reported_by := delay_reason_reported_by o; exceeded_9_hours :=
     exceeded_9_hours o; overrun_reason := overrun_reason o; overrun_reported_at :=
     overrun_reported_at o; overrun_reported_by := overrun_reported_by o |}.

Definition set_brand (x : option string) (o : t) : t :=
  {| id := id o; order_number := order_number o; branch := branch o; customer :=
     customer o; vehicle := vehicle o; type := type o; status := status o; priority :=
     priority o; description := description o; item_name := item_name o; brand := x;
     quantity := quantity o; tire_type := tire_type o; estimated_duration :=
     estimated_duration o; actual_duration := actual_duration o; created_at :=
     created_at o; started_at := started_at o; completed_at := completed_at o;
     completion_date := completion_date o; cancelled_at := cancelled_at o; delay_reason
     := delay_reason o; delay_reason_reported_at := delay_reason_reported_at o;
     delay_reason_reported_by := delay_reason_reported_by o; exceeded_9_hours :=
     exceeded_9_hours o; overrun_reason := overrun_reason o; overrun_reported_at :=
     overrun_reported_at o; overrun_reported_by := overrun_reported_by o |}.

Definition set_quantity (x : option Z) (o : t) : t :=
  {| id := id o; order_number := order_number o; branch := branch o; customer :=
     customer o; vehicle := vehicle o; type := type o; status := status o; priority :=
     priority o; description := description o; item_name := item_name o; brand := brand
     o; quantity := x; tire_type := tire_type o; estimated_duration :=
     estimated_duration o; actual_duration := actual_duration o; created_at :=
     created_at o; started_at := started_at o; completed_at := completed_at o;
     completion_date := completion_date o; cancelled_at := cancelled_at o; delay_reason
     := delay_reason o; delay_reason_reported_at := delay_reason_reported_at o;
     delay_reason_reported_by := delay_reason_reported_by o; exceeded_9_hours :=
     exceeded_9_hours o; overrun_reason := overrun_reason o; overrun_reported_at :=
     overrun_reported_at o; overrun_reported_by := overrun_reported_by o |}.

Definition set_tire_type (x : option string) (o : t) : t :=
  {| id := id o; order_number := order_number o; branch := branch o; customer :=
     customer o; vehicle := vehicle o; type := type o; status := status o; priority :=
     priority o; description := description o; item_name := item_name o; brand := brand
     o; quantity := quantity o; tire_type := x; estimated_duration := estimated_duration
     o; actual_duration := actual_duration o; created_at := created_at o; started_at :=
     started_at o; completed_at := completed_at o; completion_date := completion_date o;
     cancelled_at := cancelled_at o; delay_reason := delay_reason o;
     delay_reason_reported_at := delay_reason_reported_at o; delay_reason_reported_by :=
     delay_reason_reported_by o; exceeded_9_hours := exceeded_9_hours o; overrun_reason
     := overrun_reason o; overrun_reported_at := overrun_reported_at o;
     overrun_reported_by := overrun_reported_by o |}.

Definition set_estimated_duration (x : option Z) (o : t) : t :=
  {| id := id o; order_number := order_number o; branch := branch o; customer :=
     customer o; vehicle := vehicle o; type := type o; status := status o; priority :=
     priority o; description := description o; item_name := item_name o; brand := brand
     o; quantity := quantity o; tire_type := tire_type o; estimated_duration := x;
     actual_duration := actual_duration o; created_at := created_at o; started_at :=
     started_at o; completed_at := completed_at o; completion_date := completion_date o;
     cancelled_at := cancelled_at o; delay_reason := delay_reason o;
     delay_reason_reported_at := delay_reason_reported_at o; delay_reason_reported_by :=
     delay_reason_reported_by o; exceeded_9_hours := exceeded_9_hours o; overrun_reason
     := overrun_reason o; overrun_reported_at := overrun_reported_at o;
     overrun_reported_by := overrun_reported_by o |}.

Definition set_actual_duration (x : option Z) (o : t) : t :=
  {| id := id o; order_number := order_number o; branch := branch o; customer :=
     customer o; vehicle := vehicle o; type := type o; status := status o; priority :=
     priority o; description := description o; item_name := item_name o; brand := brand
     o; quantity := quantity o; tire_type := tire_type o; estimated_duration :=
     estimated_duration o; actual_duration := x; created_at := created_at o; started_at
     := started_at o; completed_at := completed_at o; completion_date := completion_date
     o; cancelled_at := cancelled_at o; delay_reason := delay_reason o;
     delay_reason_reported_at := delay_reason_reported_at o; delay_reason_reported_by :=
     delay_reason_reported_by o; exceeded_9_hours := exceeded_9_hours o; overrun_reason
     := overrun_reason o; overrun_reported_at := overrun_reported_at o;
     overrun_reported_by := overrun_reported_by o |}.

Definition set_started_at (x : option Time) (o : t) : t :=
  {| id := id o; order_number := order_number o; branch := branch o; customer :=
     customer o; vehicle := vehicle o; type := type o; status := status o; priority :=
     priority o; description := description o; item_name := item_name o; brand := brand
     o; quantity := quantity o; tire_type := tire_type o; estimated_duration :=
     estimated_duration o; actual_duration := actual_duration o; created_at :=
     created_at o; started_at := x; completed_at := completed_at o; completion_date :=
     completion_date o; cancelled_at := cancelled_at o; delay_reason := delay_reason o;
     delay_reason_reported_at := delay_reason_reported_at o; delay_reason_reported_by :=
     delay_reason_reported_by o; exceeded_9_hours := exceeded_9_hours o; overrun_reason
     := overrun_reason o; overrun_reported_at := overrun_reported_at o;
     overrun_reported_by := overrun_reported_by o |}.

Definition set_completed_at (x : option Time) (o : t) : t :=
  {| id := id o; order_number := order_number o; branch := branch o; customer :=
     customer o; vehicle := vehicle o; type := type o; status := status o; priority :=
     priority o; description := description o; item_name := item_name o; brand := brand
     o; quantity := quantity o; tire_type := tire_type o; estimated_duration :=
     estimated_duration o; actual_duration := actual_duration o; created_at :=
     created_at o; started_at := started_at o; completed_at := x; completion_date :=
     completion_date o; cancelled_at := cancelled_at o; delay_reason := delay_reason o;
     delay_reason_reported_at := delay_reason_reported_at o; delay_reason_reported_by :=
     delay_reason_reported_by o; exceeded_9_hours := exceeded_9_hours o; overrun_reason
     := overrun_reason o; overrun_reported_at := overrun_reported_at o;
     overrun_reported_by := overrun_reported_by o |}.

Definition set_completion_date (x : option Time) (o : t) : t :=
  {| id := id o; order_number := order_number o; branch := branch o; customer :=
     customer o; vehicle := vehicle o; type := type o; status := status o; priority :=
     priority o; description := description o; item_name := item_name o; brand := brand
     o; quantity := quantity o; tire_type := tire_type o; estimated_duration :=
     estimated_duration o; actual_duration := actual_duration o; created_at :=
     created_at o; started_at := started_at o; completed_at := completed_at o;
     completion_date := x; cancelled_at := cancelled_at o; delay_reason := delay_reason
     o; delay_reason_reported_at := delay_reason_reported_at o; delay_reason_reported_by
     := delay_reason_reported_by o; exceeded_9_hours := exceeded_9_hours o;
     overrun_reason := overrun_reason o; overrun_reported_at := overrun_reported_at o;
     overrun_reported_by := overrun_reported_by o |}.

Definition set_delay_reason (x : option Z) (o : t) : t :=
  {| id := id o; order_number := order_number o; branch := branch o; customer :=
     customer o; vehicle := vehicle o; type := type o; status := status o; priority :=
     priority o; description := description o; item_name := item_name o; brand := brand
     o; quantity := quantity o; tire_type := tire_type o; estimated_duration :=
     estimated_duration o; actual_duration := actual_duration o; created_at :=
     created_at o; started_at := started_at o; completed_at := completed_at o;
     completion_date := completion_date o; cancelled_at := cancelled_at o; delay_reason
     := x; delay_reason_reported_at := delay_reason_reported_at o;
     delay_reason_reported_by := delay_reason_reported_by o; exceeded_9_hours :=
     exceeded_9_hours o; overrun_reason := overrun_reason o; overrun_reported_at :=
     overrun_reported_at o; overrun_reported_by := overrun_reported_by o |}.

Definition set_delay_reason_reported_at (x : option Time) (o : t) : t :=
  {| id := id o; order_number := order_number o; branch := branch o; customer :=
     customer o; vehicle := vehicle o; type := type o; status := status o; priority :=
     priority o; description := description o; item_name := item_name o; brand := brand
     o; quantity := quantity o; tire_type := tire_type o; estimated_duration :=
     estimated_duration o; actual_duration := actual_duration o; created_at :=
     created_at o; started_at := started_at o; completed_at := completed_at o;
     completion_date := completion_date o; cancelled_at := cancelled_at o; delay_reason
     := delay_reason o; delay_reason_reported_at := x; delay_reason_reported_by :=
     delay_reason_reported_by o; exceeded_9_hours := exceeded_9_hours o; overrun_reason
     := overrun_reason o; overrun_reported_at := overrun_reported_at o;
     overrun_reported_by := overrun_reported_by o |}.

Definition set_delay_reason_reported_by (x : option Z) (o : t) : t :=
  {| id := id o; order_number := order_number o; branch := branch o; customer :=
     customer o; vehicle := vehicle o; type := type o; status := status o; priority :=
     priority o; description := description o; item_name := item_name o; brand := brand
     o; quantity := quantity o; tire_type := tire_type o; estimated_duration :=
     estimated_duration o; actual_duration := actual_duration o; created_at :=
     created_at o; started_at := started_at o; completed_at := completed_at o;
     completion_date := completion_date o; cancelled_at := cancelled_at o; delay_reason
     := delay_reason o; delay_reason_reported_at := delay_reason_reported_at o;
     delay_reason_reported_by := x; exceeded_9_hours := exceeded_9_hours o;
     overrun_reason := overrun_reason o; overrun_reported_at := overrun_reported_at o;
     overrun_reported_by := overrun_reported_by o |}.

Definition set_exceeded_9_hours (x : bool) (o : t) : t :=
  {| id := id o; order_number := order_number o; branch := branch o; customer :=
     customer o; vehicle := vehicle o; type := type o; status := status o; priority :=
     priority o; description := description o; item_name := item_name o; brand := brand
     o; quantity := quantity o; tire_type := tire_type o; estimated_duration :=
     estimated_duration o; actual_duration := actual_duration o; created_at :=
     created_at o; started_at := started_at o; completed_at := completed_at o;
     completion_date := completion_date o; cancelled_at := cancelled_at o; delay_reason
     := delay_reason o; delay_reason_reported_at := delay_reason_reported_at o;
     delay_reason_reported_by := delay_reason_reported_by o; exceeded_9_hours := x;
     overrun_reason := overrun_reason o; overrun_reported_at := overrun_reported_at o;
     overrun_reported_by := overrun_reported_by o |}.

Definition set_overrun_reason (x : option string) (o : t) : t :=
  {| id := id o; order_number := order_number o; branch := branch o; customer :=
     customer o; vehicle := vehicle o; type := type o; status := status o; priority :=
     priority o; description := description o; item_name := item_name o; brand := brand
     o; quantity := quantity o; tire_type := tire_type o; estimated_duration :=
     estimated_duration o; actual_duration := actual_duration o; created_at :=
     created_at o; started_at := started_at o; completed_at := completed_at o;
     completion_date := completion_date o; cancelled_at := cancelled_at o; delay_reason
     := delay_reason o; delay_reason_reported_at := delay_reason_reported_at o;
     delay_reason_reported_by := delay_reason_reported_by o; exceeded_9_hours :=
     exceeded_9_hours o; overrun_reason := x; overrun_reported_at := overrun_reported_at
     o; overrun_reported_by := overrun_reported_by o |}.

Definition set_overrun_reported_at (x : option Time) (o : t) : t :=
  {| id := id o; order_number := order_number o; branch := branch o; customer :=
     customer o; vehicle := vehicle o; type := type o; status := status o; priority :=
     priority o; description := description o; item_name := item_name o; brand := brand
     o; quantity := quantity o; tire_type := tire_type o; estimated_duration :=
     estimated_duration o; actual_duration := actual_duration o; created_at :=
     created_at o; started_at := started_at o; completed_at := completed_at o;
     completion_date := completion_date o; cancelled_at := cancelled_at o; delay_reason
     := delay_reason o; delay_reason_reported_at := delay_reason_reported_at o;
     delay_reason_reported_by := delay_reason_reported_by o; exceeded_9_hours :=
     exceeded_9_hours o; overrun_reason := overrun_reason o; overrun_reported_at := x;
     overrun_reported_by := overrun_reported_by o |}.

Definition set_overrun_reported_by (x : option Z) (o : t) : t :=
  {| id := id o; order_number := order_number o; branch := branch o; customer :=
     customer o; vehicle := vehicle o; type := type o; status := status o; priority :=
     priority o; description := description o; item_name := item_name o; brand := brand
     o; quantity := quantity o; tire_type := tire_type o; estimated_duration :=
     estimated_duration o; actual_duration := actual_duration o; created_at :=
     created_at o; started_at := started_at o; completed_at := completed_at o;
     completion_date := completion_date o; cancelled_at := cancelled_at o; delay_reason
     := delay_reason o; delay_reason_reported_at := delay_reason_reported_at o;
     delay_reason_reported_by := delay_reason_reported_by o; exceeded_9_hours :=
     exceeded_9_hours o; overrun_reason := overrun_reason o; overrun_reported_at :=
     overrun_reported_at o; overrun_reported_by := x |}.

Definition set_cancelled_at (x : option Time) (o : t) : t :=
  {| id := id o; order_number := order_number o; branch := branch o; customer :=
     customer o; vehicle := vehicle o; type := type o; status := status o; priority :=
     priority o; description := description o; item_name := item_name o; brand := brand
     o; quantity := quantity o; tire_type := tire_type o; estimated_duration :=
     estimated_duration o; actual_duration := actual_duration o; created_at :=
     created_at o; started_at := started_at o; completed_at := completed_at o;
     completion_date := completion_date o; cancelled_at := x; delay_reason :=
     delay_reason o; delay_reason_reported_at := delay_reason_reported_at o;
     delay_reason_reported_by := delay_reason_reported_by o; exceeded_9_hours :=
     exceeded_9_hours o; overrun_reason := overrun_reason o; overrun_reported_at :=
     overrun_reported_at o; overrun_reported_by := overrun_reported_by o |}.

End Order.

Module Customer.
Record t : Type := mk {
  id : Z;
  branch : option Z;
  full_name : string;
  phone : option string;
  email : option string;
  address : option string;
  customer_type : string;
  personal_subtype : option string;
  organization_name : option string;
  tax_number : option string;
  total_visits : Z;
  last_visit : option Time
}.
End Customer.

Module Vehicle.
Record t : Type := mk {
  id : Z;
  customer : Z;
  plate_number : string;
  make : option string;
  model : option string;
  vehicle_type : option string
}.
End Vehicle.

Module LabourCode.
Record t : Type := mk {
  id : Z;
  code : string;
  description : string;
  category : string;
  item_name : option string;
  brand : option string;
  quantity : option Z;
  tire_type : option string;
  is_active : bool
}.
End LabourCode.

Module InventoryItem.
(** [brand] is the name of the related [Brand] row, [None] without one. *)
Record t : Type := mk {
  id : Z;
  name : string;
  brand : option string;
  quantity : option Z;
  is_active : bool
}.
End InventoryItem.

Module ServiceType.
(** Rows of [ServiceType] and of [ServiceAddon]. *)
Record t : Type := mk {
  name : string;
  estimated_minutes : option Z;
  is_active : bool
}.
End ServiceType.

(** ** The database *)

(** The tables, and [accepts_order]: the rows that the table of orders takes.
    The column types and constraints are declared by [tracker.models], which
    is not among the sources, and enforced by the database: [order.save()]
    raises for a row they reject, such as a posted duration outside the range
    of its column. The field is consulted where a view handles that failure
    itself, in the [update_order_details] action, which is also where posted
    numbers are written; the other views write a time, a status, a key or a
    text. *)
Record Store : Type := mkStore {
  customers : list Customer.t;
  vehicles : list Vehicle.t;
  orders : list Order.t;
  labour_codes : list LabourCode.t;
  inventory_items : list InventoryItem.t;
  service_types : list ServiceType.t;
  service_addons : list ServiceType.t;
  delay_reasons : list Z;
  accepts_order : Order.t -> bool
}.

Definition set_customers (x : list Customer.t) (db : Store) : Store :=
  {| customers := x; vehicles := vehicles db; orders := orders db;
     labour_codes := labour_codes db; inventory_items := inventory_items db;
     service_types := service_types db; service_addons := service_addons db;
     delay_reasons := delay_reasons db;
     accepts_order := accepts_order db |}.

Definition set_vehicles (x : list Vehicle.t) (db : Store) : Store :=
  {| customers := customers db; vehicles := x; orders := orders db;
     labour_codes := labour_codes db; inventory_items := inventory_items db;
     service_types := service_types db; service_addons := service_addons db;
     delay_reasons := delay_reasons db;
     accepts_order := accepts_order db |}.

Definition set_orders (x : list Order.t) (db : Store) : Store :=
  {| customers := customers db; vehicles := vehicles db; orders := x;
     labour_codes := labour_codes db; inventory_items := inventory_items db;
     service_types := service_types db; service_addons := service_addons db;
     delay_reasons := delay_reasons db;
     accepts_order := accepts_order db |}.

(** [Model.objects.get(id=...)] on each table. *)
Definition get_order (db : Store) (pk : Z) : option Order.t :=
  find (fun o => Order.id o =? pk) (orders db).

Definition get_customer (db : Store) (pk : Z) : option Customer.t :=
  find (fun c => Customer.id c =? pk) (customers db).

Definition get_vehicle (db : Store) (pk : Z) : option Vehicle.t :=
  find (fun v => Vehicle.id v =? pk) (vehicles db).

(** [obj.save()] of a row that was loaded from the table. *)
Definition save_order (o : Order.t) (db : Store) : Store :=
  set_orders (map (fun r => if Order.id r =? Order.id o then o else r) (orders db)) db.

Definition save_customer (c : Customer.t) (db : Store) : Store :=
  set_customers
    (map (fun r => if Customer.id r =? Customer.id c then c else r) (customers db)) db.

Definition save_vehicle (v : Vehicle.t) (db : Store) : Store :=
  set_vehicles
    (map (fun r => if Vehicle.id r =? Vehicle.id v then v else r) (vehicles db)) db.

(** ** Branch scope *)

(** Modelled from the spec: [get_user_branch] of [tracker.utils] is not among
    the sources. It gives the branch the principal is attached to (section
    4.3), which [admin.py] reads as [request.user.profile.branch]. *)
Definition get_user_branch (user : User.t) : option Branch.t :=
  User.profile_branch user.

(** [is_admin] as every view computes it. *)
Definition is_admin (user : User.t) : bool :=
  User.is_superuser user || User.is_staff user.

(** [get_object_or_404(Order, id=order_id, branch=user_branch)]. *)
Definition get_order_in_branch (db : Store) (pk : Z) (b : Branch.t) : option Order.t :=
  find (fun o => (Order.id o =? pk) && opt_eqb Z.eqb (Order.branch o) (Some (Branch.id b)))
       (orders db).

(** The lookup shared by the quick stop, the overrun report and the update
    from an extraction: scoped to the user's branch unless the user has no
    branch or is an admin. *)
Definition get_scoped_order (db : Store) (user : User.t) (pk : Z) : option Order.t :=
  match get_user_branch user with
  | Some b => if negb (is_admin user) then get_order_in_branch db pk b else get_order db pk
  | None => get_order db pk
  end.

(** [BranchAdmin.get_queryset]: the branches a principal may see. *)
Definition BranchAdmin_get_queryset (qs : list Branch.t) (user : User.t) : list Branch.t :=
  if User.is_superuser user then qs
  else match User.profile_branch user with
       | Some ub =>
           match Branch.parent ub with
           | None =>
               filter (fun b => (Branch.id b =? Branch.id ub)
                                || opt_eqb Z.eqb (Branch.parent b) (Some (Branch.id ub))) qs
           | Some _ => filter (fun b => Branch.id b =? Branch.id ub) qs
           end
       | None => []
       end.

(** [visibleBranchIds] of section 4.3, read off the queryset. *)
Definition visibleBranchIds (qs : list Branch.t) (user : User.t) : list Z :=
  map Branch.id (BranchAdmin_get_queryset qs user).

(** ** The status table of the admin site *)

(** The [transitions] dictionary of [OrderAdmin.formfield_for_choice_field]. *)
Definition transitions (s : Status) : list Status :=
  match s with
  | created => [in_progress; cancelled]
  | in_progress => [overdue; completed; cancelled]
  | overdue => [completed; cancelled]
  | completed => []
  | cancelled => []
  end.

Definition STATUS_CHOICES : list Status :=
  [created; in_progress; overdue; completed; cancelled].

(** [OrderAdmin.formfield_for_choice_field] for the status field; [obj] is
    [kwargs.get('obj')]. With an order it gives the allowed targets and the
    current status, without one only [created]. *)
Definition formfield_for_choice_field (obj : option Order.t) : list Status :=
  match obj with
  | Some o =>
      let current_status := Order.status o in
      let allowed_statuses := (transitions current_status ++ [current_status])%list in
      filter (fun k => status_in k allowed_statuses) STATUS_CHOICES
  | None => [created]
  end.

(** ** Python strings *)

Definition char_code (c : ascii) : nat := nat_of_ascii c.

(** [str.isspace] on ASCII: tab to carriage return, the four separators and
    the space. *)
Definition is_space (c : ascii) : bool :=
  let n := char_code c in
  (Nat.leb 9 n && Nat.leb n 13) || (Nat.leb 28 n && Nat.leb n 32).

Definition upper_char (c : ascii) : ascii :=
  let n := char_code c in
  if Nat.leb 97 n && Nat.leb n 122 then ascii_of_nat (n - 32) else c.

Definition lower_char (c : ascii) : ascii :=
  let n := char_code c in
  if Nat.leb 65 n && Nat.leb n 90 then ascii_of_nat (n + 32) else c.

(** [str.upper] and [str.lower] of a string of ASCII characters: the
    letters a to z and A to Z change case. The bytes of a character outside
    ASCII are left as they are, which is Python's result for the characters
    without another case, and for [upper] also for those that are upper
    case already; it is not Python's [lower] on an upper-case letter outside
    ASCII. *)
Fixpoint upper (s : string) : string :=
  match s with
  | EmptyString => EmptyString
  | String c s' => String (upper_char c) (upper s')
  end.

Fixpoint lower (s : string) : string :=
  match s with
  | EmptyString => EmptyString
  | String c s' => String (lower_char c) (lower s')
  end.

Fixpoint lstrip (s : string) : string :=
  match s with
  | EmptyString => EmptyString
  | String c s' => if is_space c then lstrip s' else s
  end.

Fixpoint rstrip (s : string) : string :=
  match s with
  | EmptyString => EmptyString
  | String c s' =>
      match rstrip s' with
      | EmptyString => if is_space c then EmptyString else String c EmptyString
      | r => String c r
      end
  end.

Definition strip (s : string) : string := rstrip (lstrip s).


Definition is_empty (s : string) : bool :=
  match s with EmptyString => true | String _ _ => false end.

(** The [__iexact] lookup: equality up to the case of ASCII letters, which
    is what the database compares on plates of ASCII characters. *)
Definition iexact (a b : string) : bool := String.eqb (upper a) (upper b).

Definition newline : ascii := ascii_of_nat 10.

(** [s.split('\n')]. *)
Fixpoint split_lines (s : string) : list string :=
  match s with
  | EmptyString => [EmptyString]
  | String c s' =>
      if Ascii.eqb c newline then EmptyString :: split_lines s'
      else match split_lines s' with
           | h :: t => String c h :: t
           | [] => [String c EmptyString]
           end
  end.

(** [sep.join(l)]. *)
Definition join (sep : string) (l : list string) : string := String.concat sep l.

Definition startswith (s p : string) : bool := String.prefix p s.

Definition string_in (s : string) (l : list string) : bool :=
  existsb (String.eqb s) l.

(** ** JSON views *)

(** A JSON response: the payload of a success, or the HTTP status of a
    response with ['success': False]. *)
Inductive Json (A : Type) : Type :=
| Success (payload : A)
| Failure (http_status : Z).

Arguments Success {A} payload.
Arguments Failure {A} http_status.

(** [api_quick_stop_order]. [order_id] is the posted order id, a number,
    [None] when it is missing or empty. [Http404] is an [Exception], so a
    missing order ends in the handler of the view, with status 500. *)
Definition api_quick_stop_order (db : Store) (user : User.t) (now : Time)
    (order_id : option Z) : Store * Json Z :=
  match order_id with
  | None => (db, Failure 400)
  | Some pk =>
      match get_scoped_order db user pk with
      | None => (db, Failure 500)
      | Some order =>
          let order :=
            if is_some (Order.started_at order) then order
            else Order.set_started_at (Some now) order in
          let order := Order.set_status completed order in
          let order := Order.set_completed_at (Some now) order in
          let order := Order.set_completion_date (Some now) order in
          let reference :=
            match Order.started_at order with
            | Some t => t
            | None => Order.created_at order
            end in
          let order :=
            Order.set_actual_duration (Some (whole_minutes (now - reference))) order in
          (save_order order db, Success (Order.id order))
      end
  end.

(** A JSON value as far as the views tell values apart: [null], a string,
    or another value (a number, a boolean, a list or an object) with its
    truth value. *)
Inductive JsonValue : Type :=
| JNull
| JString (s : string)
| JOther (truthy : bool).

(** What [json.loads(request.body)] gives in [api_record_overrun_reason]:
    it raises [UnicodeDecodeError] for bytes that are no text, it raises
    [json.JSONDecodeError] for text that is no JSON, and it returns the JSON
    value, which is an object or not. Of an object the view reads the
    ["reason"] entry, [None] when the object has none. *)
Inductive ReasonBody : Type :=
| Undecodable
| Malformed
| NotAnObject
| Object (reason : option JsonValue).

(** [(data.get('reason') or '').strip()] up to the call of [strip]: the
    text to strip, or [None] when the value is true and no string, which has
    no [strip]. *)
Definition reason_text (entry : option JsonValue) : option string :=
  match entry with
  | Some (JString s) => Some s
  | Some (JOther true) => None
  | _ => Some ""
  end.

(** [api_record_overrun_reason]. Only [json.JSONDecodeError] has a handler
    of its own, with status 400; every other exception, the [Http404] of the
    lookup among them, ends in the general handler, with status 500. *)
Definition api_record_overrun_reason (db : Store) (user : User.t) (now : Time)
    (order_id : Z) (data : ReasonBody) : Store * Json unit :=
  match data with
  | Undecodable => (db, Failure 500)
  | Malformed => (db, Failure 400)
  | NotAnObject => (db, Failure 500)
  | Object entry =>
      match reason_text entry with
      | None => (db, Failure 500)
      | Some text =>
          let reason := strip text in
          if is_empty reason then (db, Failure 400)
          else
            match get_scoped_order db user order_id with
            | None => (db, Failure 500)
            | Some order =>
                let order := Order.set_overrun_reason (Some reason) order in
                let order := Order.set_overrun_reported_at (Some now) order in
                let order := Order.set_overrun_reported_by (Some (User.id user)) order in
                (save_order order db, Success tt)
            end
      end
  end.

(** ** The started-order detail page *)

(** A posted field that the view reads with [int(...)]: absent or empty,
    text that [int] rejects with [ValueError], or a number. *)
Inductive PostInt : Type :=
| Absent
| NotANumber
| Number (z : Z).

Definition given (f : PostInt) : bool :=
  match f with Absent => false | _ => true end.

(** [request.POST.get(key, current)]. *)
Definition post_default (posted current : option string) : option string :=
  match posted with
  | Some v => Some v
  | None => current
  end.

(** [value or None]. *)
Definition or_none (s : option string) : option string :=
  if truthy_str s then s else None.

Record CustomerForm : Type := mkCustomerForm {
  post_full_name : option string;
  post_phone : option string;
  post_email : option string;
  post_address : option string;
  post_customer_type : option string;
  post_personal_subtype : option string
}.

Record OrderDetailsForm : Type := mkOrderDetailsForm {
  post_services : list string;
  post_labour_codes : list (option Z);
  post_estimated_duration : PostInt;
  post_item_id : PostInt;
  post_item_quantity : PostInt;
  post_order_type : option string;
  post_labour_code_id : PostInt;
  post_item_name_manual : option string;
  post_item_brand_manual : option string
}.

Inductive Action : Type :=
| update_customer (f : CustomerForm)
| update_vehicle (make model vehicle_type : option string)
| update_order_details (f : OrderDetailsForm)
| complete_order (delay_reason : PostInt) (delay_reason_comments : option string)
| other_action.

Inductive DetailError : Type :=
| DelayReasonRequired
| DelayReasonNotFound
| DelayReasonError.

Inductive DetailResponse : Type :=
| Http404
| Render (branch_mismatch exceeds_9_hours : bool) (order : Order.t)
| RedirectDashboard
| RedirectDetail (error : DetailError)
| ServerError.

(** [LabourCode.objects.get(id=..., is_active=True)]. *)
Definition get_active_labour_code (db : Store) (pk : Z) : option LabourCode.t :=
  find (fun lc => (LabourCode.id lc =? pk) && LabourCode.is_active lc) (labour_codes db).

Definition get_inventory_item (db : Store) (pk : Z) : option InventoryItem.t :=
  find (fun it => InventoryItem.id it =? pk) (inventory_items db).

(** [order.quantity = int(item_quantity)] under [if item_quantity] and its
    [try]. *)
Definition set_posted_quantity (q : PostInt) (order : Order.t) : Order.t :=
  match q with
  | Number z => Order.set_quantity (Some z) order
  | _ => order
  end.

(** Priority 1 of the item update: the labour code of [labour_code_id].
    Gives the updated order, or [None] when [item_updated] stays false. *)
Definition item_from_labour_code (db : Store) (f : OrderDetailsForm) (order : Order.t)
    : option Order.t :=
  match post_labour_code_id f with
  | Number pk =>
      match get_active_labour_code db pk with
      | Some labour_code =>
          if truthy_str (LabourCode.item_name labour_code) then
            let order := Order.set_item_name (LabourCode.item_name labour_code) order in
            let order :=
              Order.set_brand (Some (or_str (LabourCode.brand labour_code) "Unbranded")) order in
            let order :=
              if truthy_int (LabourCode.quantity labour_code)
              then Order.set_quantity (LabourCode.quantity labour_code) order else order in
            let order :=
              if truthy_str (LabourCode.tire_type labour_code)
              then Order.set_tire_type (LabourCode.tire_type labour_code) order else order in
            Some order
          else None
      | None => None
      end
  | _ => None
  end.

(** Priority 2: the manually typed item. *)
Definition item_from_manual_entry (f : OrderDetailsForm) (order : Order.t)
    : option Order.t :=
  if truthy_str (post_item_name_manual f) then
    let order := Order.set_item_name (post_item_name_manual f) order in
    let order := Order.set_brand (Some (or_str (post_item_brand_manual f) "Unbranded")) order in
    Some (set_posted_quantity (post_item_quantity f) order)
  else None.

(** Priority 3: the inventory item of [item_id]. *)
Definition item_from_inventory (db : Store) (f : OrderDetailsForm) (order : Order.t)
    : option Order.t :=
  match post_item_id f with
  | Number pk =>
      match get_inventory_item db pk with
      | Some item =>
          let order := Order.set_item_name (Some (InventoryItem.name item)) order in
          let order :=
            Order.set_brand
              (Some (match InventoryItem.brand item with
                     | Some b => b
                     | None => "Unbranded"
                     end)) order in
          Some (set_posted_quantity (post_item_quantity f) order)
      | None => None
      end
  | _ => None
  end.

(** The item and brand update of [update_order_details]: the three sources
    in turn, each tried only while [item_updated] is false. *)
Definition update_item (db : Store) (f : OrderDetailsForm) (order : Order.t) : Order.t :=
  if string_in (Order.type order) ["sales"; "service"; "labour"] then
    match item_from_labour_code db f order with
    | Some order' => order'
    | None =>
        match item_from_manual_entry f order with
        | Some order' => order'
        | None =>
            match item_from_inventory db f order with
            | Some order' => order'
            | None => order
            end
        end
    end
  else order.

(** [l.strip().lower().startswith(p)]. *)
Definition line_starts (p l : string) : bool := startswith (lower (strip l)) p.

(** ['\n'.join([l for l in lines if l.strip()])]. *)
Definition join_lines (lines : list string) : string :=
  join (String newline EmptyString) (filter (fun l => negb (is_empty (strip l))) lines).

(** The type change at the head of [update_order_details]. *)
Definition change_order_type (f : OrderDetailsForm) (order : Order.t) : Order.t :=
  match post_order_type f with
  | Some (String c s) =>
      let new_order_type := String c s in
      if negb (String.eqb new_order_type (Order.type order)) then
        let old_type := Order.type order in
        let order := Order.set_type new_order_type order in
        let order :=
          if String.eqb old_type "sales" then
            Order.set_quantity None (Order.set_brand None (Order.set_item_name None order))
          else order in
        Order.set_description (Some "") order
      else order
  | _ => order
  end.

(** The labour codes ticked in the form, written into the description. *)
Definition update_labour_codes (db : Store) (f : OrderDetailsForm) (order : Order.t)
    : Order.t :=
  if negb (is_empty_list (post_labour_codes f))
     && string_in (Order.type order) ["service"; "labour"] then
    let labour_code_items :=
      flat_map
        (fun lc_id =>
           match lc_id with
           | Some pk =>
               match get_active_labour_code db pk with
               | Some lc => [LabourCode.code lc ++ " - " ++ LabourCode.description lc]
               | None => []
               end
           | None => []
           end) (post_labour_codes f) in
    match labour_code_items with
    | [] => order
    | _ =>
        let base_desc := or_str (Order.description order) "" in
        let lines :=
          filter (fun l => negb (line_starts "labour codes:" l)) (split_lines base_desc) in
        let lines := (lines ++ [("Labour Codes: " ++ join "; " labour_code_items)%string])%list in
        Order.set_description (Some (join_lines lines)) order
    end
  else order.

(** The services and add-ons ticked in the form. *)
Definition update_services (f : OrderDetailsForm) (order : Order.t) : Order.t :=
  match post_services f with
  | [] => order
  | services =>
      let svc_text := join ", " services in
      let base_desc := or_str (Order.description order) "" in
      let lines :=
        filter
          (fun l => negb (line_starts "services:" l || line_starts "add-ons:" l
                          || line_starts "tire services:" l))
          (split_lines base_desc) in
      let lines :=
        if String.eqb (Order.type order) "sales"
        then (lines ++ [("Tire Services: " ++ svc_text)%string])%list
        else (lines ++ [("Services: " ++ svc_text)%string])%list in
      Order.set_description (Some (join_lines lines)) order
  end.

(** The [update_order_details] action up to [order.save()]. *)
Definition update_order_details_action (db : Store) (f : OrderDetailsForm)
    (order : Order.t) : Order.t :=
  let order := change_order_type f order in
  let order := update_item db f order in
  let order := update_labour_codes db f order in
  let order := update_services f order in
  match post_estimated_duration f with
  | Number est => Order.set_estimated_duration (Some est) order
  | _ => order
  end.

(** The [update_customer] action on the customer of the order. *)
Definition update_customer_action (f : CustomerForm) (c : Customer.t) : Customer.t :=
  let personal_subtype := strip (or_str (post_personal_subtype f) "") in
  {| Customer.id := Customer.id c;
     Customer.branch := Customer.branch c;
     Customer.full_name :=
       match post_full_name f with Some v => v | None => Customer.full_name c end;
     Customer.phone := post_default (post_phone f) (Customer.phone c);
     Customer.email := or_none (post_default (post_email f) (Customer.email c));
     Customer.address := or_none (post_default (post_address f) (Customer.address c));
     Customer.customer_type :=
       match post_customer_type f with Some v => v | None => Customer.customer_type c end;
     Customer.personal_subtype :=
       if is_empty personal_subtype then Customer.personal_subtype c
       else Some personal_subtype;
     Customer.organization_name := Customer.organization_name c;
     Customer.tax_number := Customer.tax_number c;
     Customer.total_visits := Customer.total_visits c;
     Customer.last_visit := Customer.last_visit c |}.

(** The [update_vehicle] action on the vehicle of the order. *)
Definition update_vehicle_action (make model vehicle_type : option string)
    (v : Vehicle.t) : Vehicle.t :=
  {| Vehicle.id := Vehicle.id v;
     Vehicle.customer := Vehicle.customer v;
     Vehicle.plate_number := Vehicle.plate_number v;
     Vehicle.make := post_default make (Vehicle.make v);
     Vehicle.model := post_default model (Vehicle.model v);
     Vehicle.vehicle_type := post_default vehicle_type (Vehicle.vehicle_type v) |}.

(** [order.actual_duration and order.actual_duration >= limit]. *)
Definition duration_reaches (limit : Z) (order : Order.t) : bool :=
  match Order.actual_duration order with
  | Some d => negb (d =? 0) && (limit <=? d)
  | None => false
  end.

Section DetailView.

(** [is_order_overdue] of [tracker.utils.time_utils] is not among the
    sources: it is taken as given, applied to [started_at] and the current
    time. *)
Variable is_order_overdue : Time -> Time -> bool.

(** [exceeds_9_hours] as the [complete_order] action computes it. *)
Definition exceeds_on_complete (now : Time) (order : Order.t) : bool :=
  match Order.started_at order with
  | Some started =>
      if status_eqb (Order.status order) in_progress then is_order_overdue started now
      else duration_reaches (9 * 60) order
  | None => false
  end.

(** [exceeds_9_hours] as the page computes it for display. *)
Definition exceeds_on_display (now : Time) (order : Order.t) : bool :=
  match Order.started_at order with
  | Some started =>
      if status_eqb (Order.status order) in_progress then is_order_overdue started now
      else duration_reaches (2 * 60) order
  | None => false
  end.

Definition report_delay_reason (user : User.t) (now : Time) (pk : Z) (order : Order.t)
    : Order.t :=
  let order := Order.set_delay_reason (Some pk) order in
  let order := Order.set_delay_reason_reported_at (Some now) order in
  Order.set_delay_reason_reported_by (Some (User.id user)) order.

(** [DelayReason.objects.get(id=...)] succeeds. *)
Definition delay_reason_exists (db : Store) (pk : Z) : bool :=
  existsb (Z.eqb pk) (delay_reasons db).

(** The optional comments of the completion form. *)
Definition save_comments (user : User.t) (now : Time) (comments : option string)
    (order : Order.t) : Order.t :=
  let comments := strip (or_str comments "") in
  if is_empty comments then order
  else
    let order := Order.set_overrun_reason (Some comments) order in
    let order :=
      Order.set_overrun_reported_at
        (match Order.overrun_reported_at order with
         | Some t => Some t
         | None => Some now
         end) order in
    Order.set_overrun_reported_by
      (match Order.overrun_reported_by order with
       | Some u => Some u
       | None => Some (User.id user)
       end) order.

(** The [try] block of the [complete_order] action: the order with its delay
    reason and comments, or the error the user is sent back with. *)
Definition handle_delay_reason (db : Store) (user : User.t) (now : Time)
    (order : Order.t) (delay_reason : PostInt) (comments : option string)
    : DetailError + Order.t :=
  let checked :=
    if exceeds_on_complete now order then
      match delay_reason with
      | Absent => inl DelayReasonRequired
      | NotANumber => inl DelayReasonError
      | Number pk =>
          if delay_reason_exists db pk
          then inr (Order.set_exceeded_9_hours true (report_delay_reason user now pk order))
          else inl DelayReasonNotFound
      end
    else
      match delay_reason with
      | Absent => inr order
      | NotANumber => inl DelayReasonError
      | Number pk =>
          if delay_reason_exists db pk
          then inr (report_delay_reason user now pk order)
          else inr order
      end in
  match checked with
  | inl e => inl e
  | inr order => inr (save_comments user now comments order)
  end.

(** The [complete_order] action. *)
Definition complete_order_action (db : Store) (user : User.t) (now : Time)
    (order : Order.t) (delay_reason : PostInt) (comments : option string)
    : Store * DetailResponse :=
  match handle_delay_reason db user now order delay_reason comments with
  | inl e => (db, RedirectDetail e)
  | inr order =>
      let order := Order.set_status completed order in
      let order := Order.set_completed_at (Some now) order in
      (save_order order db, RedirectDashboard)
  end.

(** [started_order_detail]: [post] is the posted action, [None] for a GET.
    The [update_order_details] action runs in a [try] whose handler only
    logs: when [order.save()] raises, nothing is written and the view goes
    on to render the page, with the order as the action left it in memory. *)
Definition started_order_detail (db : Store) (user : User.t) (now : Time)
    (order_id : Z) (post : option Action) : Store * DetailResponse :=
  let user_branch := get_user_branch user in
  match get_order db order_id with
  | None => (db, Http404)
  | Some order =>
      let branch_mismatch :=
        match user_branch, Order.branch order with
        | Some ub, Some ob => negb (ob =? Branch.id ub)
        | _, _ => false
        end in
      let render (db' : Store) :=
        (db', Render branch_mismatch (exceeds_on_display now order) order) in
      match post with
      | Some (update_customer f) =>
          match get_customer db (Order.customer order) with
          | Some c => render (save_customer (update_customer_action f c) db)
          | None => (db, ServerError)
          end
      | Some (update_vehicle make model vehicle_type) =>
          match Order.vehicle order with
          | Some vid =>
              match get_vehicle db vid with
              | Some v => render (save_vehicle (update_vehicle_action make model vehicle_type v) db)
              | None => (db, ServerError)
              end
          | None => render db
          end
      | Some (update_order_details f) =>
          let order := update_order_details_action db f order in
          if accepts_order db order then (save_order order db, RedirectDashboard)
          else (db, Render branch_mismatch (exceeds_on_display now order) order)
      | Some (complete_order delay_reason comments) =>
          complete_order_action db user now order delay_reason comments
      | Some other_action => render db
      | None => render db
      end
  end.

End DetailView.

(** ** Starting an order from a plate number *)

(** The plate as both views read it:
    [(data.get('plate_number') or '').strip().upper()]. *)
Definition normalize_plate (raw : option string) : string :=
  upper (strip (or_str raw "")).

(** The condition of
    [Vehicle.objects.filter(plate_number__iexact=..., customer__branch=...)]. *)
Definition vehicle_in_branch (db : Store) (plate_number : string)
    (user_branch : option Z) (v : Vehicle.t) : bool :=
  iexact (Vehicle.plate_number v) plate_number
  && match get_customer db (Vehicle.customer v) with
     | Some c => opt_eqb Z.eqb (Customer.branch c) user_branch
     | None => false
     end.

Definition find_vehicle (db : Store) (plate_number : string) (user_branch : option Z)
    : option Vehicle.t :=
  find (vehicle_in_branch db plate_number user_branch) (vehicles db).

(** [qs.order_by('-key').first()]: the row with the greatest key, the earliest
    such row of the table among equals. *)
Fixpoint latest_by {A : Type} (key : A -> Z) (l : list A) : option A :=
  match l with
  | [] => None
  | x :: l' =>
      match latest_by key l' with
      | Some y => if key x <? key y then Some y else Some x
      | None => Some x
      end
  end.

Definition on_vehicle (v : Vehicle.t) (o : Order.t) : bool :=
  opt_eqb Z.eqb (Order.vehicle o) (Some (Vehicle.id v)).

(** [Order.objects.filter(vehicle=v, status__in=sts).order_by('-created_at').first()]. *)
Definition latest_order_created (db : Store) (v : Vehicle.t) (sts : list Status)
    : option Order.t :=
  latest_by Order.created_at
    (filter (fun o => on_vehicle v o && status_in (Order.status o) sts) (orders db)).

(** The key of [order_by('-started_at')]; an order that was never started
    sorts last. *)
Definition started_key (o : Order.t) : Z :=
  match Order.started_at o with
  | Some t => 2 * t + 1
  | None => 0
  end.

Definition latest_order_started (db : Store) (v : Vehicle.t) (sts : list Status)
    : option Order.t :=
  latest_by started_key
    (filter (fun o => on_vehicle v o && status_in (Order.status o) sts) (orders db)).

Inductive CheckPlateResult : Type :=
| NotFound
| Found (customer_id : Z) (vehicle_id : Z).

(** [api_check_plate]. *)
Definition api_check_plate (db : Store) (user : User.t) (raw_plate : option string)
    : CheckPlateResult :=
  let plate_number := normalize_plate raw_plate in
  if is_empty plate_number then NotFound
  else
    let user_branch := option_map Branch.id (get_user_branch user) in
    match find_vehicle db plate_number user_branch with
    | None => NotFound
    | Some vehicle => Found (Vehicle.customer vehicle) (Vehicle.id vehicle)
    end.

Record StartOrderRequest : Type := mkStartOrderRequest {
  plate_number : option string;
  order_type : option string;
  use_existing_customer : bool;
  existing_customer_id : option Z;
  service_selection : list string;
  estimated_duration : option Z;
  force_new_order : bool
}.

Inductive StartOrderResult : Type :=
| ExistingOrder (order_id : Z) (order_number : string)
| ExistingCustomer (customer_id : Z) (vehicle_id : Z)
| OrderStarted (order_id : Z) (order_number : string) (order_status : Status).

Definition valid_order_types : list string :=
  ["service"; "sales"; "inquiry"; "labour"; "unspecified"; "mixed"].

Definition sum_minutes (l : list ServiceType.t) : Z :=
  fold_right (fun s acc => match ServiceType.estimated_minutes s with
                           | Some m => m
                           | None => 0
                           end + acc) 0 l.

(** The estimated duration of a service order: the minutes of the selected
    service types and add-ons when they add up to something. *)
Definition selected_duration (db : Store) (service_selection : list string)
    (order_type : string) (estimated_duration : option Z) : option Z :=
  if negb (is_empty_list service_selection) && String.eqb order_type "service" then
    let svc_objs :=
      filter (fun s => string_in (ServiceType.name s) service_selection
                       && ServiceType.is_active s) (service_types db) in
    let add_objs :=
      filter (fun a => string_in (ServiceType.name a) service_selection)
             (service_addons db) in
    let total_minutes := sum_minutes svc_objs + sum_minutes add_objs in
    if total_minutes =? 0 then estimated_duration else Some total_minutes
  else estimated_duration.

Definition start_description (plate_number : string) (service_selection : list string)
    : string :=
  let desc := "Order started" in
  let desc := if is_empty plate_number then desc else desc ++ " for " ++ plate_number in
  if is_empty_list service_selection then desc
  else desc ++ ": " ++ join ", " service_selection.

Definition next_id (ids : list Z) : Z := fold_right Z.max 0 ids + 1.

(** The [get] of the fallback [Customer.objects.get_or_create]. *)
Definition customer_matches (user_branch : option Z) (full_name : string)
    (phone : option string) (c : Customer.t) : bool :=
  opt_eqb Z.eqb (Customer.branch c) user_branch
  && String.eqb (Customer.full_name c) full_name
  && opt_eqb String.eqb (Customer.phone c) phone
  && negb (is_some (Customer.organization_name c))
  && negb (is_some (Customer.tax_number c)).

(** [Customer.objects.get_or_create(branch=..., full_name=..., phone=...,
    organization_name=None, tax_number=None,
    defaults={'customer_type': 'personal'})]. It raises when several rows
    match. A created row has the values of the call and, for the fields the
    call leaves out, no value and no visit. *)
Definition Customer_get_or_create (db : Store) (user_branch : option Z)
    (full_name : string) (phone : option string) : option (Store * Customer.t) :=
  match filter (customer_matches user_branch full_name phone) (customers db) with
  | [] =>
      let c :=
        {| Customer.id := next_id (map Customer.id (customers db));
           Customer.branch := user_branch;
           Customer.full_name := full_name;
           Customer.phone := phone;
           Customer.email := None;
           Customer.address := None;
           Customer.customer_type := "personal";
           Customer.personal_subtype := None;
           Customer.organization_name := None;
           Customer.tax_number := None;
           Customer.total_visits := 0;
           Customer.last_visit := None |} in
      Some (set_customers (customers db ++ [c]) db, c)
  | [c] => Some (db, c)
  | _ => None
  end.

Section StartOrder.

(** The services of [tracker.services] are not among the sources. Each is
    taken as a function of the database and the current time that gives the
    new database and its result, or [None] when it raises. *)
Variable create_or_get_customer :
  Store -> Time -> option Z -> string -> option string -> string ->
  option (Store * Customer.t).
Variable create_or_get_vehicle :
  Store -> Time -> Customer.t -> string -> option (Store * Vehicle.t).
Variable update_customer_visit : Store -> Time -> Customer.t -> option Store.
Variable create_order :
  Store -> Time -> Customer.t -> string -> option Z -> option Vehicle.t ->
  string -> string -> option Z -> option (Store * Order.t).

(** [timezone.now().strftime('%Y%m%d%H%M')]. *)
Variable strftime : Time -> string.

(** The customer made up from the plate when none was chosen. *)
Definition synthesize_customer (db : Store) (now : Time) (user_branch : option Z)
    (plate_number : string) : option (Store * Customer.t) :=
  let name_src :=
    if is_empty plate_number then "Customer " ++ strftime now else plate_number in
  let phone_src :=
    if is_empty plate_number then None else Some ("PLATE_" ++ plate_number) in
  let full_name := if is_empty plate_number then name_src else "Plate " ++ name_src in
  match create_or_get_customer db now user_branch full_name phone_src "personal" with
  | Some r => Some r
  | None => Customer_get_or_create db user_branch full_name phone_src
  end.

(** [CustomerService.update_customer_visit] inside [try ... except: pass]. *)
Definition touch_visit (db : Store) (now : Time) (customer : Customer.t) : Store :=
  match update_customer_visit db now customer with
  | Some db' => db'
  | None => db
  end.

(** The order the call answers with: a [created] order of the vehicle, else
    an [in_progress] or [overdue] one, else a new order. *)
Definition reuse_or_create (db : Store) (now : Time) (customer : Customer.t)
    (vehicle : option Vehicle.t) (force_new_order : bool) (order_type : string)
    (user_branch : option Z) (desc : string) (estimated_duration : option Z)
    : option (Store * Order.t) :=
  let reusable :=
    if force_new_order then None
    else match vehicle with
         | Some v =>
             match latest_order_created db v [created] with
             | Some existing_created => Some existing_created
             | None => latest_order_started db v [in_progress; overdue]
             end
         | None => None
         end in
  match reusable with
  | Some order => Some (touch_visit db now customer, order)
  | None =>
      create_order db now customer order_type user_branch vehicle desc "medium"
        (if truthy_int estimated_duration then estimated_duration else None)
  end.

(** The customer of [existing_customer_id] and the branch the call goes on
    with; [None] when [get_object_or_404] raises. *)
Definition preselected_customer (db : Store) (user_branch : option Z) (pk : Z)
    : option (Customer.t * option Z) :=
  match user_branch with
  | Some b =>
      match find (fun c => (Customer.id c =? pk)
                           && opt_eqb Z.eqb (Customer.branch c) (Some b)) (customers db) with
      | Some c => Some (c, user_branch)
      | None => None
      end
  | None =>
      match get_customer db pk with
      | Some c => Some (c, Customer.branch c)
      | None => None
      end
  end.

(** The part of [api_start_order] from the creation of the customer on. *)
Definition start_new_order (db : Store) (now : Time) (data : StartOrderRequest)
    (plate_number order_type : string) (user_branch : option Z)
    (customer : option Customer.t) : option (Store * Order.t) :=
  match (match customer with
         | Some c => Some (db, c)
         | None => synthesize_customer db now user_branch plate_number
         end) with
  | None => None
  | Some (db1, customer) =>
      match (if is_empty plate_number then Some (db1, None)
             else match create_or_get_vehicle db1 now customer plate_number with
                  | Some (db2, v) => Some (db2, Some v)
                  | None => None
                  end) with
      | None => None
      | Some (db2, vehicle) =>
          let estimated_duration :=
            selected_duration db2 (service_selection data) order_type
              (estimated_duration data) in
          let desc := start_description plate_number (service_selection data) in
          reuse_or_create db2 now customer vehicle (force_new_order data) order_type
            user_branch desc estimated_duration
      end
  end.

(** [api_start_order]. [data] is the parsed body, [None] when it is not
    JSON. An exception inside [transaction.atomic] rolls the database back and
    is answered with status 500. *)
Definition api_start_order (db : Store) (user : User.t) (now : Time)
    (data : option StartOrderRequest) : Store * Json StartOrderResult :=
  match data with
  | None => (db, Failure 400)
  | Some data =>
      let plate_number := normalize_plate (plate_number data) in
      let order_type :=
        match order_type data with Some t => t | None => "service" end in
      let preselected := truthy_int (existing_customer_id data) in
      if is_empty plate_number && negb (use_existing_customer data && preselected)
      then (db, Failure 400)
      else if negb (string_in order_type valid_order_types) then (db, Failure 400)
      else
        let user_branch := option_map Branch.id (get_user_branch user) in
        match (match existing_customer_id data with
               | Some pk =>
                   if preselected then
                     match preselected_customer db user_branch pk with
                     | Some (c, b) => Some (Some c, b)
                     | None => None
                     end
                   else Some (None, user_branch)
               | None => Some (None, user_branch)
               end) with
        | None => (db, Failure 500)
        | Some (customer, user_branch) =>
            let existing_vehicle :=
              if negb (is_empty plate_number) && negb preselected
                 && negb (force_new_order data)
              then find_vehicle db plate_number user_branch else None in
            match existing_vehicle with
            | Some v =>
                match latest_order_created db v [created; in_progress] with
                | Some existing_order =>
                    (db, Success (ExistingOrder (Order.id existing_order)
                                                (Order.order_number existing_order)))
                | None => (db, Success (ExistingCustomer (Vehicle.customer v) (Vehicle.id v)))
                end
            | None =>
                match start_new_order db now data plate_number order_type user_branch
                        customer with
                | Some (db', order) =>
                    (db', Success (OrderStarted (Order.id order) (Order.order_number order)
                                                (Order.status order)))
                | None => (db, Failure 500)
                end
            end
        end
  end.

End StartOrder.

(** ** A small shop *)

Module Shop.

(** One main branch with two sub-branches, and an unrelated main branch. *)
Definition main : Branch.t := Branch.mk 1 "Main" None.
Definition north : Branch.t := Branch.mk 2 "North" (Some 1).
Definition south : Branch.t := Branch.mk 3 "South" (Some 1).
Definition other : Branch.t := Branch.mk 4 "Other" None.
Definition branches : list Branch.t := [main; north; south; other].

(** Clerks are neither staff nor superusers. *)
Definition clerk_north : User.t := User.mk 11 false false (Some north).
Definition clerk_south : User.t := User.mk 12 false false (Some south).
Definition manager : User.t := User.mk 13 false false (Some main).
Definition root : User.t := User.mk 1 true true None.

Definition hour : Z := 60 * MINUTE.

(** A fresh order of branch [b], created at time [t]. *)
Definition new_order (pk : Z) (b : Z) (t : Time) : Order.t :=
  {| Order.id := pk; Order.order_number := "ORD"; Order.branch := Some b;
     Order.customer := 1; Order.vehicle := Some 1; Order.type := "service";
     Order.status := created; Order.priority := "medium";
     Order.description := Some "Order started for T123ABC";
     Order.item_name := None; Order.brand := None; Order.quantity := None;
     Order.tire_type := None; Order.estimated_duration := None;
     Order.actual_duration := None; Order.created_at := t;
     Order.started_at := None; Order.completed_at := None;
     Order.completion_date := None; Order.cancelled_at := None;
     Order.delay_reason := None; Order.delay_reason_reported_at := None;
     Order.delay_reason_reported_by := None; Order.exceeded_9_hours := false;
     Order.overrun_reason := None; Order.overrun_reported_at := None;
     Order.overrun_reported_by := None |}.

Definition driver : Customer.t :=
  {| Customer.id := 1; Customer.branch := Some 3; Customer.full_name := "Asha Driver";
     Customer.phone := Some "0712000000"; Customer.email := None;
     Customer.address := None; Customer.customer_type := "personal";
     Customer.personal_subtype := Some "driver"; Customer.organization_name := None;
     Customer.tax_number := None; Customer.total_visits := 1;
     Customer.last_visit := None |}.

Definition car : Vehicle.t :=
  {| Vehicle.id := 1; Vehicle.customer := 1; Vehicle.plate_number := "T123ABC";
     Vehicle.make := None; Vehicle.model := None; Vehicle.vehicle_type := None |}.

Definition tyre_code : LabourCode.t :=
  {| LabourCode.id := 5; LabourCode.code := "TY01"; LabourCode.description := "Tyre fitting";
     LabourCode.category := "tyre service"; LabourCode.item_name := Some "Tyre 205/55";
     LabourCode.brand := Some "Roadgrip"; LabourCode.quantity := Some 4;
     LabourCode.tire_type := Some "New"; LabourCode.is_active := true |}.

Definition oil_filter : InventoryItem.t :=
  {| InventoryItem.id := 9; InventoryItem.name := "Oil filter";
     InventoryItem.brand := Some "Filtra"; InventoryItem.quantity := Some 12;
     InventoryItem.is_active := true |}.

(** The table of orders of the shop keeps durations and quantities in
    32-bit columns that take no negative number: numbers of at most 31
    bits. *)
Definition small_integer (z : option Z) : bool :=
  match z with
  | Some n => (0 <=? n) && (Z.log2 n <? 31)
  | None => true
  end.

Definition order_columns (o : Order.t) : bool :=
  small_integer (Order.estimated_duration o) && small_integer (Order.quantity o).

(** The database with the given orders. *)
Definition db_with (os : list Order.t) : Store :=
  {| customers := [driver]; vehicles := [car]; orders := os;
     labour_codes := [tyre_code]; inventory_items := [oil_filter];
     service_types := [ServiceType.mk "Oil Change" (Some 30) true;
                       ServiceType.mk "Tire Rotation" (Some 30) true];
     service_addons := []; delay_reasons := [1; 2];
     accepts_order := order_columns |}.

(** Order 7 of the south branch: waiting, in progress, cancelled, completed. *)
Definition waiting : Order.t := new_order 7 3 0.
Definition running : Order.t :=
  Order.set_started_at (Some hour) (Order.set_status in_progress (new_order 7 3 0)).
Definition dropped : Order.t := Order.set_status cancelled (new_order 7 3 0).
Definition done : Order.t :=
  Order.set_actual_duration (Some 30)
    (Order.set_completed_at (Some (hour + 30 * MINUTE))
       (Order.set_status completed running)).

End Shop.

(** ** Saving an order in the admin site *)

(** [OrderAdmin.save_model]: [obj] is the order as the form left it; when the
    status of an existing order changed, the time of the change is stamped
    unless the order has one. [Order.objects.get] raises for a [change] of an
    order that is not in the table. *)
Definition OrderAdmin_save_model (db : Store) (now : Time) (obj : Order.t)
    (change : bool) : option Store :=
  if change then
    match get_order db (Order.id obj) with
    | None => None
    | Some old_obj =>
        let obj :=
          if negb (status_eqb (Order.status old_obj) (Order.status obj)) then
            if status_eqb (Order.status obj) completed
               && negb (is_some (Order.completed_at obj))
            then Order.set_completed_at (Some now) obj
            else if status_eqb (Order.status obj) cancelled
                    && negb (is_some (Order.cancelled_at obj))
            then Order.set_cancelled_at (Some now) obj
            else if status_eqb (Order.status obj) in_progress
                    && negb (is_some (Order.started_at obj))
            then Order.set_started_at (Some now) obj
            else obj
          else obj in
        Some (save_order obj db)
    end
  else Some (set_orders (orders db ++ [obj]) db).

(** ** What the start of an order needs from the services *)

(** The branch of the customer with key [pk], when there is one. *)
Definition customer_branch (db : Store) (pk : Z) : option (option Z) :=
  option_map Customer.branch (get_customer db pk).

(** Referential integrity of [Vehicle.customer]. *)
Definition vehicles_have_customers (db : Store) : bool :=
  forallb (fun v => is_some (get_customer db (Vehicle.customer v))) (vehicles db).

(** The contract of the services that [api_start_order] calls on the way to a
    new order, read off section 4.2 of the spec: the customer service, on a
    table with unique keys, gives a customer of the branch it is called with
    and touches customers only,
    leaving the branch of every other customer; the vehicle service gives a
    vehicle of that customer with that plate, an existing one or one it
    appends, and touches vehicles only; the order service appends one order,
    in state [created], on the vehicle it is given, and leaves vehicles and
    the branches of customers alone. *)
Record ServicesContract
    (create_or_get_customer :
       Store -> Time -> option Z -> string -> option string -> string ->
       option (Store * Customer.t))
    (create_or_get_vehicle :
       Store -> Time -> Customer.t -> string -> option (Store * Vehicle.t))
    (create_order :
       Store -> Time -> Customer.t -> string -> option Z -> option Vehicle.t ->
       string -> string -> option Z -> option (Store * Order.t)) : Prop :=
  mkServicesContract {
    customer_contract :
      forall db now b name phone ty db' c,
        NoDup (map Customer.id (customers db)) ->
        create_or_get_customer db now b name phone ty = Some (db', c) ->
        vehicles db' = vehicles db /\ orders db' = orders db
        /\ customer_branch db' (Customer.id c) = Some b
        /\ forall k x, customer_branch db k = Some x -> customer_branch db' k = Some x;
    vehicle_contract :
      forall db now c plate db' v,
        create_or_get_vehicle db now c plate = Some (db', v) ->
        customers db' = customers db /\ orders db' = orders db
        /\ Vehicle.customer v = Customer.id c
        /\ iexact (Vehicle.plate_number v) plate = true
        /\ ((vehicles db' = vehicles db /\ In v (vehicles db))
            \/ vehicles db' = (vehicles db ++ [v])%list);
    order_contract :
      forall db now c ty b v desc prio est db' o,
        create_order db now c ty b v desc prio est = Some (db', o) ->
        vehicles db' = vehicles db
        /\ (forall k x, customer_branch db k = Some x -> customer_branch db' k = Some x)
        /\ orders db' = (orders db ++ [o])%list
        /\ Order.vehicle o = option_map Vehicle.id v
        /\ Order.status o = created
  }.

(** ** A model of the services *)

Module Services.

(** Modelled from the spec: [CustomerService.create_or_get_customer] is not
    among the sources. Section 4.2 has it give the customer of the branch
    with that name and phone, created when there is none; a created customer
    has the type of the call and none of the values the call leaves out. *)
Definition create_or_get_customer (db : Store) (now : Time) (branch : option Z)
    (full_name : string) (phone : option string) (customer_type : string)
    : option (Store * Customer.t) :=
  match find (fun c => opt_eqb Z.eqb (Customer.branch c) branch
                       && String.eqb (Customer.full_name c) full_name
                       && opt_eqb String.eqb (Customer.phone c) phone)
             (customers db) with
  | Some c => Some (db, c)
  | None =>
      let c :=
        {| Customer.id := next_id (map Customer.id (customers db));
           Customer.branch := branch;
           Customer.full_name := full_name;
           Customer.phone := phone;
           Customer.email := None;
           Customer.address := None;
           Customer.customer_type := customer_type;
           Customer.personal_subtype := None;
           Customer.organization_name := None;
           Customer.tax_number := None;
           Customer.total_visits := 0;
           Customer.last_visit := None |} in
      Some (set_customers (customers db ++ [c]) db, c)
  end.

(** A customer service that raises, which sends [api_start_order] to its
    own [get_or_create]. *)
Definition failing_customer_service (db : Store) (now : Time) (branch : option Z)
    (full_name : string) (phone : option string) (customer_type : string)
    : option (Store * Customer.t) := None.

(** Modelled from the spec: [VehicleService.create_or_get_vehicle] is not
    among the sources. Section 4.2 has it upsert the vehicle of the customer
    with that plate. *)
Definition create_or_get_vehicle (db : Store) (now : Time) (customer : Customer.t)
    (plate_number : string) : option (Store * Vehicle.t) :=
  match find (fun v => (Vehicle.customer v =? Customer.id customer)
                       && iexact (Vehicle.plate_number v) plate_number)
             (vehicles db) with
  | Some v => Some (db, v)
  | None =>
      let v :=
        {| Vehicle.id := next_id (map Vehicle.id (vehicles db));
           Vehicle.customer := Customer.id customer;
           Vehicle.plate_number := plate_number;
           Vehicle.make := None; Vehicle.model := None;
           Vehicle.vehicle_type := None |} in
      Some (set_vehicles (vehicles db ++ [v]) db, v)
  end.

(** The visit counters of section 4.2: [total_visits += 1], [last_visit = now]. *)
Definition visit (now : Time) (c : Customer.t) : Customer.t :=
  {| Customer.id := Customer.id c; Customer.branch := Customer.branch c;
     Customer.full_name := Customer.full_name c; Customer.phone := Customer.phone c;
     Customer.email := Customer.email c; Customer.address := Customer.address c;
     Customer.customer_type := Customer.customer_type c;
     Customer.personal_subtype := Customer.personal_subtype c;
     Customer.organization_name := Customer.organization_name c;
     Customer.tax_number := Customer.tax_number c;
     Customer.total_visits := Customer.total_visits c + 1;
     Customer.last_visit := Some now |}.

(** Modelled from the spec: [CustomerService.update_customer_visit] is not
    among the sources. *)
Definition update_customer_visit (db : Store) (now : Time) (customer : Customer.t)
    : option Store :=
  Some (set_customers
          (map (fun r => if Customer.id r =? Customer.id customer then visit now r else r)
               (customers db)) db).

(** Modelled from the spec: [OrderService.create_order] is not among the
    sources. Section 4.2 has it create an order in state [created] and touch
    the visit counters of the customer once. The format of the order number
    is not specified. *)
Definition create_order (db : Store) (now : Time) (customer : Customer.t)
    (order_type : string) (branch : option Z) (vehicle : option Vehicle.t)
    (description priority : string) (estimated_duration : option Z)
    : option (Store * Order.t) :=
  let o :=
    {| Order.id := next_id (map Order.id (orders db)); Order.order_number := "ORD";
       Order.branch := branch; Order.customer := Customer.id customer;
       Order.vehicle := option_map Vehicle.id vehicle; Order.type := order_type;
       Order.status := created; Order.priority := priority;
       Order.description := Some description;
       Order.item_name := None; Order.brand := None; Order.quantity := None;
       Order.tire_type := None; Order.estimated_duration := estimated_duration;
       Order.actual_duration := None; Order.created_at := now;
       Order.started_at := None; Order.completed_at := None;
       Order.completion_date := None; Order.cancelled_at := None;
       Order.delay_reason := None; Order.delay_reason_reported_at := None;
       Order.delay_reason_reported_by := None; Order.exceeded_9_hours := false;
       Order.overrun_reason := None; Order.overrun_reported_at := None;
       Order.overrun_reported_by := None |} in
  match update_customer_visit db now customer with
  | Some db' => Some (set_orders (orders db' ++ [o]) db', o)
  | None => None
  end.

(** [strftime('%Y%m%d%H%M')] is not modelled: the label is only used for a
    call without a plate. *)
Definition strftime (now : Time) : string := "197001010000".

End Services.

(** The database before the first customer. *)
Definition empty_db : Store :=
  {| customers := []; vehicles := []; orders := []; labour_codes := [];
     inventory_items := [];
     service_types := [ServiceType.mk "Oil Change" (Some 30) true;
                       ServiceType.mk "Brake Service" (Some 45) true;
                       ServiceType.mk "Tire Rotation" (Some 30) true];
     service_addons := []; delay_reasons := [];
     accepts_order := Shop.order_columns |}.

(** A start request for a plate with every option at its default. *)
Definition start_request (plate : string) : StartOrderRequest :=
  {| plate_number := Some plate; order_type := None; use_existing_customer := false;
     existing_customer_id := None; service_selection := [];
     estimated_duration := None; force_new_order := false |}.

(** ** The customer invariant *)

Definition organizational : list string := ["company"; "government"; "ngo"].

(** The invariant of the data model: an organizational customer has an
    organization name and a tax number, a personal customer has a subtype. *)
Definition customer_invariant (c : Customer.t) : bool :=
  if string_in (Customer.customer_type c) organizational then
    truthy_str (Customer.organization_name c) && truthy_str (Customer.tax_number c)
  else if String.eqb (Customer.customer_type c) "personal" then
    truthy_str (Customer.personal_subtype c)
  else true.

(** The checks that [api_create_order_from_modal] and
    [api_update_order_from_extraction] run on the posted customer fields
    before they call the customer service. *)
Definition customer_fields_valid
    (customer_type personal_subtype organization_name tax_number : string) : bool :=
  string_in customer_type ["personal"; "company"; "government"; "ngo"]
  && negb (String.eqb customer_type "personal" && is_empty personal_subtype)
  && negb (string_in customer_type organizational
           && (is_empty organization_name || is_empty tax_number)).

(** The form of [update_customer] that changes the type to a company and
    nothing else. *)
Definition company_form : CustomerForm :=
  {| post_full_name := None; post_phone := None; post_email := None;
     post_address := None; post_customer_type := Some "company";
     post_personal_subtype := None |}.

(** ** Plates *)



(** ** Whitespace *)


(** ** Item candidates *)

(** The first candidate of section 4.4 resolves: the posted labour code id is
    that of an active labour code with a non-empty item name. *)
Definition labour_code_resolves (db : Store) (f : OrderDetailsForm) : bool :=
  match post_labour_code_id f with
  | Number pk =>
      match get_active_labour_code db pk with
      | Some lc => truthy_str (LabourCode.item_name lc)
      | None => false
      end
  | _ => false
  end.

(** A form that names labour code 5 and inventory item 9 and nothing else. *)
Definition code_and_item_form : OrderDetailsForm :=
  {| post_services := []; post_labour_codes := [];
     post_estimated_duration := Absent; post_item_id := Number 9;
     post_item_quantity := Absent; post_order_type := None;
     post_labour_code_id := Number 5; post_item_name_manual := None;
     post_item_brand_manual := None |}.

(** A form that posts a duration of 2^63 minutes and nothing else: [int]
    takes the number, the column of a database does not. *)
Definition long_duration_form : OrderDetailsForm :=
  {| post_services := []; post_labour_codes := [];
     post_estimated_duration := Number (2 ^ 63); post_item_id := Absent;
     post_item_quantity := Absent; post_order_type := None;
     post_labour_code_id := Absent; post_item_name_manual := None;
     post_item_brand_manual := None |}.

(** ** The overdue threshold *)

(** Modelled from the spec: [is_order_overdue] of [tracker.utils.time_utils]
    is not among the sources. Section 4.5 has an order in progress exceed the
    threshold when the time elapsed since [started_at] exceeds two hours. *)
Definition overdue_after_two_hours (started_at now : Time) : bool :=
  2 * 60 * MINUTE <? now - started_at.

(** ** Permissions and forms of the admin site *)

(** Modelled from the spec: [Branch.is_main_branch] of [tracker.models] is
    not among the sources. Section 3 has a main branch be a branch without a
    parent, which is how [BranchAdmin.get_branch_hierarchy] tells it. *)
Definition is_main_branch (b : Branch.t) : bool := negb (is_some (Branch.parent b)).

(** [BranchAdmin.has_add_permission]. *)
Definition has_add_permission (user : User.t) : bool :=
  if User.is_superuser user then true
  else match User.profile_branch user with
       | Some user_branch => is_main_branch user_branch
       | None => false
       end.

(** [BranchAdmin.has_delete_permission]; [obj] is [None] for the permission
    on the list as a whole. *)
Definition has_delete_permission (user : User.t) (obj : option Branch.t) : bool :=
  if User.is_superuser user then true
  else match obj with
       | None => false
       | Some obj =>
           match User.profile_branch user with
           | None => false
           | Some user_branch =>
               (Branch.id obj =? Branch.id user_branch)
               || opt_eqb Z.eqb (Branch.parent obj) (Some (Branch.id user_branch))
           end
       end.

(** [OrderAdmin.get_fieldsets]: the titles of the field sets with their
    fields, [obj] being [None] on the page that adds an order. *)
Definition get_fieldsets (obj : option Order.t) : list (string * list string) :=
  let has (p : Order.t -> bool) :=
    match obj with Some o => p o | None => false end in
  let fieldsets :=
    [("Basic Information",
      ["order_number"; "branch"; "customer"; "vehicle"; "type"; "priority"]);
     ("Status & Progress", ["status"; "description"])] in
  let fieldsets :=
    (fieldsets ++
     (if has (fun o => String.eqb (Order.type o) "service") then
        [("Service Details", ["item_name"; "brand"; "quantity"; "tire_type"])]
      else if has (fun o => String.eqb (Order.type o) "sales") then
        [("Sales Details", ["item_name"; "brand"; "quantity"])]
      else if has (fun o => String.eqb (Order.type o) "inquiry") then
        [("Consultation Details",
          ["inquiry_type"; "questions"; "contact_preference"; "follow_up_date"])]
      else []))%list in
  let fieldsets :=
    (fieldsets ++
     [("Assignment", ["assigned_to"]);
      ("Timestamps", ["created_at"; "started_at"; "completed_at"; "cancelled_at"])])%list in
  let fieldsets :=
    (fieldsets ++
     (if has (fun o => status_eqb (Order.status o) completed) then
        [("Completion & Signature",
          ["signature_file"; "completion_attachment"; "signed_by"; "signed_at"])]
      else []))%list in
  (fieldsets ++
   (if has (fun o => status_eqb (Order.status o) cancelled) then
      [("Cancellation", ["cancellation_reason"])]
    else []))%list.

(** [OrderAdmin.get_form]: the fields of the form that end up disabled,
    [base_fields] being the fields the form has. *)
Definition get_form (base_fields : list string) (obj : option Order.t) : list string :=
  match obj with
  | Some o =>
      if status_in (Order.status o) [completed; cancelled] then
        filter (fun field => string_in field base_fields)
               ["status"; "type"; "priority"; "description"]
      else []
  | None => []
  end.

(** The choices of the status field in the form that [get_form] returns.
    [ModelAdmin.get_form] makes the form fields by calling
    [formfield_for_dbfield(db_field, request=request)], which hands the
    keyword arguments of the field on to [formfield_for_choice_field]: there
    is no ['obj'] among them, for a new order and for an existing one alike,
    and [OrderAdmin.get_form] adds none. *)
Definition form_status_choices (obj : option Order.t) : list Status :=
  formfield_for_choice_field None.

(** ** Key figures of the started orders *)

(** The condition [branch=user_branch] of a query. *)
Definition in_user_branch (user : User.t) (o : Order.t) : bool :=
  opt_eqb Z.eqb (Order.branch o) (option_map Branch.id (get_user_branch user)).

(** [values('vehicle__plate_number')] of orders that have a vehicle. *)
Definition vehicle_plates (db : Store) (os : list Order.t) : list string :=
  flat_map (fun o => match Order.vehicle o with
                     | Some vid =>
                         match get_vehicle db vid with
                         | Some v => [Vehicle.plate_number v]
                         | None => []
                         end
                     | None => []
                     end) os.

Definition count_plate (p : string) (plates : list string) : nat :=
  List.length (filter (String.eqb p) plates).

(** [.annotate(order_count=Count('id')).filter(order_count__gte=2).count()]:
    the number of plates that occur at least twice. *)
Definition repeated_plates (plates : list string) : nat :=
  List.length
    (filter (fun p => Nat.leb 2 (count_plate p plates)) (nodup string_dec plates)).

Section Dates.

(** [datetime.date()] in the current time zone, as a day number. *)
Variable date : Time -> Z.

(** [api_started_orders_kpis]: [total_started], [today_started] and
    [repeated_vehicles_today]. *)
Definition api_started_orders_kpis (db : Store) (user : User.t) (now : Time)
    : nat * nat * nat :=
  let today := date now in
  let total_started :=
    List.length
      (filter (fun o => in_user_branch user o
                        && status_in (Order.status o) [created; in_progress])
              (orders db)) in
  let today_started :=
    List.length
      (filter (fun o => in_user_branch user o
                        && (date (Order.created_at o) =? today)
                        && status_in (Order.status o) [created; in_progress])
              (orders db)) in
  let today_orders :=
    filter (fun o => in_user_branch user o
                     && (date (Order.created_at o) =? today)
                     && is_some (Order.vehicle o))
           (orders db) in
  (total_started, today_started, repeated_plates (vehicle_plates db today_orders)).

End Dates.

(** ** Orders by plate *)

(** The plate under which the dashboard files an order. *)
Definition plate_of (db : Store) (o : Order.t) : string :=
  match Order.vehicle o with
  | Some vid =>
      match get_vehicle db vid with
      | Some v => Vehicle.plate_number v
      | None => "Unknown"
      end
  | None => "Unknown"
  end.

(** [orders_by_plate[plate].append(order)], the key being added when it is
    not there; a dictionary keeps its keys in the order they were added. *)
Fixpoint append_to_plate (plate : string) (o : Order.t)
    (groups : list (string * list Order.t)) : list (string * list Order.t) :=
  match groups with
  | [] => [(plate, [o])]
  | (p, os) :: rest =>
      if String.eqb p plate then (p, (os ++ [o])%list) :: rest
      else (p, os) :: append_to_plate plate o rest
  end.

(** The loop of [started_orders_dashboard] that groups the orders. *)
Definition orders_by_plate (db : Store) (os : list Order.t)
    : list (string * list Order.t) :=
  fold_left (fun groups o => append_to_plate (plate_of db o) o groups) os [].

(** [orders_by_plate.get(plate)]. *)
Definition plate_group (plate : string) (groups : list (string * list Order.t))
    : option (list Order.t) :=
  option_map snd (find (fun g => String.eqb (fst g) plate) groups).

(** ** Looking up a labour code *)

Section LabourLookup.

(** The queries of the [LabourCode] model are not among the sources: they
    are taken as given. *)
Variable lookup_by_code : Store -> string -> option LabourCode.t.
Variable lookup_by_name : Store -> string -> option string -> option LabourCode.t.
Variable search_by_description : Store -> string -> option string -> list LabourCode.t.

(** [api_lookup_labour_code]: the labour codes of the answer, for the query
    parameters [item_name], [code] and [category] ([None] when absent). *)
Definition api_lookup_labour_code (db : Store) (item_name code category : option string)
    : list LabourCode.t :=
  let item_name := strip (or_str item_name "") in
  let code := strip (or_str code "") in
  let category := strip (or_str category "") in
  let category := if is_empty category then None else Some category in
  if negb (is_empty code) then
    match lookup_by_code db code with
    | Some lc => [lc]
    | None => []
    end
  else if negb (is_empty item_name) then
    match lookup_by_name db item_name category with
    | Some lc => [lc]
    | None => firstn 10 (search_by_description db item_name category)
    end
  else [].

End LabourLookup.

(** ** Seeding the service catalogue *)

(** [service_types_data] and [service_addons_data] of the seed command. *)
Definition service_types_data : list (string * Z) :=
  [("Oil Change", 30); ("Brake Service", 45); ("Tire Rotation", 30);
   ("Engine Tune-up", 60); ("Transmission Service", 90);
   ("Battery Replacement", 20); ("Air Filter Change", 15);
   ("Wheel Alignment", 45); ("Suspension Repair", 75);
   ("Exhaust System Repair", 60); ("Radiator Flush", 45); ("AC Service", 60);
   ("Spark Plug Replacement", 30); ("Brake Pad Replacement", 25);
   ("Coolant Replacement", 30); ("Power Steering Fluid", 20);
   ("General Maintenance", 50)].

Definition service_addons_data : list (string * Z) :=
  [("Wheel Balancing", 20); ("Tire Installation", 30); ("Wheel Mounting", 25);
   ("Tire Repair", 15); ("Alignment Check", 20); ("Suspension Inspection", 30);
   ("Brake Fluid Replacement", 20); ("Engine Cleaning", 45);
   ("Cabin Air Filter", 15); ("Battery Testing", 10);
   ("Headlight Restoration", 20); ("Undercarriage Wash", 30);
   ("Transmission Fluid Flush", 45); ("Differential Service", 40);
   ("Engine Oil Top-up", 5); ("Windshield Treatment", 15)].

(** [Model.objects.get_or_create(name=..., defaults={'estimated_minutes': ...,
    'is_active': True})] on a table of service types or add-ons: the table
    after the call and whether a row was created, [None] when several rows
    have the name and the call raises. *)
Definition get_or_create_by_name (table : list ServiceType.t) (name : string)
    (minutes : Z) : option (list ServiceType.t * bool) :=
  match filter (fun s => String.eqb (ServiceType.name s) name) table with
  | [] => Some ((table ++ [ServiceType.mk name (Some minutes) true])%list, true)
  | [_] => Some (table, false)
  | _ => None
  end.

(** One loop of the seed command over its data: the table it leaves and the
    number of rows it created, [None] in place of the number when a call
    raised, the rows created before that staying in the table. *)
Fixpoint seed_loop (data : list (string * Z)) (table : list ServiceType.t)
    (created_count : nat) : list ServiceType.t * option nat :=
  match data with
  | [] => (table, Some created_count)
  | (name, minutes) :: data' =>
      match get_or_create_by_name table name minutes with
      | Some (table', was_created) =>
          seed_loop data' table' (if was_created then S created_count else created_count)
      | None => (table, None)
      end
  end.

Definition seed_service_types (table : list ServiceType.t) :=
  seed_loop service_types_data table 0.

Definition seed_service_addons (table : list ServiceType.t) :=
  seed_loop service_addons_data table 0.

(** The rows of a table with a given name. *)
Definition rows_named (name : string) (table : list ServiceType.t) : list ServiceType.t :=
  filter (fun s => String.eqb (ServiceType.name s) name) table.

(** ** What an update of the order details leaves alone *)

(** The fields of an order that say whose it is and where it stands. *)
Definition lifecycle (o : Order.t) :=
  (Order.id o, Order.order_number o, Order.branch o, Order.customer o, Order.vehicle o,
   Order.status o, Order.priority o,
   (Order.created_at o, Order.started_at o, Order.completed_at o,
    Order.completion_date o, Order.cancelled_at o, Order.actual_duration o),
   (Order.delay_reason o, Order.delay_reason_reported_at o,
    Order.delay_reason_reported_by o, Order.exceeded_9_hours o),
   (Order.overrun_reason o, Order.overrun_reported_at o, Order.overrun_reported_by o)).

(** ** Lines of a description *)

(** A string with a line break in it. *)
Fixpoint has_newline (s : string) : bool :=
  match s with
  | EmptyString => false
  | String c s' => Ascii.eqb c newline || has_newline s'
  end.

(** The test that [update_order_details] uses to drop the lines of the
    services from a description. *)
Definition is_services_line (l : string) : bool :=
  line_starts "services:" l || line_starts "add-ons:" l
  || line_starts "tire services:" l.

(** * Properties *)

(** ** Reading back what was saved *)

Lemma opt_eqb_Z_refl (x : option Z) : opt_eqb Z.eqb x x = true.
Proof. destruct x; simpl; [apply Z.eqb_refl | reflexivity]. Qed.

Lemma opt_eqb_Z_eq (x y : option Z) : opt_eqb Z.eqb x y = true -> x = y.
Proof.
  destruct x, y; simpl; intro H; try discriminate; [|reflexivity].
  apply Z.eqb_eq in H. now subst.
Qed.

Lemma status_eqb_eq (a b : Status) : status_eqb a b = true <-> a = b.
Proof. destruct a, b; simpl; split; intro H; try reflexivity; discriminate H. Qed.

Lemma status_eqb_refl (a : Status) : status_eqb a a = true.
Proof. destruct a; reflexivity. Qed.

Lemma find_order_id (p : Order.t -> bool) (pk : Z) (l : list Order.t) (o : Order.t) :
  find (fun r => (Order.id r =? pk) && p r) l = Some o -> Order.id o = pk /\ p o = true.
Proof.
  intro H. apply find_some in H. destruct H as [_ H].
  apply andb_true_iff in H. destruct H as [H1 H2].
  split; [now apply Z.eqb_eq | exact H2].
Qed.

Lemma get_order_id (db : Store) (pk : Z) (o : Order.t) :
  get_order db pk = Some o -> Order.id o = pk.
Proof.
  unfold get_order. intro H. apply find_some in H. destruct H as [_ H].
  now apply Z.eqb_eq.
Qed.

Lemma get_order_in_branch_sound (db : Store) (pk : Z) (b : Branch.t) (o : Order.t) :
  get_order_in_branch db pk b = Some o ->
  Order.id o = pk /\ Order.branch o = Some (Branch.id b).
Proof.
  unfold get_order_in_branch. intro H. apply find_order_id in H.
  destruct H as [H1 H2]. split; [exact H1|].
  destruct (Order.branch o) as [ob|]; simpl in H2; [|discriminate].
  apply Z.eqb_eq in H2. now subst.
Qed.

Lemma get_scoped_order_id (db : Store) (user : User.t) (pk : Z) (o : Order.t) :
  get_scoped_order db user pk = Some o -> Order.id o = pk.
Proof.
  unfold get_scoped_order.
  destruct (get_user_branch user) as [b|]; [destruct (negb (is_admin user))|];
    intro H; try (now apply get_order_id in H).
  now apply get_order_in_branch_sound in H.
Qed.

(** A row that exists is read back after a save under its key. *)
Lemma find_saved (pk : Z) (o o' : Order.t) (l : list Order.t) :
  find (fun r => Order.id r =? pk) l = Some o -> Order.id o' = pk ->
  find (fun r => Order.id r =? pk)
       (map (fun r => if Order.id r =? Order.id o' then o' else r) l) = Some o'.
Proof.
  intros Hfind Hid. rewrite Hid.
  induction l as [|r l IH]; simpl in *; [discriminate|].
  destruct (Order.id r =? pk) eqn:E; simpl.
  - rewrite Hid, Z.eqb_refl. reflexivity.
  - rewrite E. now apply IH.
Qed.

Lemma get_order_saved (db : Store) (pk : Z) (o o' : Order.t) :
  get_order db pk = Some o -> Order.id o' = pk ->
  get_order (save_order o' db) pk = Some o'.
Proof.
  intros Hget Hid. unfold get_order, save_order. simpl.
  now apply find_saved with (o := o).
Qed.

Lemma get_scoped_order_get (db : Store) (user : User.t) (pk : Z) (o : Order.t) :
  get_scoped_order db user pk = Some o -> exists o0, get_order db pk = Some o0.
Proof.
  intro H. pose proof (get_scoped_order_id _ _ _ H) as Hid.
  assert (In o (orders db)) as Hin.
  { unfold get_scoped_order, get_order, get_order_in_branch in H.
    destruct (get_user_branch user); [destruct (negb (is_admin user))|];
      now apply find_some in H. }
  unfold get_order.
  destruct (find (fun r => Order.id r =? pk) (orders db)) as [o0|] eqn:E; [eauto|].
  exfalso. apply (find_none _ _ E) in Hin. rewrite Hid, Z.eqb_refl in Hin. discriminate.
Qed.

(** ** Whole minutes *)




(** ** Quick stop *)


(** On an order that was never started the quick stop first sets
    [started_at] to the current time, so the duration it measures is zero. *)
Lemma quick_stop_never_started (db : Store) (user : User.t) (now : Time) (pk : Z)
    (o : Order.t) :
  get_scoped_order db user pk = Some o -> Order.started_at o = None ->
  exists o',
    api_quick_stop_order db user now (Some pk) = (save_order o' db, Success pk)
    /\ get_order (save_order o' db) pk = Some o'
    /\ Order.status o' = completed
    /\ Order.completed_at o' = Some now
    /\ Order.started_at o' = Some now
    /\ Order.actual_duration o' = Some 0.
Proof.
  intros Hget Hs.
  pose proof (get_scoped_order_id _ _ _ Hget) as Hid.
  destruct (get_scoped_order_get _ _ _ Hget) as [o0 Hget0].
  unfold api_quick_stop_order. rewrite Hget, Hs. simpl.
  eexists. split; [rewrite Hid; reflexivity|].
  split; [apply get_order_saved with (o := o0); [exact Hget0 | exact Hid]|].
  simpl. rewrite Z.sub_diag. auto.
Qed.


(** ** Overrun reports *)

(** The comments of the completion form keep the first report: time and
    reporter, once set, stay. *)
Lemma save_comments_sticky (user : User.t) (now t : Time) (u : Z)
    (comments : option string) (o : Order.t) :
  Order.overrun_reported_at o = Some t -> Order.overrun_reported_by o = Some u ->
  Order.overrun_reported_at (save_comments user now comments o) = Some t
  /\ Order.overrun_reported_by (save_comments user now comments o) = Some u.
Proof.
  intros Ht Hu. unfold save_comments.
  destruct (is_empty (strip (or_str comments ""))); simpl.
  - auto.
  - rewrite Ht, Hu. auto.
Qed.

(** The overrun report writes the time and the reporter of the call,
    whatever the order held. *)
Lemma record_overrun_overwrites (db : Store) (user : User.t) (now : Time) (pk : Z)
    (reason : string) (o : Order.t) :
  is_empty (strip reason) = false -> get_scoped_order db user pk = Some o ->
  exists o',
    api_record_overrun_reason db user now pk (Object (Some (JString reason)))
      = (save_order o' db, Success tt)
    /\ get_order (save_order o' db) pk = Some o'
    /\ Order.overrun_reported_at o' = Some now
    /\ Order.overrun_reported_by o' = Some (User.id user).
Proof.
  intros Hr Hget.
  pose proof (get_scoped_order_id _ _ _ Hget) as Hid.
  destruct (get_scoped_order_get _ _ _ Hget) as [o0 Hget0].
  unfold api_record_overrun_reason, reason_text. rewrite Hr, Hget.
  eexists. split; [reflexivity|].
  split; [apply get_order_saved with (o := o0); [exact Hget0 | exact Hid]|].
  simpl. auto.
Qed.

(** C7, at the failing input. The clerk of the south branch reported an
    overrun after one hour; a second report, sent by the superuser an hour
    later, replaces the time and the reporter of the first. *)
Theorem record_overrun_replaces_first_report :
  let reported :=
    Order.set_overrun_reported_by (Some 12)
      (Order.set_overrun_reported_at (Some Shop.hour)
         (Order.set_overrun_reason (Some "parts late") Shop.running)) in
  let result :=
    api_record_overrun_reason (Shop.db_with [reported]) Shop.root (2 * Shop.hour) 7
      (Object (Some (JString "still waiting"))) in
  snd result = Success tt
  /\ option_map Order.overrun_reported_at (get_order (fst result) 7)
     = Some (Some (2 * Shop.hour))
  /\ option_map Order.overrun_reported_by (get_order (fst result) 7) = Some (Some 1).
Proof. vm_compute. repeat split; reflexivity. Qed.

(** ** The status table and the views that complete an order *)

(** Given the order, the hook offers the current status and the targets of
    the table, nothing else. *)
Lemma formfield_choices (o : Order.t) (k : Status) :
  In k (formfield_for_choice_field (Some o))
  <-> k = Order.status o \/ In k (transitions (Order.status o)).
Proof.
  unfold formfield_for_choice_field.
  destruct (Order.status o), k; simpl; intuition discriminate.
Qed.

(** The table has no way out of a terminal status. *)
Lemma terminal_has_no_target (s k : Status) :
  s = completed \/ s = cancelled -> ~ In k (transitions s).
Proof. intros [H|H]; subst; simpl; tauto. Qed.

Lemma set_status_same (o : Order.t) (s : Status) :
  Order.status o = s -> Order.set_status s o = o.
Proof. destruct o; simpl; intro H; subst; reflexivity. Qed.

(** C3, at the failing input. The table of the admin site has no transition
    from [cancelled] to [completed]; the quick stop of a cancelled order by a
    clerk of its branch succeeds all the same and leaves the order completed,
    and so does the complete action of the detail page. *)
Theorem quick_stop_completes_cancelled_order :
  let stopped :=
    api_quick_stop_order (Shop.db_with [Shop.dropped]) Shop.clerk_south Shop.hour
      (Some 7) in
  let finished :=
    started_order_detail overdue_after_two_hours (Shop.db_with [Shop.dropped])
      Shop.clerk_south Shop.hour 7 (Some (complete_order Absent None)) in
  status_in completed (transitions cancelled) = false
  /\ Order.status Shop.dropped = cancelled
  /\ snd stopped = Success 7
  /\ option_map Order.status (get_order (fst stopped) 7) = Some completed
  /\ snd finished = RedirectDashboard
  /\ option_map Order.status (get_order (fst finished) 7) = Some completed.
Proof. vm_compute. repeat split; reflexivity. Qed.

(** Completing again an order that is completed and was started succeeds
    and keeps the status, but stamps the time of the repeated call: the quick
    stop rewrites [completed_at], [completion_date] and the duration since
    [started_at]; the complete action, when the stored duration asks for no
    delay reason, rewrites [completed_at]. *)
Lemma completing_again_restamps (is_order_overdue : Time -> Time -> bool)
    (db : Store) (user : User.t) (now s : Time) (pk : Z) (o : Order.t) :
  get_order db pk = Some o -> get_scoped_order db user pk = Some o ->
  Order.status o = completed -> Order.started_at o = Some s ->
  api_quick_stop_order db user now (Some pk)
  = (save_order
       (Order.set_actual_duration (Some (whole_minutes (now - s)))
          (Order.set_completion_date (Some now) (Order.set_completed_at (Some now) o)))
       db, Success pk)
  /\ (duration_reaches (9 * 60) o = false ->
      started_order_detail is_order_overdue db user now pk
        (Some (complete_order Absent None))
      = (save_order (Order.set_completed_at (Some now) o) db, RedirectDashboard)).
Proof.
  intros Hget Hscoped Hst Hs.
  pose proof (get_order_id _ _ Hget) as Hid. split.
  - unfold api_quick_stop_order. rewrite Hscoped, Hs. simpl. rewrite Hs.
    rewrite (set_status_same o Hst), Hid. reflexivity.
  - intro Hd. unfold started_order_detail. rewrite Hget.
    unfold complete_order_action, handle_delay_reason, exceeds_on_complete.
    rewrite Hs, Hst, Hd. simpl.
    change (save_comments user now None o) with o.
    rewrite (set_status_same o Hst). reflexivity.
Qed.

(** C4, at the failing input. Order 7, started at hour 1, is stopped at
    hour 2 and stopped again at hour 3. Both calls report success, but the
    second replaces [completed_at] (hour 2 by hour 3) and [actual_duration]
    (60 by 120): the order is not what it was after the first call. The
    complete action of the detail page, run on the stopped order at hour 3,
    replaces [completed_at] in the same way. The admin site is the sibling
    that keeps the time: saving the stopped order there at hour 3 leaves
    [completed_at] at hour 2. *)
Theorem repeated_completion_is_not_a_noop :
  let first :=
    api_quick_stop_order (Shop.db_with [Shop.running]) Shop.clerk_south
      (2 * Shop.hour) (Some 7) in
  let second :=
    api_quick_stop_order (fst first) Shop.clerk_south (3 * Shop.hour) (Some 7) in
  let again :=
    started_order_detail overdue_after_two_hours (fst first) Shop.clerk_south
      (3 * Shop.hour) 7 (Some (complete_order Absent None)) in
  let in_admin :=
    match get_order (fst first) 7 with
    | Some stopped => OrderAdmin_save_model (fst first) (3 * Shop.hour) stopped true
    | None => None
    end in
  snd first = Success 7
  /\ option_map Order.status (get_order (fst first) 7) = Some completed
  /\ option_map Order.completed_at (get_order (fst first) 7) = Some (Some (2 * Shop.hour))
  /\ option_map Order.actual_duration (get_order (fst first) 7) = Some (Some 60)
  /\ snd second = Success 7
  /\ option_map Order.completed_at (get_order (fst second) 7) = Some (Some (3 * Shop.hour))
  /\ option_map Order.actual_duration (get_order (fst second) 7) = Some (Some 120)
  /\ get_order (fst second) 7 <> get_order (fst first) 7
  /\ snd again = RedirectDashboard
  /\ option_map Order.completed_at (get_order (fst again) 7) = Some (Some (3 * Shop.hour))
  /\ get_order (fst again) 7 <> get_order (fst first) 7
  /\ option_map (fun db' => get_order db' 7) in_admin = Some (get_order (fst first) 7).
Proof.
  vm_compute. repeat split; try reflexivity; intro H; discriminate H.
Qed.

(** ** Delay reasons on completion *)

Lemma save_comments_keeps_delay (user : User.t) (now : Time) (comments : option string)
    (o : Order.t) :
  Order.delay_reason (save_comments user now comments o) = Order.delay_reason o
  /\ Order.delay_reason_reported_at (save_comments user now comments o)
     = Order.delay_reason_reported_at o
  /\ Order.delay_reason_reported_by (save_comments user now comments o)
     = Order.delay_reason_reported_by o.
Proof.
  unfold save_comments. destruct (is_empty (strip (or_str comments ""))); simpl; auto.
Qed.

(** C2 as stated fails: an order created at time 0 and never started is
    completed three hours later with no delay reason, and the completion goes
    through. *)
Lemma unstarted_order_completes_without_reason :
  let now := 3 * Shop.hour in
  let result :=
    started_order_detail overdue_after_two_hours (Shop.db_with [Shop.waiting])
      Shop.clerk_south now 7 (Some (complete_order Absent None)) in
  Order.started_at Shop.waiting = None
  /\ (now - Order.created_at Shop.waiting) / MINUTE = 180
  /\ snd result = RedirectDashboard
  /\ option_map Order.status (get_order (fst result) 7) = Some completed.
Proof. vm_compute. repeat split; reflexivity. Qed.

(** C2, amended. For an order in progress that [is_order_overdue] reports
    past the threshold, completing without a delay reason is refused with
    [DelayReasonRequired] and nothing is written; with a delay reason that
    exists the completion succeeds and stamps the reason, its time and its
    reporter. An order that was never started is completed without being
    asked for a reason. *)
Theorem delay_reason_on_completion (is_order_overdue : Time -> Time -> bool)
    (db : Store) (user : User.t) (now : Time) (pk : Z) (o : Order.t)
    (comments : option string) :
  get_order db pk = Some o ->
  (forall s, Order.status o = in_progress -> Order.started_at o = Some s ->
             is_order_overdue s now = true ->
     started_order_detail is_order_overdue db user now pk
       (Some (complete_order Absent comments))
     = (db, RedirectDetail DelayReasonRequired)
     /\ forall reason, delay_reason_exists db reason = true ->
        exists o',
          started_order_detail is_order_overdue db user now pk
            (Some (complete_order (Number reason) comments))
          = (save_order o' db, RedirectDashboard)
          /\ get_order (save_order o' db) pk = Some o'
          /\ Order.status o' = completed
          /\ Order.completed_at o' = Some now
          /\ Order.delay_reason o' = Some reason
          /\ Order.delay_reason_reported_at o' = Some now
          /\ Order.delay_reason_reported_by o' = Some (User.id user))
  /\ (Order.started_at o = None ->
      exists o',
        started_order_detail is_order_overdue db user now pk
          (Some (complete_order Absent comments))
        = (save_order o' db, RedirectDashboard)
        /\ get_order (save_order o' db) pk = Some o'
        /\ Order.status o' = completed).
Proof.
  intro Hget. pose proof (get_order_id _ _ Hget) as Hid. split.
  - intros s Hst Hs Hover. split.
    + unfold started_order_detail. rewrite Hget.
      unfold complete_order_action, handle_delay_reason, exceeds_on_complete.
      rewrite Hs, Hst. simpl. rewrite Hover. reflexivity.
    + intros reason Hex.
      unfold started_order_detail. rewrite Hget.
      unfold complete_order_action, handle_delay_reason, exceeds_on_complete.
      rewrite Hs, Hst. simpl status_eqb. cbv iota. rewrite Hover, Hex.
      eexists. split; [reflexivity|].
      split; [apply get_order_saved with (o := o); [exact Hget|]|].
      * unfold save_comments.
        destruct (is_empty (strip (or_str comments ""))); exact Hid.
      * cbn [Order.status Order.completed_at Order.delay_reason
             Order.delay_reason_reported_at Order.delay_reason_reported_by
             Order.set_status Order.set_completed_at].
        destruct (save_comments_keeps_delay user now comments
                    (Order.set_exceeded_9_hours true
                       (report_delay_reason user now reason o))) as (E1 & E2 & E3).
        rewrite E1, E2, E3. simpl. auto.
  - intro Hs. unfold started_order_detail. rewrite Hget.
    unfold complete_order_action, handle_delay_reason, exceeds_on_complete.
    rewrite Hs.
    eexists. split; [reflexivity|].
    split; [apply get_order_saved with (o := o); [exact Hget|]|reflexivity].
    unfold save_comments.
    destruct (is_empty (strip (or_str comments ""))); exact Hid.
Qed.

Lemma delay_reason_on_completion_witness :
  let db := Shop.db_with [Shop.running] in
  let now := 4 * Shop.hour in
  get_order db 7 = Some Shop.running
  /\ overdue_after_two_hours Shop.hour now = true
  /\ started_order_detail overdue_after_two_hours db Shop.clerk_south now 7
       (Some (complete_order Absent None))
     = (db, RedirectDetail DelayReasonRequired)
  /\ exists o',
       started_order_detail overdue_after_two_hours db Shop.clerk_south now 7
         (Some (complete_order (Number 1) None))
       = (save_order o' db, RedirectDashboard)
       /\ get_order (save_order o' db) 7 = Some o'
       /\ Order.status o' = completed
       /\ Order.completed_at o' = Some now
       /\ Order.delay_reason o' = Some 1
       /\ Order.delay_reason_reported_at o' = Some now
       /\ Order.delay_reason_reported_by o' = Some (User.id Shop.clerk_south).
Proof.
  intros db now.
  destruct (@delay_reason_on_completion overdue_after_two_hours db Shop.clerk_south
              now 7 Shop.running None eq_refl) as [Hstarted _].
  destruct (Hstarted Shop.hour eq_refl eq_refl eq_refl) as [Hrefused Hstamped].
  split; [reflexivity|]. split; [reflexivity|]. split; [exact Hrefused|].
  exact (Hstamped 1 eq_refl).
Defined.

(** ** Branch scope *)

(** The views that look the order up through [get_scoped_order] keep a
    clerk inside the own branch. *)
Lemma scoped_order_in_own_branch (db : Store) (user : User.t) (pk : Z) (b : Branch.t)
    (o : Order.t) :
  is_admin user = false -> get_user_branch user = Some b ->
  get_scoped_order db user pk = Some o ->
  Order.branch o = Some (Branch.id b).
Proof.
  intros Ha Hb H. unfold get_scoped_order in H. rewrite Hb, Ha in H. simpl in H.
  now apply get_order_in_branch_sound in H.
Qed.

(** The own branch is among the visible ones. *)
Lemma own_branch_visible (qs : list Branch.t) (user : User.t) (b : Branch.t) :
  User.profile_branch user = Some b -> In b qs ->
  In (Branch.id b) (visibleBranchIds qs user).
Proof.
  intros Hb Hin. unfold visibleBranchIds, BranchAdmin_get_queryset. rewrite Hb.
  apply in_map.
  destruct (User.is_superuser user); [exact Hin|].
  destruct (Branch.parent b); apply filter_In; split; try exact Hin.
  - apply Z.eqb_refl.
  - rewrite Z.eqb_refl. reflexivity.
Qed.

(** A sub-branch principal sees the own branch only. *)
Lemma sub_branch_sees_itself (qs : list Branch.t) (user : User.t) (b : Branch.t)
    (p k : Z) :
  User.is_superuser user = false -> User.profile_branch user = Some b ->
  Branch.parent b = Some p -> In k (visibleBranchIds qs user) -> k = Branch.id b.
Proof.
  intros Hs Hb Hp Hin. unfold visibleBranchIds, BranchAdmin_get_queryset in Hin.
  rewrite Hs, Hb, Hp in Hin. apply in_map_iff in Hin.
  destruct Hin as (x & Hx & Hf). apply filter_In in Hf. destruct Hf as [_ Hf].
  apply Z.eqb_eq in Hf. congruence.
Qed.

(** C1, at the failing input. A clerk of the north sub-branch, who sees
    branch 2 only, opens order 7 of the south sub-branch: the detail page
    shows it, with [branch_mismatch] set, and its complete action completes
    it. The quick stop of the same order by the same clerk finds nothing. *)
Theorem detail_page_ignores_branch_scope :
  let db := Shop.db_with [Shop.running] in
  let now := Shop.hour + 30 * MINUTE in
  let shown := started_order_detail overdue_after_two_hours db Shop.clerk_north now 7 None in
  let finished :=
    started_order_detail overdue_after_two_hours db Shop.clerk_north now 7
      (Some (complete_order Absent None)) in
  visibleBranchIds Shop.branches Shop.clerk_north = [2]
  /\ Order.branch Shop.running = Some 3
  /\ shown = (db, Render true false Shop.running)
  /\ snd finished = RedirectDashboard
  /\ option_map Order.status (get_order (fst finished) 7) = Some completed
  /\ api_quick_stop_order db Shop.clerk_north now (Some 7) = (db, Failure 500).
Proof. vm_compute. repeat split; reflexivity. Qed.

(** ** Item resolution *)

(** The steps after the item update leave item and brand alone. *)
Lemma update_labour_codes_keeps_item (db : Store) (f : OrderDetailsForm) (o : Order.t) :
  Order.item_name (update_labour_codes db f o) = Order.item_name o
  /\ Order.brand (update_labour_codes db f o) = Order.brand o.
Proof.
  unfold update_labour_codes.
  destruct (negb (is_empty_list (post_labour_codes f))
            && string_in (Order.type o) ["service"; "labour"]); [|auto].
  destruct (flat_map _ (post_labour_codes f)); simpl; auto.
Qed.

Lemma update_services_keeps_item (f : OrderDetailsForm) (o : Order.t) :
  Order.item_name (update_services f o) = Order.item_name o
  /\ Order.brand (update_services f o) = Order.brand o.
Proof.
  unfold update_services. destruct (post_services f); simpl; auto.
Qed.

Lemma action_item_is_update_item (db : Store) (f : OrderDetailsForm) (o : Order.t) :
  Order.item_name (update_order_details_action db f o)
  = Order.item_name (update_item db f (change_order_type f o))
  /\ Order.brand (update_order_details_action db f o)
     = Order.brand (update_item db f (change_order_type f o)).
Proof.
  unfold update_order_details_action.
  set (o1 := update_item db f (change_order_type f o)).
  destruct (update_labour_codes_keeps_item db f o1) as [L1 L2].
  destruct (update_services_keeps_item f (update_labour_codes db f o1)) as [S1 S2].
  destruct (post_estimated_duration f); simpl; rewrite ?S1, ?S2, ?L1, ?L2; auto.
Qed.

Lemma set_posted_quantity_keeps_item (q : PostInt) (o : Order.t) :
  Order.item_name (set_posted_quantity q o) = Order.item_name o
  /\ Order.brand (set_posted_quantity q o) = Order.brand o.
Proof. destruct q; simpl; auto. Qed.

Lemma labour_code_unresolved (db : Store) (f : OrderDetailsForm) (o : Order.t) :
  labour_code_resolves db f = false -> item_from_labour_code db f o = None.
Proof.
  unfold labour_code_resolves, item_from_labour_code.
  destruct (post_labour_code_id f); try reflexivity.
  destruct (get_active_labour_code db z); try reflexivity.
  intro H. rewrite H. reflexivity.
Qed.

Lemma manual_entry_unresolved (f : OrderDetailsForm) (o : Order.t) :
  truthy_str (post_item_name_manual f) = false -> item_from_manual_entry f o = None.
Proof. unfold item_from_manual_entry. intro H. rewrite H. reflexivity. Qed.

(** C8 as stated fails: an inquiry order updated with a valid labour code
    and a valid inventory item takes the item of neither. *)
Lemma inquiry_order_takes_no_item :
  let order := Order.set_type "inquiry" Shop.waiting in
  let db := Shop.db_with [order] in
  let result :=
    started_order_detail overdue_after_two_hours db Shop.clerk_south Shop.hour 7
      (Some (update_order_details code_and_item_form)) in
  labour_code_resolves db code_and_item_form = true
  /\ get_inventory_item db 9 = Some Shop.oil_filter
  /\ snd result = RedirectDashboard
  /\ option_map Order.item_name (get_order (fst result) 7) = Some None
  /\ option_map Order.brand (get_order (fst result) 7) = Some None.
Proof. vm_compute. repeat split; reflexivity. Qed.

(** A labour code that is unknown, inactive or without an item name does
    not resolve. *)
Lemma labour_code_falls_through (db : Store) (f : OrderDetailsForm) (k : Z) :
  post_labour_code_id f = Number k ->
  (forall lc, In lc (labour_codes db) -> LabourCode.id lc = k ->
              LabourCode.is_active lc = true ->
              truthy_str (LabourCode.item_name lc) = false) ->
  labour_code_resolves db f = false.
Proof.
  intros Hk H. unfold labour_code_resolves, get_active_labour_code. rewrite Hk.
  destruct (find _ (labour_codes db)) as [lc|] eqn:E; [|reflexivity].
  apply find_some in E. destruct E as [Hin Hc].
  apply andb_true_iff in Hc. destruct Hc as [Hid Hact].
  apply Z.eqb_eq in Hid. now apply H.
Qed.

(** The type change clears the item of an order that leaves sales. *)
Lemma type_change_clears_item (f : OrderDetailsForm) (o : Order.t) (t : string) :
  post_order_type f = Some t -> t <> "" -> t <> Order.type o ->
  Order.type o = "sales" ->
  Order.item_name (change_order_type f o) = None
  /\ Order.brand (change_order_type f o) = None.
Proof.
  intros Ht Hne Hdiff Hsales. unfold change_order_type. rewrite Ht.
  destruct t as [|c t]; [congruence|].
  apply String.eqb_neq in Hdiff. rewrite Hdiff, Hsales. simpl. auto.
Qed.

(** In every other case the type change leaves the item alone. *)
Lemma type_change_keeps_item (f : OrderDetailsForm) (o : Order.t) :
  Order.type o <> "sales" \/ post_order_type f = None \/ post_order_type f = Some ""
  \/ post_order_type f = Some (Order.type o) ->
  Order.item_name (change_order_type f o) = Order.item_name o
  /\ Order.brand (change_order_type f o) = Order.brand o.
Proof.
  intro H. unfold change_order_type.
  destruct (post_order_type f) as [[|c t]|] eqn:Et; auto.
  destruct (String.eqb (String c t) (Order.type o)) eqn:Eq; cbn [negb]; auto.
  destruct (String.eqb (Order.type o) "sales") eqn:Es; [|simpl; auto].
  apply String.eqb_eq in Es. apply String.eqb_neq in Eq.
  destruct H as [H|[H|[H|H]]]; congruence.
Qed.

(** C8, amended. For an order whose type, after the type change of the same
    update, is sales, service or labour: an active labour code with an item
    name gives the item and the brand (['Unbranded'] when it has none),
    whatever else is posted; when the labour code does not resolve, a typed
    item name gives them; when neither does, the inventory item gives them.
    A labour code that is unknown, inactive or without an item name does not
    resolve. For an order of any other type the candidates are ignored: item
    and brand are what the type change left, which clears them when the
    update moves the order away from sales and leaves them as they were
    otherwise. The update is saved and answered with the redirect when the
    database takes the row; when it does not, nothing is saved and the page
    is shown again. *)
Theorem item_resolution_priority (is_order_overdue : Time -> Time -> bool)
    (db : Store) (user : User.t) (now : Time) (pk : Z) (f : OrderDetailsForm)
    (o : Order.t) :
  get_order db pk = Some o ->
  let typed := change_order_type f o in
  let o' := update_order_details_action db f o in
  let result :=
    started_order_detail is_order_overdue db user now pk (Some (update_order_details f)) in
  (accepts_order db o' = true -> result = (save_order o' db, RedirectDashboard))
  /\ (accepts_order db o' = false ->
      fst result = db /\ exists mismatch exceeds, snd result = Render mismatch exceeds o')
  /\ (string_in (Order.type typed) ["sales"; "service"; "labour"] = true ->
      (forall k lc,
         post_labour_code_id f = Number k -> get_active_labour_code db k = Some lc ->
         truthy_str (LabourCode.item_name lc) = true ->
         Order.item_name o' = LabourCode.item_name lc
         /\ Order.brand o' = Some (or_str (LabourCode.brand lc) "Unbranded"))
      /\ (labour_code_resolves db f = false ->
          truthy_str (post_item_name_manual f) = true ->
          Order.item_name o' = post_item_name_manual f
          /\ Order.brand o' = Some (or_str (post_item_brand_manual f) "Unbranded"))
      /\ (labour_code_resolves db f = false ->
          truthy_str (post_item_name_manual f) = false ->
          forall k item,
            post_item_id f = Number k -> get_inventory_item db k = Some item ->
            Order.item_name o' = Some (InventoryItem.name item)
            /\ Order.brand o'
               = Some (match InventoryItem.brand item with
                       | Some b => b
                       | None => "Unbranded"
                       end)))
  /\ (forall k,
        post_labour_code_id f = Number k ->
        (forall lc, In lc (labour_codes db) -> LabourCode.id lc = k ->
                    LabourCode.is_active lc = true ->
                    truthy_str (LabourCode.item_name lc) = false) ->
        labour_code_resolves db f = false)
  /\ (string_in (Order.type typed) ["sales"; "service"; "labour"] = false ->
      Order.item_name o' = Order.item_name typed /\ Order.brand o' = Order.brand typed)
  /\ (forall t,
        post_order_type f = Some t -> t <> "" -> t <> Order.type o ->
        Order.type o = "sales" ->
        Order.item_name typed = None /\ Order.brand typed = None)
  /\ (Order.type o <> "sales" \/ post_order_type f = None \/ post_order_type f = Some ""
      \/ post_order_type f = Some (Order.type o) ->
      Order.item_name typed = Order.item_name o /\ Order.brand typed = Order.brand o).
Proof.
  intros Hget typed o' result.
  assert (result
          = if accepts_order db o' then (save_order o' db, RedirectDashboard)
            else (db, Render
                        match get_user_branch user, Order.branch o with
                        | Some ub, Some ob => negb (ob =? Branch.id ub)
                        | _, _ => false
                        end (exceeds_on_display is_order_overdue now o') o')) as Hview.
  { unfold result, started_order_detail. rewrite Hget. reflexivity. }
  destruct (action_item_is_update_item db f o) as [En Eb].
  fold o' typed in En, Eb.
  split; [intro Hacc; rewrite Hview, Hacc; reflexivity|].
  split; [intro Hacc; rewrite Hview, Hacc; cbn [fst snd]; eauto|].
  split; [|split; [|split; [|split]]].
  - intro Htype. rewrite En, Eb. unfold update_item. rewrite Htype.
    split; [|split].
    + intros k lc Hk Hlc Hname. unfold item_from_labour_code.
      rewrite Hk, Hlc, Hname.
      destruct (truthy_int (LabourCode.quantity lc));
        destruct (truthy_str (LabourCode.tire_type lc)); simpl; auto.
    + intros Hlc Hman. rewrite (labour_code_unresolved db f _ Hlc).
      unfold item_from_manual_entry. rewrite Hman.
      destruct (set_posted_quantity_keeps_item (post_item_quantity f)
                  (Order.set_brand (Some (or_str (post_item_brand_manual f) "Unbranded"))
                     (Order.set_item_name (post_item_name_manual f) typed))) as [Q1 Q2].
      rewrite Q1, Q2. simpl. auto.
    + intros Hlc Hman k item Hk Hitem.
      rewrite (labour_code_unresolved db f _ Hlc), (manual_entry_unresolved f _ Hman).
      unfold item_from_inventory. rewrite Hk, Hitem.
      match goal with
      | |- Order.item_name (set_posted_quantity ?q ?x) = _ /\ _ =>
          destruct (set_posted_quantity_keeps_item q x) as [Q1 Q2]
      end.
      rewrite Q1, Q2. simpl. auto.
  - intros k Hk H. now apply labour_code_falls_through with (k := k).
  - intro Htype. rewrite En, Eb. unfold update_item. rewrite Htype. auto.
  - intros t Ht Hne Hdiff Hsales. now apply type_change_clears_item with (t := t).
  - apply type_change_keeps_item.
Qed.

Lemma item_resolution_priority_witness :
  let db := Shop.db_with [Shop.waiting] in
  let o' := update_order_details_action db code_and_item_form Shop.waiting in
  started_order_detail overdue_after_two_hours db Shop.clerk_south Shop.hour 7
    (Some (update_order_details code_and_item_form))
  = (save_order o' db, RedirectDashboard)
  /\ Order.item_name o' = Some "Tyre 205/55"
  /\ Order.brand o' = Some "Roadgrip".
Proof.
  intros db o'.
  destruct (@item_resolution_priority overdue_after_two_hours db Shop.clerk_south
              Shop.hour 7 code_and_item_form Shop.waiting eq_refl)
    as (Hview & _ & Hpriority & _).
  split; [exact (Hview eq_refl)|].
  destruct (Hpriority eq_refl) as (Hcode & _).
  exact (Hcode 5 Shop.tyre_code eq_refl eq_refl eq_refl).
Defined.

(** ** Plate numbers *)


Lemma upper_lower_char (c : ascii) : upper_char (lower_char c) = upper_char c.
Proof. destruct c as [[] [] [] [] [] [] [] []]; reflexivity. Qed.

Lemma upper_lower (s : string) : upper (lower s) = upper s.
Proof.
  induction s as [|c s IH]; simpl; [reflexivity|].
  now rewrite upper_lower_char, IH.
Qed.

Lemma upper_idempotent_char (c : ascii) : upper_char (upper_char c) = upper_char c.
Proof. destruct c as [[] [] [] [] [] [] [] []]; reflexivity. Qed.

Lemma upper_idempotent (s : string) : upper (upper s) = upper s.
Proof.
  induction s as [|c s IH]; simpl; [reflexivity|].
  now rewrite upper_idempotent_char, IH.
Qed.












(** The stored plate is compared without regard to case. *)
Lemma iexact_any_case (stored plate : string) :
  iexact (lower stored) plate = iexact stored plate
  /\ iexact (upper stored) plate = iexact stored plate.
Proof. unfold iexact. now rewrite upper_lower, upper_idempotent. Qed.

(** ** The customer invariant *)

(** Fields that pass the checks of the modal and of the extraction give a
    customer that meets the invariant. *)
Lemma validated_fields_meet_invariant (c : Customer.t)
    (ty subtype org tax : string) :
  customer_fields_valid ty subtype org tax = true ->
  Customer.customer_type c = ty ->
  (ty = "personal" -> Customer.personal_subtype c = Some subtype) ->
  (ty <> "personal" ->
   Customer.organization_name c = Some org /\ Customer.tax_number c = Some tax) ->
  customer_invariant c = true.
Proof.
  unfold customer_fields_valid, customer_invariant. intros Hv Hty Hp Ho.
  rewrite Hty.
  apply andb_true_iff in Hv. destruct Hv as [Hv H3].
  apply andb_true_iff in Hv. destruct Hv as [H1 H2].
  apply negb_true_iff in H2. apply negb_true_iff in H3.
  destruct (String.eqb_spec ty "personal") as [E|E].
  - rewrite (Hp E). rewrite E. simpl. simpl in H2.
    destruct subtype; [discriminate|reflexivity].
  - destruct (string_in ty organizational) eqn:Eo; [|reflexivity].
    simpl in H3. destruct (Ho E) as [Horg Htax]. rewrite Horg, Htax.
    destruct org; [discriminate|]. destruct tax; [discriminate|]. reflexivity.
Qed.

(** C9, at the failing inputs. The [update_customer] action of the detail
    page turns a personal customer that meets the invariant into a company
    with no organization name and no tax number. And a first start for a
    plate, when the customer service raises, stores the customer made up from
    the plate as a personal customer with no subtype. *)
Theorem customer_invariant_not_kept :
  let edited :=
    started_order_detail overdue_after_two_hours (Shop.db_with [Shop.waiting])
      Shop.clerk_south Shop.hour 7 (Some (update_customer company_form)) in
  let started :=
    api_start_order Services.failing_customer_service Services.create_or_get_vehicle
      Services.update_customer_visit Services.create_order Services.strftime
      empty_db Shop.clerk_south Shop.hour (Some (start_request "t999xyz")) in
  customer_invariant Shop.driver = true
  /\ option_map customer_invariant (get_customer (fst edited) 1) = Some false
  /\ option_map Customer.customer_type (get_customer (fst edited) 1) = Some "company"
  /\ snd started = Success (OrderStarted 1 "ORD" created)
  /\ map Customer.full_name (customers (fst started)) = ["Plate T999XYZ"]
  /\ map Customer.customer_type (customers (fst started)) = ["personal"]
  /\ map Customer.personal_subtype (customers (fst started)) = [None]
  /\ map customer_invariant (customers (fst started)) = [false].
Proof. vm_compute. repeat split; reflexivity. Qed.




Section PlateInput.

Variable create_or_get_customer :
  Store -> Time -> option Z -> string -> option string -> string ->
  option (Store * Customer.t).
Variable create_or_get_vehicle :
  Store -> Time -> Customer.t -> string -> option (Store * Vehicle.t).
Variable update_customer_visit : Store -> Time -> Customer.t -> option Store.
Variable create_order :
  Store -> Time -> Customer.t -> string -> option Z -> option Vehicle.t ->
  string -> string -> option Z -> option (Store * Order.t).
Variable strftime : Time -> string.

Let start :=
  api_start_order create_or_get_customer create_or_get_vehicle update_customer_visit
    create_order strftime.




End PlateInput.



(** ** Starting an order twice *)

Lemma latest_by_none {A : Type} (key : A -> Z) (l : list A) :
  latest_by key l = None -> l = [].
Proof.
  destruct l as [|x l]; [reflexivity|]. simpl.
  destruct (latest_by key l) as [y|]; [destruct (key x <? key y)|]; discriminate.
Qed.

Lemma latest_by_in {A : Type} (key : A -> Z) (l : list A) (x : A) :
  latest_by key l = Some x -> In x l.
Proof.
  revert x. induction l as [|a l IH]; simpl; intros x H; [discriminate|].
  destruct (latest_by key l) as [y|].
  - destruct (key a <? key y); inversion H; subst; auto.
  - inversion H; auto.
Qed.

Lemma filter_nil_iff {A : Type} (p : A -> bool) (l : list A) :
  filter p l = [] <-> forall x, In x l -> p x = false.
Proof.
  induction l as [|a l IH]; simpl.
  - split; [intros _ x [] | reflexivity].
  - destruct (p a) eqn:E; split.
    + discriminate.
    + intro H. specialize (H a (or_introl eq_refl)). congruence.
    + intros H x [Hx|Hx]; [now subst | now apply IH].
    + intro H. apply IH. intros x Hx. apply H. now right.
Qed.

Lemma find_app_last {A : Type} (p : A -> bool) (l : list A) (x : A) :
  (forall y, In y l -> p y = false) -> p x = true ->
  find p (l ++ [x]) = Some x.
Proof.
  intros Hl Hx. induction l as [|a l IH]; simpl.
  - now rewrite Hx.
  - rewrite (Hl a (or_introl eq_refl)). apply IH.
    intros y Hy. apply Hl. now right.
Qed.

Lemma find_app_found {A : Type} (p : A -> bool) (l l' : list A) (x : A) :
  find p l = Some x -> find p (l ++ l') = Some x.
Proof.
  induction l as [|a l IH]; simpl; [discriminate|].
  destruct (p a); auto.
Qed.

Lemma next_id_above (ids : list Z) (k : Z) : In k ids -> k < next_id ids.
Proof.
  unfold next_id. induction ids as [|a ids IH]; simpl; [intros []|].
  intros [H|H]; [subst; lia | specialize (IH H); lia].
Qed.

(** No row of the table has the key of a created row. *)
Lemma next_customer_id_fresh (l : list Customer.t) :
  forall c, In c l -> (Customer.id c =? next_id (map Customer.id l)) = false.
Proof.
  intros c Hc. apply Z.eqb_neq.
  pose proof (next_id_above (map Customer.id l) (Customer.id c) (in_map _ _ _ Hc)). lia.
Qed.

(** With unique keys, a row of the table is the row of its key. *)
Lemma get_customer_of_row (db : Store) (c : Customer.t) :
  NoDup (map Customer.id (customers db)) -> In c (customers db) ->
  get_customer db (Customer.id c) = Some c.
Proof.
  unfold get_customer. induction (customers db) as [|a l IH]; simpl; [intros _ []|].
  intros Hnd [H|H].
  - subst. now rewrite Z.eqb_refl.
  - inversion Hnd as [|? ? Hnotin Hnd']; subst.
    destruct (Customer.id a =? Customer.id c) eqn:E; [|now apply IH].
    apply Z.eqb_eq in E. exfalso. apply Hnotin. rewrite E. now apply in_map.
Qed.

(** The [get_or_create] of the view keeps the contract of the customer
    service. *)
Lemma get_or_create_contract (db db' : Store) (b : option Z) (name : string)
    (phone : option string) (c : Customer.t) :
  NoDup (map Customer.id (customers db)) ->
  Customer_get_or_create db b name phone = Some (db', c) ->
  vehicles db' = vehicles db /\ orders db' = orders db
  /\ customer_branch db' (Customer.id c) = Some b
  /\ forall k x, customer_branch db k = Some x -> customer_branch db' k = Some x.
Proof.
  intros Hnd H. unfold Customer_get_or_create in H.
  destruct (filter (customer_matches b name phone) (customers db)) as [|c0 [|c1 l]] eqn:E.
  - inversion H; subst; clear H. simpl.
    split; [reflexivity|]. split; [reflexivity|]. split.
    + unfold customer_branch, get_customer. simpl.
      rewrite find_app_last with (x := {|
        Customer.id := next_id (map Customer.id (customers db));
        Customer.branch := b; Customer.full_name := name; Customer.phone := phone;
        Customer.email := None; Customer.address := None;
        Customer.customer_type := "personal"; Customer.personal_subtype := None;
        Customer.organization_name := None; Customer.tax_number := None;
        Customer.total_visits := 0; Customer.last_visit := None |}).
      * reflexivity.
      * intros y Hy. simpl. now apply next_customer_id_fresh.
      * simpl. apply Z.eqb_refl.
    + intros k x Hk. unfold customer_branch, get_customer in *. simpl.
      destruct (find (fun c => Customer.id c =? k) (customers db)) as [c'|] eqn:F;
        [|discriminate].
      now rewrite (find_app_found _ _ _ F).
  - injection H as Hdb Hc. subst db' c0.
    split; [reflexivity|]. split; [reflexivity|]. split; [|auto].
    assert (In c (filter (customer_matches b name phone) (customers db))) as Hin
        by (rewrite E; now left).
    apply filter_In in Hin. destruct Hin as [Hin Hm].
    unfold customer_branch. rewrite (get_customer_of_row db c Hnd Hin). simpl.
    unfold customer_matches in Hm.
    repeat (apply andb_true_iff in Hm; destruct Hm as [Hm _]).
    now rewrite (opt_eqb_Z_eq _ _ Hm).
  - discriminate.
Qed.

Lemma vehicle_match_preserved (db db' : Store) (plate : string) (ub : option Z)
    (w : Vehicle.t) :
  is_some (get_customer db (Vehicle.customer w)) = true ->
  (forall k x, customer_branch db k = Some x -> customer_branch db' k = Some x) ->
  vehicle_in_branch db' plate ub w = vehicle_in_branch db plate ub w.
Proof.
  intros Hc Hkeep. unfold vehicle_in_branch.
  destruct (get_customer db (Vehicle.customer w)) as [cw|] eqn:E; [|discriminate].
  specialize (Hkeep (Vehicle.customer w) (Customer.branch cw)).
  unfold customer_branch in Hkeep. rewrite E in Hkeep. specialize (Hkeep eq_refl).
  destruct (get_customer db' (Vehicle.customer w)) as [cw'|]; [|discriminate].
  simpl in Hkeep. injection Hkeep as Hb. now rewrite Hb.
Qed.

Lemma find_vehicle_same_tables (db db' : Store) (plate : string) (ub : option Z) :
  customers db' = customers db -> vehicles db' = vehicles db ->
  find_vehicle db' plate ub = find_vehicle db plate ub.
Proof.
  intros Hc Hv. unfold find_vehicle, vehicle_in_branch, get_customer.
  now rewrite Hc, Hv.
Qed.

Lemma customer_branch_same_table (db db' : Store) (k : Z) :
  customers db' = customers db -> customer_branch db' k = customer_branch db k.
Proof. intro H. unfold customer_branch, get_customer. now rewrite H. Qed.

Section StartTwice.

Variable create_or_get_customer :
  Store -> Time -> option Z -> string -> option string -> string ->
  option (Store * Customer.t).
Variable create_or_get_vehicle :
  Store -> Time -> Customer.t -> string -> option (Store * Vehicle.t).
Variable update_customer_visit : Store -> Time -> Customer.t -> option Store.
Variable create_order :
  Store -> Time -> Customer.t -> string -> option Z -> option Vehicle.t ->
  string -> string -> option Z -> option (Store * Order.t).
Variable strftime : Time -> string.

Hypothesis contract :
  ServicesContract create_or_get_customer create_or_get_vehicle create_order.

Let start :=
  api_start_order create_or_get_customer create_or_get_vehicle update_customer_visit
    create_order strftime.

(** The customer of a call without a chosen customer, from the service or
    from the fallback, is a customer of the branch of the call. *)
Lemma synthesize_customer_contract (db dbA : Store) (now : Time) (ub : option Z)
    (plate : string) (c : Customer.t) :
  NoDup (map Customer.id (customers db)) ->
  synthesize_customer create_or_get_customer strftime db now ub plate = Some (dbA, c) ->
  vehicles dbA = vehicles db /\ orders dbA = orders db
  /\ customer_branch dbA (Customer.id c) = Some ub
  /\ forall k x, customer_branch db k = Some x -> customer_branch dbA k = Some x.
Proof.
  intros Hnd H. unfold synthesize_customer in H.
  match type of H with
  | match ?call with _ => _ end = _ => destruct call as [[d c0]|] eqn:E
  end.
  - injection H as Hd Hc. subst d c0.
    exact (customer_contract contract _ _ _ _ _ _ Hnd E).
  - exact (get_or_create_contract _ _ _ _ Hnd H).
Qed.

(** A new order comes out of [reuse_or_create] only when the vehicle has no
    order to reuse, and then from the order service. *)
Lemma reuse_or_create_new (db db1 : Store) (now : Time) (c : Customer.t)
    (v : Vehicle.t) (ty : string) (ub : option Z) (desc : string) (est : option Z)
    (o : Order.t) :
  reuse_or_create update_customer_visit create_order db now c (Some v) false ty ub
    desc est = Some (db1, o) ->
  get_order db (Order.id o) = None ->
  (forall r, In r (orders db) ->
             on_vehicle v r && status_in (Order.status r) [created; in_progress] = false)
  /\ create_order db now c ty ub (Some v) desc "medium"
       (if truthy_int est then est else None) = Some (db1, o).
Proof.
  intros H Hfresh. unfold reuse_or_create in H.
  assert (forall e, In e (orders db) -> Order.id e = Order.id o -> False) as Hnew.
  { intros e He Hid. unfold get_order in Hfresh.
    pose proof (find_none _ _ Hfresh e He) as Hf. simpl in Hf.
    rewrite Hid, Z.eqb_refl in Hf. discriminate. }
  destruct (latest_order_created db v [created]) as [e|] eqn:Ec.
  - exfalso. injection H as _ Ho. subst e.
    apply latest_by_in, filter_In in Ec. destruct Ec as [Hin _]. now apply (Hnew o).
  - destruct (latest_order_started db v [in_progress; overdue]) as [e|] eqn:Es.
    + exfalso. injection H as _ Ho. subst e.
      apply latest_by_in, filter_In in Es. destruct Es as [Hin _]. now apply (Hnew o).
    + split; [|exact H].
      apply latest_by_none in Ec. apply latest_by_none in Es.
      intros r Hr.
      pose proof (proj1 (filter_nil_iff _ _) Ec r Hr) as Fc.
      pose proof (proj1 (filter_nil_iff _ _) Es r Hr) as Fs.
      simpl in Fc, Fs.
      destruct (on_vehicle v r); [|reflexivity].
      destruct (Order.status r); simpl in *; auto; discriminate.
Qed.

(** The database after a first call that created order [oid]: the plate
    now finds one vehicle of the branch, the new order is the last row of the
    table and is on that vehicle, and no older order of the vehicle is open. *)
Lemma first_start_creates (db db1 : Store) (user : User.t) (now : Time)
    (data : StartOrderRequest) (oid : Z) (num : string) (st : Status) :
  NoDup (map Customer.id (customers db)) ->
  vehicles_have_customers db = true ->
  force_new_order data = false ->
  truthy_int (existing_customer_id data) = false ->
  get_order db oid = None ->
  start db user now (Some data) = (db1, Success (OrderStarted oid num st)) ->
  exists v o,
    Order.id o = oid /\ Order.order_number o = num /\ Order.status o = created
    /\ st = created
    /\ is_empty (normalize_plate (plate_number data)) = false
    /\ find_vehicle db1 (normalize_plate (plate_number data))
         (option_map Branch.id (get_user_branch user)) = Some v
    /\ orders db1 = (orders db ++ [o])%list
    /\ on_vehicle v o = true
    /\ forall r, In r (orders db) ->
         on_vehicle v r && status_in (Order.status r) [created; in_progress] = false.
Proof.
  intros Hnd Hwf Hforce Hpre Hfresh H.
  unfold start, api_start_order in H. cbv zeta in H.
  set (plate := normalize_plate (plate_number data)) in *.
  set (ub := option_map Branch.id (get_user_branch user)) in *.
  rewrite Hpre, Hforce, andb_false_r in H. simpl negb in H. rewrite !andb_true_r in H.
  destruct (is_empty plate) eqn:Hplate; [discriminate|]. simpl negb in H. cbv iota in H.
  match type of H with
  | (if ?invalid then _ else _) = _ => destruct invalid; [discriminate|]
  end.
  assert (match existing_customer_id data with
          | Some _ => Some (@None Customer.t, ub)
          | None => Some (None, ub)
          end = Some (None, ub)) as Ecust
      by (destruct (existing_customer_id data); reflexivity).
  rewrite Ecust in H. clear Ecust.
  destruct (find_vehicle db plate ub) as [v0|] eqn:Ev.
  { destruct (latest_order_created db v0 [created; in_progress]); discriminate. }
  match type of H with
  | match ?call with _ => _ end = _ => destruct call as [[d o]|] eqn:Es
  end; [|discriminate].
  injection H as Hd Hoid Hnum Hst. subst d.
  unfold start_new_order in Es. rewrite Hplate, Hforce in Es.
  destruct (synthesize_customer create_or_get_customer strftime db now ub plate)
    as [[dbA c]|] eqn:Ec; [|discriminate].
  destruct (create_or_get_vehicle dbA now c plate) as [[dbB v]|] eqn:Evh; [|discriminate].
  destruct (synthesize_customer_contract _ _ _ _ Hnd Ec) as (Va & Oa & Ba & Ka).
  destruct (vehicle_contract contract _ _ _ _ Evh) as (Cb & Ob & Vc & Vp & Vcase).
  assert (get_order dbB (Order.id o) = None) as Hfresh'.
  { unfold get_order. rewrite Ob, Oa, Hoid. exact Hfresh. }
  destruct (reuse_or_create_new _ _ _ _ _ _ _ _ Es Hfresh') as [Hnone Hcreate].
  destruct (order_contract contract _ _ _ _ _ _ _ _ _ Hcreate)
    as (V1 & K1 & O1 & Ov & Os).
  assert (forall k x, customer_branch db k = Some x -> customer_branch db1 k = Some x)
    as Kall.
  { intros k x Hk. apply K1. rewrite (customer_branch_same_table _ _ k Cb). now apply Ka. }
  assert (customer_branch db1 (Customer.id c) = Some ub) as Bc.
  { apply K1. now rewrite (customer_branch_same_table _ _ _ Cb). }
  assert (vehicle_in_branch db1 plate ub v = true) as Hv.
  { unfold vehicle_in_branch. rewrite Vp, Vc. unfold customer_branch in Bc.
    destruct (get_customer db1 (Customer.id c)) as [c'|]; [|discriminate].
    simpl in Bc. injection Bc as Bc. rewrite Bc. apply opt_eqb_Z_refl. }
  assert (forall w, In w (vehicles db) -> vehicle_in_branch db1 plate ub w = false)
    as Hold.
  { intros w Hw. rewrite (vehicle_match_preserved db db1 plate ub w).
    - exact (find_none _ _ Ev w Hw).
    - unfold vehicles_have_customers in Hwf.
      exact (proj1 (forallb_forall _ _) Hwf w Hw).
    - exact Kall. }
  exists v, o.
  split; [exact Hoid|]. split; [exact Hnum|]. split; [exact Os|].
  split; [now rewrite <- Hst|]. split; [reflexivity|].
  split; [|split; [now rewrite O1, Ob, Oa|split]].
  - unfold find_vehicle. rewrite V1.
    destruct Vcase as [[Vsame Vin]|Vnew].
    + exfalso. rewrite Va in Vin. rewrite (Hold v Vin) in Hv. discriminate.
    + rewrite Vnew, Va. now apply find_app_last.
  - unfold on_vehicle. rewrite Ov. simpl. apply Z.eqb_refl.
  - intros r Hr. apply Hnone. now rewrite Ob, Oa.
Qed.

(** A call for a plate whose vehicle has one open order, the last row of
    the table, answers with that order and writes nothing. *)
Lemma start_finds_open_order (db2 : Store) (user : User.t) (now2 : Time)
    (data2 : StartOrderRequest) (v : Vehicle.t) (o2 : Order.t) (olds : list Order.t) :
  is_empty (normalize_plate (plate_number data2)) = false ->
  force_new_order data2 = false ->
  truthy_int (existing_customer_id data2) = false ->
  string_in (match order_type data2 with Some t => t | None => "service" end)
            valid_order_types = true ->
  find_vehicle db2 (normalize_plate (plate_number data2))
    (option_map Branch.id (get_user_branch user)) = Some v ->
  orders db2 = (olds ++ [o2])%list ->
  (forall r, In r olds ->
     on_vehicle v r && status_in (Order.status r) [created; in_progress] = false) ->
  on_vehicle v o2 = true ->
  status_in (Order.status o2) [created; in_progress] = true ->
  start db2 user now2 (Some data2)
  = (db2, Success (ExistingOrder (Order.id o2) (Order.order_number o2))).
Proof.
  intros Hplate Hforce Hpre Hty Hfind Horders Hold Hon Hst.
  unfold start, api_start_order. cbv zeta.
  rewrite Hpre, Hforce, andb_false_r, Hplate, Hty. simpl negb. cbv iota.
  assert (match existing_customer_id data2 with
          | Some _ => Some (@None Customer.t, option_map Branch.id (get_user_branch user))
          | None => Some (None, option_map Branch.id (get_user_branch user))
          end = Some (None, option_map Branch.id (get_user_branch user))) as Ecust
      by (destruct (existing_customer_id data2); reflexivity).
  rewrite Ecust. clear Ecust. simpl andb. cbv iota. rewrite Hfind.
  assert (latest_order_created db2 v [created; in_progress] = Some o2) as Hlatest.
  { unfold latest_order_created. rewrite Horders, filter_app.
    rewrite (proj2 (filter_nil_iff _ olds) Hold).
    cbn [filter app]. rewrite Hon, Hst. reflexivity. }
  rewrite Hlatest. reflexivity.
Qed.

(** C5. A first call for a plate, with no chosen customer and without
    [force_new_order], created order [oid]. A second call for the same plate
    answers with that order, flagged as existing, and leaves the database as
    it was: no order, no customer and no vehicle is added, and the order is
    the one [created] order of the vehicle. The same holds once the admin
    site has moved the order to [in_progress]. *)
Theorem second_start_returns_first_order (db db1 : Store) (user : User.t)
    (now now2 : Time) (data data2 : StartOrderRequest) (oid : Z) (num : string)
    (st : Status) :
  NoDup (map Customer.id (customers db)) ->
  vehicles_have_customers db = true ->
  force_new_order data = false ->
  truthy_int (existing_customer_id data) = false ->
  get_order db oid = None ->
  start db user now (Some data) = (db1, Success (OrderStarted oid num st)) ->
  normalize_plate (plate_number data2) = normalize_plate (plate_number data) ->
  force_new_order data2 = false ->
  truthy_int (existing_customer_id data2) = false ->
  string_in (match order_type data2 with Some t => t | None => "service" end)
            valid_order_types = true ->
  start db1 user now2 (Some data2) = (db1, Success (ExistingOrder oid num))
  /\ (exists v o,
        find_vehicle db1 (normalize_plate (plate_number data2))
          (option_map Branch.id (get_user_branch user)) = Some v
        /\ get_order db1 oid = Some o
        /\ filter (fun r => on_vehicle v r && status_in (Order.status r) [created])
                  (orders db1) = [o])
  /\ (forall t o db2,
        get_order db1 oid = Some o ->
        OrderAdmin_save_model db1 t (Order.set_status in_progress o) true = Some db2 ->
        start db2 user now2 (Some data2) = (db2, Success (ExistingOrder oid num))).
Proof.
  intros Hnd Hwf Hforce Hpre Hfresh Hfirst Hplate Hforce2 Hpre2 Hty2.
  destruct (@first_start_creates db db1 user now data oid num st
              Hnd Hwf Hforce Hpre Hfresh Hfirst)
    as (v & o & Hid & Hnum & Hst & _ & Hne & Hfind & Horders & Hon & Hold).
  rewrite <- Hplate in Hne, Hfind.
  assert (forall r, In r (orders db) -> (Order.id r =? oid) = false) as Hids.
  { intros r Hr. exact (find_none _ _ Hfresh r Hr). }
  assert (get_order db1 oid = Some o) as Hget.
  { unfold get_order. rewrite Horders. apply find_app_last; [exact Hids|].
    rewrite Hid. apply Z.eqb_refl. }
  split; [|split].
  - rewrite <- Hid, <- Hnum.
    apply start_finds_open_order with (v := v) (olds := orders db); auto.
    rewrite Hst. reflexivity.
  - exists v, o. split; [exact Hfind|]. split; [exact Hget|].
    rewrite Horders, filter_app.
    assert (filter (fun r => on_vehicle v r && status_in (Order.status r) [created])
                   (orders db) = []) as E.
    { apply filter_nil_iff. intros r Hr. specialize (Hold r Hr).
      destruct (on_vehicle v r); [|reflexivity].
      destruct (Order.status r); simpl in *; auto; discriminate. }
    rewrite E. cbn [filter app]. rewrite Hon, Hst. reflexivity.
  - intros t o' db2 Hget' Hsave. rewrite Hget in Hget'. injection Hget' as <-.
    unfold OrderAdmin_save_model in Hsave.
    change (Order.id (Order.set_status in_progress o)) with (Order.id o) in Hsave.
    rewrite Hid, Hget in Hsave.
    change (Order.status (Order.set_status in_progress o)) with in_progress in Hsave.
    rewrite Hst in Hsave. cbn [status_eqb negb andb] in Hsave.
    set (o2 := if negb (is_some (Order.started_at (Order.set_status in_progress o)))
               then Order.set_started_at (Some t) (Order.set_status in_progress o)
               else Order.set_status in_progress o) in Hsave.
    injection Hsave as <-.
    assert (Order.id o2 = oid /\ Order.order_number o2 = num
            /\ Order.vehicle o2 = Order.vehicle o /\ Order.status o2 = in_progress)
      as (Hid2 & Hnum2 & Hveh2 & Hst2).
    { unfold o2.
      destruct (negb (is_some (Order.started_at (Order.set_status in_progress o))));
        simpl; auto. }
    rewrite <- Hid2, <- Hnum2.
    apply start_finds_open_order with (v := v) (olds := orders db); auto.
    + unfold save_order. cbn [orders set_orders]. rewrite Horders, map_app.
      f_equal.
      * rewrite <- (map_id (orders db)) at 2. apply map_ext_in.
        intros r Hr. rewrite Hid2, (Hids r Hr). reflexivity.
      * cbn [map]. rewrite Hid, Hid2, Z.eqb_refl. reflexivity.
    + unfold on_vehicle in *. now rewrite Hveh2.
    + rewrite Hst2. reflexivity.
Qed.

End StartTwice.

(** ** The model of the services keeps the contract *)

Lemma find_map_keeping {A : Type} (key : A -> Z) (f : A -> A) (k : Z) (l : list A) :
  (forall x, key (f x) = key x) ->
  find (fun x => key x =? k) (map f l) = option_map f (find (fun x => key x =? k) l).
Proof.
  intro Hkey. induction l as [|a l IH]; simpl; [reflexivity|].
  rewrite Hkey. destruct (key a =? k); [reflexivity | exact IH].
Qed.

Lemma iexact_refl (s : string) : iexact s s = true.
Proof. unfold iexact. apply String.eqb_refl. Qed.

Lemma services_keep_contract :
  ServicesContract Services.create_or_get_customer Services.create_or_get_vehicle
    Services.create_order.
Proof.
  constructor.
  - intros db now b name phone ty db' c Hnd H.
    unfold Services.create_or_get_customer in H.
    match type of H with
    | match find ?p _ with _ => _ end = _ =>
        destruct (find p (customers db)) as [c0|] eqn:E
    end.
    + injection H as Hdb Hc. subst db' c0.
      split; [reflexivity|]. split; [reflexivity|]. split; [|auto].
      apply find_some in E. destruct E as [Hin Hm].
      unfold customer_branch. rewrite (get_customer_of_row db c Hnd Hin). simpl.
      repeat (apply andb_true_iff in Hm; destruct Hm as [Hm _]).
      now rewrite (opt_eqb_Z_eq _ _ Hm).
    + injection H as Hdb Hc. subst db' c.
      split; [reflexivity|]. split; [reflexivity|]. split.
      * unfold customer_branch, get_customer. cbn [customers set_customers].
        erewrite find_app_last; [reflexivity| |].
        -- intros y Hy. cbn [Customer.id]. now apply next_customer_id_fresh.
        -- cbn [Customer.id]. apply Z.eqb_refl.
      * intros k x Hk. unfold customer_branch, get_customer in *.
        cbn [customers set_customers].
        destruct (find (fun c => Customer.id c =? k) (customers db)) as [c'|] eqn:F;
          [|discriminate].
        now rewrite (find_app_found _ _ _ F).
  - intros db now c plate db' v H.
    unfold Services.create_or_get_vehicle in H.
    match type of H with
    | match find ?p _ with _ => _ end = _ =>
        destruct (find p (vehicles db)) as [v0|] eqn:E
    end.
    + injection H as Hdb Hv. subst db' v0.
      apply find_some in E. destruct E as [Hin Hm].
      apply andb_true_iff in Hm. destruct Hm as [Hc Hp]. apply Z.eqb_eq in Hc.
      repeat split; auto.
    + injection H as Hdb Hv. subst db' v. cbn.
      repeat split; auto. apply iexact_refl.
  - intros db now c ty b v desc prio est db' o H.
    unfold Services.create_order, Services.update_customer_visit in H.
    injection H as Hdb Ho. subst db' o. cbn.
    repeat split; auto.
    intros k x Hk. unfold customer_branch, get_customer in *. cbn.
    rewrite (find_map_keeping Customer.id
               (fun r => if Customer.id r =? Customer.id c
                         then Services.visit now r else r)).
    + destruct (find (fun c0 => Customer.id c0 =? k) (customers db)) as [c'|];
        [|discriminate].
      simpl in *. destruct (Customer.id c' =? Customer.id c); exact Hk.
    + intro r. destruct (Customer.id r =? Customer.id c); reflexivity.
Qed.

Lemma second_start_returns_first_order_witness :
  let start :=
    api_start_order Services.create_or_get_customer Services.create_or_get_vehicle
      Services.update_customer_visit Services.create_order Services.strftime in
  let first := start empty_db Shop.clerk_south Shop.hour (Some (start_request "t123abc")) in
  first = (fst first, Success (OrderStarted 1 "ORD" created))
  /\ map Customer.full_name (customers (fst first)) = ["Plate T123ABC"]
  /\ map Vehicle.plate_number (vehicles (fst first)) = ["T123ABC"]
  /\ start (fst first) Shop.clerk_south (2 * Shop.hour) (Some (start_request " T123ABC "))
     = (fst first, Success (ExistingOrder 1 "ORD")).
Proof.
  intros start first.
  split; [reflexivity|]. split; [reflexivity|]. split; [reflexivity|].
  refine (proj1 (@second_start_returns_first_order
                   Services.create_or_get_customer Services.create_or_get_vehicle
                   Services.update_customer_visit Services.create_order
                   Services.strftime services_keep_contract
                   empty_db (fst first) Shop.clerk_south Shop.hour (2 * Shop.hour)
                   (start_request "t123abc") (start_request " T123ABC ")
                   1 "ORD" created
                   _ eq_refl eq_refl eq_refl eq_refl eq_refl eq_refl eq_refl eq_refl
                   eq_refl)).
  constructor.
Defined.

(** The example of the spec: a first call for plate ABC123 with the services
    Oil Change and Tire Rotation creates an order in state [created] with an
    estimated duration of 30 + 30 minutes. *)
Example start_order_sums_selected_services :
  let request :=
    mkStartOrderRequest (Some "ABC123") (Some "service") false None
      ["Oil Change"; "Tire Rotation"] None false in
  let result :=
    api_start_order Services.create_or_get_customer Services.create_or_get_vehicle
      Services.update_customer_visit Services.create_order Services.strftime
      empty_db Shop.clerk_south Shop.hour (Some request) in
  snd result = Success (OrderStarted 1 "ORD" created)
  /\ map Order.estimated_duration (orders (fst result)) = [Some 60]
  /\ map Order.description (orders (fst result))
     = [Some "Order started for ABC123: Oil Change, Tire Rotation"].
Proof. vm_compute. repeat split; reflexivity. Qed.

(** * Further properties of the views and of the admin site *)

(** ** Writes of the scoped views *)

Lemma get_order_save_other (db : Store) (o' : Order.t) (pk : Z) :
  Order.id o' <> pk -> get_order (save_order o' db) pk = get_order db pk.
Proof.
  intro Hne. unfold get_order, save_order. cbn [orders set_orders].
  induction (orders db) as [|r l IH]; simpl; [reflexivity|].
  destruct (Order.id r =? Order.id o') eqn:E.
  - apply Z.eqb_eq in E.
    assert ((Order.id o' =? pk) = false) as E1 by now apply Z.eqb_neq.
    assert ((Order.id r =? pk) = false) as E2 by (rewrite E; exact E1).
    rewrite E1, E2. exact IH.
  - destruct (Order.id r =? pk); [reflexivity | exact IH].
Qed.



(** The bound of the exact minutes is not idle: a microsecond short of
    1065052800 minutes, some two thousand years, the float of
    [total_seconds()] is rounded up to the full minute, which is what the
    quick stop stores. *)
Lemma whole_minutes_of_a_long_interval :
  let us := 1065052800 * MINUTE - 1 in
  us / MINUTE = 1065052799 /\ whole_minutes us = 1065052800.
Proof. vm_compute. split; reflexivity. Qed.

Lemma no_order_in_branch (db : Store) (pk : Z) (b : Branch.t) :
  (forall o, In o (orders db) -> Order.id o = pk ->
             Order.branch o <> Some (Branch.id b)) ->
  get_order_in_branch db pk b = None.
Proof.
  intro H. unfold get_order_in_branch.
  destruct (find _ (orders db)) as [o|] eqn:E; [|reflexivity].
  exfalso. pose proof (find_some _ _ E) as [Hin _].
  apply find_order_id in E. destruct E as [Hid Hb].
  apply (H o Hin Hid). now apply opt_eqb_Z_eq.
Qed.

(** X2. A user who is neither staff nor superuser and is attached to a
    branch cannot reach an order of another branch through the quick stop or
    the overrun report: both answer with an error and write nothing. *)
Theorem scoped_views_refuse_other_branches (db : Store) (user : User.t) (now : Time)
    (pk : Z) (b : Branch.t) (data : ReasonBody) :
  is_admin user = false -> get_user_branch user = Some b ->
  (forall o, In o (orders db) -> Order.id o = pk ->
             Order.branch o <> Some (Branch.id b)) ->
  api_quick_stop_order db user now (Some pk) = (db, Failure 500)
  /\ fst (api_record_overrun_reason db user now pk data) = db
  /\ exists code, snd (api_record_overrun_reason db user now pk data) = Failure code.
Proof.
  intros Ha Hb Hother.
  assert (get_scoped_order db user pk = None) as Hnone.
  { unfold get_scoped_order. rewrite Hb, Ha. simpl. now apply no_order_in_branch. }
  split.
  - unfold api_quick_stop_order. now rewrite Hnone.
  - unfold api_record_overrun_reason. destruct data as [| | |entry]; simpl; eauto.
    destruct (reason_text entry) as [text|]; simpl; eauto.
    destruct (is_empty (strip text)); [|rewrite Hnone]; simpl; eauto.
Qed.

Lemma scoped_views_refuse_other_branches_witness :
  let db := Shop.db_with [Shop.running] in
  api_quick_stop_order db Shop.clerk_north Shop.hour (Some 7) = (db, Failure 500)
  /\ fst (api_record_overrun_reason db Shop.clerk_north Shop.hour 7
            (Object (Some (JString "late parts")))) = db.
Proof.
  intro db.
  assert (forall o, In o (orders db) -> Order.id o = 7 ->
                    Order.branch o <> Some (Branch.id Shop.north)) as Hother.
  { intros o [Ho|[]] _. subst o. discriminate. }
  destruct (@scoped_views_refuse_other_branches db Shop.clerk_north Shop.hour 7
              Shop.north (Object (Some (JString "late parts"))) eq_refl eq_refl Hother)
    as (Hstop & Hreport & _).
  split; [exact Hstop | exact Hreport].
Defined.



(** ** The complete action *)

Lemma save_comments_id (user : User.t) (now : Time) (comments : option string)
    (o : Order.t) :
  Order.id (save_comments user now comments o) = Order.id o.
Proof.
  unfold save_comments. destruct (is_empty (strip (or_str comments ""))); reflexivity.
Qed.

(** The order that the [try] block hands to the completion keeps the key and
    an overrun report that was there. *)
Lemma handle_delay_reason_keeps (is_order_overdue : Time -> Time -> bool) (db : Store)
    (user : User.t) (now : Time) (o o1 : Order.t) (dr : PostInt)
    (comments : option string) :
  handle_delay_reason is_order_overdue db user now o dr comments = inr o1 ->
  Order.id o1 = Order.id o
  /\ (forall t, Order.overrun_reported_at o = Some t ->
                Order.overrun_reported_at o1 = Some t)
  /\ (forall u, Order.overrun_reported_by o = Some u ->
                Order.overrun_reported_by o1 = Some u).
Proof.
  unfold handle_delay_reason. intro H.
  assert (exists o0, o1 = save_comments user now comments o0
                     /\ Order.id o0 = Order.id o
                     /\ Order.overrun_reported_at o0 = Order.overrun_reported_at o
                     /\ Order.overrun_reported_by o0 = Order.overrun_reported_by o)
    as (o0 & -> & Hid & Hat & Hby).
  { destruct (exceeds_on_complete is_order_overdue now o); destruct dr as [| |r];
      try discriminate;
      try (destruct (delay_reason_exists db r); try discriminate);
      injection H as <-; eexists; (split; [reflexivity|]); simpl; auto. }
  split; [now rewrite save_comments_id|].
  unfold save_comments.
  destruct (is_empty (strip (or_str comments ""))); cbn; rewrite ?Hat, ?Hby.
  - auto.
  - split; intros x Hx; rewrite Hx; reflexivity.
Qed.

(** X4. Completing an order that carries an overrun report keeps the time
    and the reporter of that report, whatever comments and delay reason the
    completion form brings. *)
Theorem completion_keeps_overrun_report (is_order_overdue : Time -> Time -> bool)
    (db db' : Store) (user : User.t) (now t : Time) (u pk : Z) (o : Order.t)
    (dr : PostInt) (comments : option string) :
  get_order db pk = Some o ->
  Order.overrun_reported_at o = Some t -> Order.overrun_reported_by o = Some u ->
  started_order_detail is_order_overdue db user now pk (Some (complete_order dr comments))
  = (db', RedirectDashboard) ->
  exists o',
    get_order db' pk = Some o'
    /\ Order.status o' = completed
    /\ Order.completed_at o' = Some now
    /\ Order.overrun_reported_at o' = Some t
    /\ Order.overrun_reported_by o' = Some u.
Proof.
  intros Hget Hat Hby H. unfold started_order_detail in H. rewrite Hget in H.
  unfold complete_order_action in H.
  destruct (handle_delay_reason is_order_overdue db user now o dr comments)
    as [e|o1] eqn:E; [discriminate|].
  injection H as <-.
  destruct (handle_delay_reason_keeps _ _ _ _ _ _ _ E) as (Hid & Kat & Kby).
  eexists. split.
  - apply get_order_saved with (o := o); [exact Hget|].
    cbn. rewrite Hid. now apply get_order_id in Hget.
  - cbn. auto.
Qed.

Lemma completion_keeps_overrun_report_witness :
  let reported :=
    Order.set_overrun_reported_by (Some 12)
      (Order.set_overrun_reported_at (Some Shop.hour)
         (Order.set_overrun_reason (Some "parts late") Shop.running)) in
  exists o',
    get_order
      (fst (started_order_detail overdue_after_two_hours (Shop.db_with [reported])
              Shop.root (2 * Shop.hour) 7
              (Some (complete_order Absent (Some "done at last"))))) 7 = Some o'
    /\ Order.status o' = completed
    /\ Order.completed_at o' = Some (2 * Shop.hour)
    /\ Order.overrun_reported_at o' = Some Shop.hour
    /\ Order.overrun_reported_by o' = Some 12.
Proof.
  intro reported.
  exact (@completion_keeps_overrun_report overdue_after_two_hours
           (Shop.db_with [reported]) _ Shop.root (2 * Shop.hour) Shop.hour 12 7
           reported Absent (Some "done at last") eq_refl eq_refl eq_refl eq_refl).
Defined.

(** X5. A delay reason that does not exist: when the order needs one the
    completion is refused with [DelayReasonNotFound] and nothing is written;
    when it needs none the order is completed all the same and keeps the
    delay reason it had. *)
Theorem unknown_delay_reason (is_order_overdue : Time -> Time -> bool) (db : Store)
    (user : User.t) (now : Time) (pk r : Z) (o : Order.t) (comments : option string) :
  get_order db pk = Some o -> delay_reason_exists db r = false ->
  let result :=
    started_order_detail is_order_overdue db user now pk
      (Some (complete_order (Number r) comments)) in
  if exceeds_on_complete is_order_overdue now o then
    result = (db, RedirectDetail DelayReasonNotFound)
  else
    snd result = RedirectDashboard
    /\ exists o',
         get_order (fst result) pk = Some o'
         /\ Order.status o' = completed
         /\ Order.delay_reason o' = Order.delay_reason o
         /\ Order.delay_reason_reported_at o' = Order.delay_reason_reported_at o.
Proof.
  intros Hget Hr result. unfold result, started_order_detail. rewrite Hget.
  unfold complete_order_action, handle_delay_reason.
  destruct (exceeds_on_complete is_order_overdue now o); rewrite Hr; [reflexivity|].
  cbn [fst snd]. split; [reflexivity|].
  eexists. split.
  - apply get_order_saved with (o := o); [exact Hget|].
    cbn. rewrite save_comments_id. now apply get_order_id in Hget.
  - destruct (save_comments_keeps_delay user now comments o) as (E1 & E2 & _).
    cbn. auto.
Qed.

Lemma unknown_delay_reason_witness :
  started_order_detail overdue_after_two_hours (Shop.db_with [Shop.running])
    Shop.clerk_south (4 * Shop.hour) 7 (Some (complete_order (Number 99) None))
  = (Shop.db_with [Shop.running], RedirectDetail DelayReasonNotFound).
Proof.
  exact (@unknown_delay_reason overdue_after_two_hours (Shop.db_with [Shop.running])
           Shop.clerk_south (4 * Shop.hour) 7 99 Shop.running None eq_refl eq_refl).
Defined.

(** ** The admin site *)

Lemma branch_queryset_membership_aux (qs : list Branch.t) (user : User.t)
    (b : Branch.t) :
  User.is_superuser user = false ->
  (In b (BranchAdmin_get_queryset qs user) <->
   In b qs /\ exists ub,
     User.profile_branch user = Some ub
     /\ (Branch.id b = Branch.id ub
         \/ (Branch.parent ub = None /\ Branch.parent b = Some (Branch.id ub)))).
Proof.
  intro Hs. unfold BranchAdmin_get_queryset. rewrite Hs.
  destruct (User.profile_branch user) as [ub|].
  - destruct (Branch.parent ub) as [p|] eqn:Ep; rewrite filter_In; split.
    + intros [Hin Hid]. apply Z.eqb_eq in Hid. split; [exact Hin|].
      exists ub. auto.
    + intros [Hin (ub' & Hub & H)]. injection Hub as <-. split; [exact Hin|].
      destruct H as [H|[H _]]; [now apply Z.eqb_eq | congruence].
    + intros [Hin H]. split; [exact Hin|]. exists ub. split; [reflexivity|].
      apply orb_true_iff in H. destruct H as [H|H].
      * left. now apply Z.eqb_eq.
      * right. split; [exact Ep|]. now apply opt_eqb_Z_eq.
    + intros [Hin (ub' & Hub & H)]. injection Hub as <-. split; [exact Hin|].
      apply orb_true_iff. destruct H as [H|[_ H]].
      * left. now apply Z.eqb_eq.
      * right. rewrite H. apply opt_eqb_Z_refl.
  - split; [intros []|]. intros [_ (ub & Hub & _)]. discriminate.
Qed.

(** X6. For a user who is not a superuser, a branch is in the queryset of
    the branch admin exactly when it is the branch of the user or, for a user
    of a main branch, a branch whose parent is that branch; a user without a
    branch gets the empty queryset. *)
Theorem branch_queryset_membership (qs : list Branch.t) (user : User.t) (b : Branch.t) :
  User.is_superuser user = false ->
  (In b (BranchAdmin_get_queryset qs user) <->
   In b qs /\ exists ub,
     User.profile_branch user = Some ub
     /\ (Branch.id b = Branch.id ub
         \/ (Branch.parent ub = None /\ Branch.parent b = Some (Branch.id ub))))
  /\ (User.profile_branch user = None -> BranchAdmin_get_queryset qs user = []).
Proof.
  intro Hs. split; [now apply branch_queryset_membership_aux|].
  intro Hnone. unfold BranchAdmin_get_queryset. now rewrite Hs, Hnone.
Qed.

Lemma branch_queryset_membership_witness :
  (In Shop.south (BranchAdmin_get_queryset Shop.branches Shop.manager) <->
   In Shop.south Shop.branches /\ exists ub,
     User.profile_branch Shop.manager = Some ub
     /\ (Branch.id Shop.south = Branch.id ub
         \/ (Branch.parent ub = None /\ Branch.parent Shop.south = Some (Branch.id ub))))
  /\ BranchAdmin_get_queryset Shop.branches Shop.manager
     = [Shop.main; Shop.north; Shop.south].
Proof.
  split; [|reflexivity].
  exact (proj1 (@branch_queryset_membership Shop.branches Shop.manager Shop.south
                  eq_refl)).
Defined.

(** X7. A user who is not a superuser may delete every branch the queryset
    shows them, and no branch when they have no branch of their own or when
    no branch is named; a user of a main branch may delete exactly the
    branches of the table that the queryset shows. *)
Theorem delete_permission_follows_queryset (qs : list Branch.t) (user : User.t)
    (b : Branch.t) :
  User.is_superuser user = false ->
  (In b (BranchAdmin_get_queryset qs user) -> has_delete_permission user (Some b) = true)
  /\ has_delete_permission user None = false
  /\ (User.profile_branch user = None -> has_delete_permission user (Some b) = false)
  /\ (forall ub, User.profile_branch user = Some ub -> is_main_branch ub = true ->
        In b qs -> has_delete_permission user (Some b) = true ->
        In b (BranchAdmin_get_queryset qs user)).
Proof.
  intro Hs. unfold has_delete_permission. rewrite Hs.
  split; [|split; [reflexivity|split]].
  - intro Hin. apply (proj1 (branch_queryset_membership_aux qs user b Hs)) in Hin.
    destruct Hin as [_ (ub & Hub & H)]. rewrite Hub.
    apply orb_true_iff. destruct H as [H|[_ H]].
    + left. now apply Z.eqb_eq.
    + right. rewrite H. apply opt_eqb_Z_refl.
  - intro Hnone. now rewrite Hnone.
  - intros ub Hub Hmain Hin Hdel. rewrite Hub in Hdel.
    apply (proj2 (branch_queryset_membership_aux qs user b Hs)).
    split; [exact Hin|]. exists ub. split; [exact Hub|].
    apply orb_true_iff in Hdel. destruct Hdel as [H|H].
    + left. now apply Z.eqb_eq.
    + right. split; [|now apply opt_eqb_Z_eq].
      unfold is_main_branch in Hmain. destruct (Branch.parent ub); [discriminate|reflexivity].
Qed.

Lemma delete_permission_follows_queryset_witness :
  has_delete_permission Shop.manager (Some Shop.south) = true
  /\ has_delete_permission Shop.manager None = false
  /\ has_delete_permission Shop.clerk_north (Some Shop.south) = false.
Proof.
  destruct (@delete_permission_follows_queryset Shop.branches Shop.manager Shop.south
              eq_refl) as (Hshown & Hnone & _).
  split; [apply Hshown; simpl; auto|]. split; [exact Hnone | reflexivity].
Defined.



(** X9. An order that is completed or cancelled is locked in the admin
    site: the form disables those of status, type, priority and description
    that it has, and no other field, and the status that the order has is
    not among the choices of its status field. An order in any other status
    has no field disabled, and neither has the form that adds an order. *)
Theorem terminal_order_is_locked (base_fields : list string) (o : Order.t)
    (field : string) :
  (if status_in (Order.status o) [completed; cancelled] then
     (In field (get_form base_fields (Some o))
      <-> In field ["status"; "type"; "priority"; "description"]
          /\ string_in field base_fields = true)
     /\ ~ In (Order.status o) (form_status_choices (Some o))
   else get_form base_fields (Some o) = [])
  /\ get_form base_fields None = [].
Proof.
  split; [|reflexivity]. unfold get_form, form_status_choices, formfield_for_choice_field.
  destruct (Order.status o); cbn [status_in existsb status_eqb orb];
    try reflexivity; (split; [apply filter_In|]); intros [H|[]]; discriminate H.
Qed.

(** X10. Saving an existing order in the admin site stores the order as the
    form left it, except for one stamp: it never replaces a completion,
    cancellation or start time that is set; when the status changed, the
    time of the status that was reached is set after the save; when the
    status did not change, nothing is stamped. *)
Theorem save_model_stamps_once (db : Store) (now : Time) (obj old_obj : Order.t) :
  get_order db (Order.id obj) = Some old_obj ->
  exists db' saved,
    OrderAdmin_save_model db now obj true = Some db'
    /\ get_order db' (Order.id obj) = Some saved
    /\ Order.status saved = Order.status obj
    /\ (forall t, Order.completed_at obj = Some t -> Order.completed_at saved = Some t)
    /\ (forall t, Order.cancelled_at obj = Some t -> Order.cancelled_at saved = Some t)
    /\ (forall t, Order.started_at obj = Some t -> Order.started_at saved = Some t)
    /\ (if status_eqb (Order.status old_obj) (Order.status obj) then saved = obj
        else match Order.status obj with
             | completed => is_some (Order.completed_at saved) = true
             | cancelled => is_some (Order.cancelled_at saved) = true
             | in_progress => is_some (Order.started_at saved) = true
             | _ => saved = obj
             end).
Proof.
  intro Hget. unfold OrderAdmin_save_model. rewrite Hget.
  eexists. eexists. split; [reflexivity|]. split.
  - apply get_order_saved with (o := old_obj); [exact Hget|].
    destruct (status_eqb (Order.status old_obj) (Order.status obj)); [reflexivity|].
    destruct (Order.status obj); cbn [status_eqb andb negb];
      try reflexivity;
      match goal with
      | |- Order.id (if ?c then _ else _) = _ => destruct c; reflexivity
      end.
  - destruct (status_eqb (Order.status old_obj) (Order.status obj));
      cbn [negb]; [repeat split; auto|].
    destruct (Order.status obj) eqn:Est; cbn [status_eqb andb negb];
      try (repeat split; auto; fail).
    + destruct (Order.started_at obj) eqn:E; cbn [is_some negb];
        repeat split; cbn; rewrite ?E; auto; congruence.
    + destruct (Order.completed_at obj) eqn:E; cbn [is_some negb];
        repeat split; cbn; rewrite ?E; auto; congruence.
    + destruct (Order.cancelled_at obj) eqn:E; cbn [is_some negb];
        repeat split; cbn; rewrite ?E; auto; congruence.
Qed.

Lemma save_model_stamps_once_witness :
  exists db' saved,
    OrderAdmin_save_model (Shop.db_with [Shop.waiting]) Shop.hour
      (Order.set_status in_progress Shop.waiting) true = Some db'
    /\ get_order db' 7 = Some saved
    /\ Order.status saved = in_progress
    /\ Order.started_at saved = Some Shop.hour.
Proof.
  destruct (@save_model_stamps_once (Shop.db_with [Shop.waiting]) Shop.hour
              (Order.set_status in_progress Shop.waiting) Shop.waiting eq_refl)
    as (db' & saved & Hsave & Hget & Hst & _).
  exists db', saved. split; [exact Hsave|]. split; [exact Hget|]. split; [exact Hst|].
  vm_compute in Hsave. injection Hsave as <-. vm_compute in Hget.
  injection Hget as <-. reflexivity.
Defined.

(** X11. The field sets of the order page in the admin site: the titles are
    all different; the completion section is shown exactly for a completed
    order and the cancellation section exactly for a cancelled one; the page
    that adds an order shows the four general sections only. *)
Theorem fieldsets_follow_status (o : Order.t) :
  let titles := map fst (get_fieldsets (Some o)) in
  NoDup titles
  /\ (In "Completion & Signature" titles <-> Order.status o = completed)
  /\ (In "Cancellation" titles <-> Order.status o = cancelled)
  /\ map fst (get_fieldsets None)
     = ["Basic Information"; "Status & Progress"; "Assignment"; "Timestamps"].
Proof.
  unfold get_fieldsets.
  destruct (String.eqb (Order.type o) "service");
    destruct (String.eqb (Order.type o) "sales");
    destruct (String.eqb (Order.type o) "inquiry");
    destruct (Order.status o); cbn;
    (split; [repeat (constructor; [cbn; intuition discriminate|]); constructor|]);
    (split; [|split; [|reflexivity]]); split; intro H;
    try reflexivity; try discriminate; cbn; intuition discriminate.
Qed.

(** ** Updates from the detail page *)

Ltac by_cases :=
  repeat match goal with
         | |- context [match ?x with _ => _ end] => destruct x
         end;
  reflexivity.

Lemma change_order_type_lifecycle (f : OrderDetailsForm) (o : Order.t) :
  lifecycle (change_order_type f o) = lifecycle o.
Proof. unfold change_order_type. by_cases. Qed.

Lemma item_from_labour_code_lifecycle (db : Store) (f : OrderDetailsForm)
    (o o' : Order.t) :
  item_from_labour_code db f o = Some o' -> lifecycle o' = lifecycle o.
Proof.
  unfold item_from_labour_code.
  destruct (post_labour_code_id f) as [| |k]; try discriminate.
  destruct (get_active_labour_code db k) as [lc|]; [|discriminate].
  destruct (truthy_str (LabourCode.item_name lc)); [|discriminate].
  intro H. injection H as <-.
  destruct (truthy_int (LabourCode.quantity lc));
    destruct (truthy_str (LabourCode.tire_type lc)); reflexivity.
Qed.

Lemma item_from_manual_entry_lifecycle (f : OrderDetailsForm) (o o' : Order.t) :
  item_from_manual_entry f o = Some o' -> lifecycle o' = lifecycle o.
Proof.
  unfold item_from_manual_entry.
  destruct (truthy_str (post_item_name_manual f)); [|discriminate].
  intro H. injection H as <-. destruct (post_item_quantity f); reflexivity.
Qed.

Lemma item_from_inventory_lifecycle (db : Store) (f : OrderDetailsForm)
    (o o' : Order.t) :
  item_from_inventory db f o = Some o' -> lifecycle o' = lifecycle o.
Proof.
  unfold item_from_inventory.
  destruct (post_item_id f) as [| |k]; try discriminate.
  destruct (get_inventory_item db k) as [item|]; [|discriminate].
  intro H. injection H as <-. destruct (post_item_quantity f); reflexivity.
Qed.

Lemma update_item_lifecycle (db : Store) (f : OrderDetailsForm) (o : Order.t) :
  lifecycle (update_item db f o) = lifecycle o.
Proof.
  unfold update_item.
  destruct (string_in (Order.type o) ["sales"; "service"; "labour"]); [|reflexivity].
  destruct (item_from_labour_code db f o) eqn:E1;
    [now apply item_from_labour_code_lifecycle in E1|].
  destruct (item_from_manual_entry f o) eqn:E2;
    [now apply item_from_manual_entry_lifecycle in E2|].
  destruct (item_from_inventory db f o) eqn:E3;
    [now apply item_from_inventory_lifecycle in E3|reflexivity].
Qed.

Lemma update_labour_codes_lifecycle (db : Store) (f : OrderDetailsForm) (o : Order.t) :
  lifecycle (update_labour_codes db f o) = lifecycle o.
Proof.
  unfold update_labour_codes.
  destruct (negb (is_empty_list (post_labour_codes f))
            && string_in (Order.type o) ["service"; "labour"]); [|reflexivity].
  destruct (flat_map _ (post_labour_codes f)); reflexivity.
Qed.

Lemma update_services_lifecycle (f : OrderDetailsForm) (o : Order.t) :
  lifecycle (update_services f o) = lifecycle o.
Proof. unfold update_services. destruct (post_services f); reflexivity. Qed.

Lemma update_order_details_lifecycle (db : Store) (f : OrderDetailsForm) (o : Order.t) :
  lifecycle (update_order_details_action db f o) = lifecycle o.
Proof.
  unfold update_order_details_action.
  transitivity (lifecycle (update_services f
                  (update_labour_codes db f (update_item db f (change_order_type f o))))).
  - destruct (post_estimated_duration f); reflexivity.
  - now rewrite update_services_lifecycle, update_labour_codes_lifecycle,
      update_item_lifecycle, change_order_type_lifecycle.
Qed.

(** X12. An update of the order details changes what the order is about
    only. When the database takes the row, the update is saved and answered
    with the redirect; when it does not, nothing is saved and the page is
    shown again with the order as the action left it. In both cases, and
    whatever the form holds, the stored order has the key, number, branch,
    customer, vehicle, status, priority, times, delay reason and overrun
    report it had, and every other order, every customer and every vehicle
    is as before. *)
Theorem update_order_details_keeps_lifecycle (is_order_overdue : Time -> Time -> bool)
    (db : Store) (user : User.t) (now : Time) (pk : Z) (f : OrderDetailsForm)
    (o : Order.t) :
  get_order db pk = Some o ->
  let o' := update_order_details_action db f o in
  let result :=
    started_order_detail is_order_overdue db user now pk
      (Some (update_order_details f)) in
  (accepts_order db o' = true ->
   snd result = RedirectDashboard /\ get_order (fst result) pk = Some o')
  /\ (accepts_order db o' = false ->
      fst result = db /\ exists mismatch exceeds, snd result = Render mismatch exceeds o')
  /\ lifecycle o' = lifecycle o
  /\ (exists stored, get_order (fst result) pk = Some stored
                     /\ lifecycle stored = lifecycle o)
  /\ (forall k, k <> pk -> get_order (fst result) k = get_order db k)
  /\ customers (fst result) = customers db
  /\ vehicles (fst result) = vehicles db.
Proof.
  intros Hget o' result. unfold result, started_order_detail. rewrite Hget.
  fold o'. cbv zeta.
  pose proof (get_order_id _ _ Hget) as Hid.
  pose proof (update_order_details_lifecycle db f o) as Hl. fold o' in Hl.
  assert (Order.id o' = pk) as Hid'.
  { unfold lifecycle in Hl. injection Hl. intros. congruence. }
  assert (get_order (save_order o' db) pk = Some o') as Hsaved
    by now apply get_order_saved with (o := o).
  destruct (accepts_order db o'); cbn [fst snd].
  - split; [auto|]. split; [discriminate|]. split; [exact Hl|].
    split; [exists o'; auto|]. split; [|split; reflexivity].
    intros k Hk. apply get_order_save_other. congruence.
  - split; [discriminate|]. split; [eauto|]. split; [exact Hl|].
    split; [exists o; auto|]. auto.
Qed.

Lemma update_order_details_keeps_lifecycle_witness :
  let db := Shop.db_with [Shop.running] in
  let saved :=
    started_order_detail overdue_after_two_hours db Shop.clerk_south (2 * Shop.hour) 7
      (Some (update_order_details code_and_item_form)) in
  let refused :=
    started_order_detail overdue_after_two_hours db Shop.clerk_south (2 * Shop.hour) 7
      (Some (update_order_details long_duration_form)) in
  snd saved = RedirectDashboard
  /\ (exists stored, get_order (fst saved) 7 = Some stored
                     /\ lifecycle stored = lifecycle Shop.running)
  /\ fst refused = db
  /\ exists mismatch exceeds,
       snd refused
       = Render mismatch exceeds
           (Order.set_estimated_duration (Some (2 ^ 63)) Shop.running).
Proof.
  intros db saved refused.
  destruct (@update_order_details_keeps_lifecycle overdue_after_two_hours
              db Shop.clerk_south (2 * Shop.hour) 7
              code_and_item_form Shop.running eq_refl) as (Hr & _ & _ & Ho & _).
  destruct (@update_order_details_keeps_lifecycle overdue_after_two_hours
              db Shop.clerk_south (2 * Shop.hour) 7
              long_duration_form Shop.running eq_refl) as (_ & Hf & _).
  split; [exact (proj1 (Hr eq_refl))|]. split; [exact Ho|].
  exact (Hf eq_refl).
Defined.

(** ** Looking a plate up *)


Lemma lstrip_idempotent (s : string) : lstrip (lstrip s) = lstrip s.
Proof.
  induction s as [|c s IH]; simpl; [reflexivity|].
  destruct (is_space c) eqn:E; [exact IH|]. simpl. now rewrite E.
Qed.





(** X14. When the plate check answers that the plate was found, the vehicle
    it names is a vehicle of the table whose plate is the plate that was
    asked for, up to the case of letters, and whose customer, the one it
    names, is a customer of the branch of the user; the plate that was asked
    for is not blank. *)
Theorem check_plate_finds_vehicle_of_branch (db : Store) (user : User.t)
    (raw : option string) (cid vid : Z) :
  api_check_plate db user raw = Found cid vid ->
  exists v c,
    In v (vehicles db) /\ Vehicle.id v = vid /\ Vehicle.customer v = cid
    /\ iexact (Vehicle.plate_number v) (normalize_plate raw) = true
    /\ get_customer db cid = Some c
    /\ Customer.branch c = option_map Branch.id (get_user_branch user)
    /\ is_empty (normalize_plate raw) = false.
Proof.
  unfold api_check_plate.
  destruct (is_empty (normalize_plate raw)) eqn:Hne; [discriminate|].
  destruct (find_vehicle db (normalize_plate raw) _) as [v|] eqn:Hf; [|discriminate].
  intro H. injection H as <- <-.
  apply find_some in Hf. destruct Hf as [Hin Hm].
  unfold vehicle_in_branch in Hm. apply andb_true_iff in Hm. destruct Hm as [Hp Hb].
  destruct (get_customer db (Vehicle.customer v)) as [c|] eqn:Hc; [|discriminate].
  exists v, c. repeat split; auto. now apply opt_eqb_Z_eq.
Qed.

Lemma check_plate_finds_vehicle_of_branch_witness :
  exists v c,
    In v (vehicles (Shop.db_with [])) /\ Vehicle.id v = 1 /\ Vehicle.customer v = 1
    /\ iexact (Vehicle.plate_number v) (normalize_plate (Some " t123abc")) = true
    /\ get_customer (Shop.db_with []) 1 = Some c
    /\ Customer.branch c = option_map Branch.id (get_user_branch Shop.clerk_south)
    /\ is_empty (normalize_plate (Some " t123abc")) = false.
Proof.
  exact (@check_plate_finds_vehicle_of_branch (Shop.db_with []) Shop.clerk_south
           (Some " t123abc") 1 1 eq_refl).
Defined.

Section StartAnswers.

Variable create_or_get_customer :
  Store -> Time -> option Z -> string -> option string -> string ->
  option (Store * Customer.t).
Variable create_or_get_vehicle :
  Store -> Time -> Customer.t -> string -> option (Store * Vehicle.t).
Variable update_customer_visit : Store -> Time -> Customer.t -> option Store.
Variable create_order :
  Store -> Time -> Customer.t -> string -> option Z -> option Vehicle.t ->
  string -> string -> option Z -> option (Store * Order.t).
Variable strftime : Time -> string.

Let start :=
  api_start_order create_or_get_customer create_or_get_vehicle update_customer_visit
    create_order strftime.

(** X15. The plate check and the start of an order agree. For a call
    without a chosen customer and without [force_new_order]: when the check
    finds the plate, the start writes nothing and answers with an existing
    order or with the customer and vehicle that the check names; when the
    check finds nothing, the start answers with neither. *)
Theorem check_plate_agrees_with_start (db : Store) (user : User.t) (now : Time)
    (data : StartOrderRequest) :
  force_new_order data = false ->
  truthy_int (existing_customer_id data) = false ->
  string_in (match order_type data with Some t => t | None => "service" end)
            valid_order_types = true ->
  match api_check_plate db user (plate_number data) with
  | Found cid vid =>
      fst (start db user now (Some data)) = db
      /\ ((exists oid num,
             snd (start db user now (Some data)) = Success (ExistingOrder oid num))
          \/ snd (start db user now (Some data)) = Success (ExistingCustomer cid vid))
  | NotFound =>
      forall a b c,
        snd (start db user now (Some data)) <> Success (ExistingOrder a b)
        /\ snd (start db user now (Some data)) <> Success (ExistingCustomer a c)
  end.
Proof.
  intros Hforce Hpre Hty.
  unfold start, api_start_order, api_check_plate. cbv zeta.
  rewrite Hpre, Hforce, andb_false_r, Hty. simpl negb. rewrite !andb_true_r.
  assert (match existing_customer_id data with
          | Some _ => Some (@None Customer.t, option_map Branch.id (get_user_branch user))
          | None => Some (None, option_map Branch.id (get_user_branch user))
          end = Some (None, option_map Branch.id (get_user_branch user))) as Ecust
      by (destruct (existing_customer_id data); reflexivity).
  rewrite Ecust. clear Ecust.
  destruct (is_empty (normalize_plate (plate_number data))); cbn [negb fst snd].
  - intros a b c. split; discriminate.
  - destruct (find_vehicle db (normalize_plate (plate_number data)) _) as [v|].
    + destruct (latest_order_created db v [created; in_progress]) as [o|];
        cbn [fst snd]; split; eauto.
    + intros a b c.
      destruct (start_new_order _ _ _ _ _ _ _ _ _ _ _ _) as [[d o]|];
        cbn [snd]; split; discriminate.
Qed.

(** X16. A start that is answered with a failure has written nothing, and
    the failure has status 400 or 500. *)
Theorem failed_start_writes_nothing (db : Store) (user : User.t) (now : Time)
    (data : option StartOrderRequest) (code : Z) :
  snd (start db user now data) = Failure code ->
  fst (start db user now data) = db /\ (code = 400 \/ code = 500).
Proof.
  unfold start, api_start_order. cbv zeta.
  repeat match goal with
         | |- context [match ?x with _ => _ end] => destruct x
         end;
    cbn [fst snd]; intro H; try discriminate; injection H as <-; auto.
Qed.

End StartAnswers.

Lemma check_plate_agrees_with_start_witness :
  let start :=
    api_start_order Services.create_or_get_customer Services.create_or_get_vehicle
      Services.update_customer_visit Services.create_order Services.strftime in
  let db := Shop.db_with [Shop.done] in
  api_check_plate db Shop.clerk_south (Some "t123abc") = Found 1 1
  /\ fst (start db Shop.clerk_south Shop.hour (Some (start_request "t123abc"))) = db
  /\ snd (start db Shop.clerk_south Shop.hour (Some (start_request "t123abc")))
     = Success (ExistingCustomer 1 1).
Proof.
  intros start db.
  pose proof (@check_plate_agrees_with_start Services.create_or_get_customer
                Services.create_or_get_vehicle Services.update_customer_visit
                Services.create_order Services.strftime db Shop.clerk_south Shop.hour
                (start_request "t123abc") eq_refl eq_refl eq_refl) as H.
  split; [reflexivity|]. split; [exact (proj1 H) | reflexivity].
Defined.

Lemma failed_start_writes_nothing_witness :
  let start :=
    api_start_order Services.create_or_get_customer Services.create_or_get_vehicle
      Services.update_customer_visit Services.create_order Services.strftime in
  let request :=
    mkStartOrderRequest (Some "T555AAA") (Some "repair") false None [] None false in
  fst (start empty_db Shop.clerk_south Shop.hour (Some request)) = empty_db
  /\ (400 = 400 \/ 400 = 500).
Proof.
  intros start request.
  exact (@failed_start_writes_nothing Services.create_or_get_customer
           Services.create_or_get_vehicle Services.update_customer_visit
           Services.create_order Services.strftime empty_db Shop.clerk_south Shop.hour
           (Some request) 400 eq_refl).
Defined.

Section ForcedStart.

Variable create_or_get_customer :
  Store -> Time -> option Z -> string -> option string -> string ->
  option (Store * Customer.t).
Variable create_or_get_vehicle :
  Store -> Time -> Customer.t -> string -> option (Store * Vehicle.t).
Variable update_customer_visit : Store -> Time -> Customer.t -> option Store.
Variable create_order :
  Store -> Time -> Customer.t -> string -> option Z -> option Vehicle.t ->
  string -> string -> option Z -> option (Store * Order.t).
Variable strftime : Time -> string.

Hypothesis contract :
  ServicesContract create_or_get_customer create_or_get_vehicle create_order.

Let start :=
  api_start_order create_or_get_customer create_or_get_vehicle update_customer_visit
    create_order strftime.

Lemma forced_new_order_is_appended (db db1 : Store) (now : Time)
    (data : StartOrderRequest) (plate ty : string) (ub : option Z)
    (customer : option Customer.t) (o : Order.t) :
  NoDup (map Customer.id (customers db)) ->
  force_new_order data = true ->
  start_new_order create_or_get_customer create_or_get_vehicle update_customer_visit
    create_order strftime db now data plate ty ub customer = Some (db1, o) ->
  orders db1 = (orders db ++ [o])%list /\ Order.status o = created.
Proof.
  intros Hnd Hforce H. unfold start_new_order in H. rewrite Hforce in H.
  assert (exists dbA c,
            orders dbA = orders db
            /\ match (if is_empty plate then Some (dbA, None)
                      else match create_or_get_vehicle dbA now c plate with
                           | Some (db2, v) => Some (db2, Some v)
                           | None => None
                           end) with
               | Some (db2, vehicle) =>
                   reuse_or_create update_customer_visit create_order db2 now c vehicle
                     true ty ub (start_description plate (service_selection data))
                     (selected_duration db2 (service_selection data) ty
                        (estimated_duration data))
               | None => None
               end = Some (db1, o)) as (dbA & c & Oa & H').
  { destruct customer as [c|].
    - exists db, c. split; [reflexivity | exact H].
    - destruct (synthesize_customer create_or_get_customer strftime db now ub plate)
        as [[dbA c]|] eqn:Ec; [|discriminate].
      exists dbA, c. split; [|exact H].
      exact (proj1 (proj2 (synthesize_customer_contract strftime contract _ _ _ _ Hnd Ec))). }
  clear H.
  assert (exists dbB vehicle,
            orders dbB = orders db
            /\ reuse_or_create update_customer_visit create_order dbB now c vehicle
                 true ty ub (start_description plate (service_selection data))
                 (selected_duration dbB (service_selection data) ty
                    (estimated_duration data)) = Some (db1, o))
    as (dbB & vehicle & Ob & Hr).
  { destruct (is_empty plate).
    - exists dbA, None. split; [exact Oa | exact H'].
    - destruct (create_or_get_vehicle dbA now c plate) as [[dbB v]|] eqn:Ev;
        [|discriminate].
      exists dbB, (Some v). split; [|exact H'].
      destruct (vehicle_contract contract _ _ _ _ Ev) as (_ & Ob & _). congruence. }
  unfold reuse_or_create in Hr.
  destruct (order_contract contract _ _ _ _ _ _ _ _ _ Hr) as (_ & _ & O1 & _ & Os).
  split; [congruence | exact Os].
Qed.

(** X17. With [force_new_order] a start never reuses an order: whenever it
    succeeds, on a customer table with unique keys and with services that
    keep their contract, it has appended one order, in state [created], to
    the orders that were there, and answers with that order. *)
Theorem forced_start_appends_order (db db1 : Store) (user : User.t) (now : Time)
    (data : StartOrderRequest) (r : StartOrderResult) :
  NoDup (map Customer.id (customers db)) ->
  force_new_order data = true ->
  start db user now (Some data) = (db1, Success r) ->
  exists o,
    r = OrderStarted (Order.id o) (Order.order_number o) created
    /\ orders db1 = (orders db ++ [o])%list.
Proof.
  intros Hnd Hforce H. unfold start, api_start_order in H. cbv zeta in H.
  rewrite Hforce in H. cbn [negb] in H. rewrite andb_false_r in H.
  repeat match type of H with
         | (if ?c then _ else _) = _ => destruct c; [discriminate|]
         end.
  match type of H with
  | match ?chosen with _ => _ end = _ =>
      destruct chosen as [[customer ub]|]; [|discriminate]
  end.
  match type of H with
  | match ?call with _ => _ end = _ => destruct call as [[d o]|] eqn:Es
  end; [|discriminate].
  injection H as <- <-.
  destruct (@forced_new_order_is_appended db d now data _ _ _ customer o Hnd Hforce Es)
    as [Ho Hs].
  exists o. rewrite Hs. auto.
Qed.

End ForcedStart.

Lemma forced_start_appends_order_witness :
  let start :=
    api_start_order Services.create_or_get_customer Services.create_or_get_vehicle
      Services.update_customer_visit Services.create_order Services.strftime in
  let request :=
    mkStartOrderRequest (Some "T123ABC") None false None [] None true in
  let db := Shop.db_with [Shop.waiting] in
  exists o,
    OrderStarted 8 "ORD" created
    = OrderStarted (Order.id o) (Order.order_number o) created
    /\ orders (fst (start db Shop.clerk_south Shop.hour (Some request)))
       = (orders db ++ [o])%list.
Proof.
  intros start request db.
  refine (@forced_start_appends_order Services.create_or_get_customer
            Services.create_or_get_vehicle Services.update_customer_visit
            Services.create_order Services.strftime services_keep_contract
            db _ Shop.clerk_south Shop.hour request _ _ eq_refl eq_refl).
  repeat constructor. simpl. tauto.
Defined.

(** ** The seed command *)

Lemma rows_named_app (name : string) (t1 t2 : list ServiceType.t) :
  rows_named name (t1 ++ t2) = (rows_named name t1 ++ rows_named name t2)%list.
Proof. unfold rows_named. apply filter_app. Qed.

Lemma rows_named_in (name : string) (table : list ServiceType.t) :
  rows_named name table = [] <-> ~ In name (map ServiceType.name table).
Proof.
  unfold rows_named. rewrite filter_nil_iff. split.
  - intros H Hin. apply in_map_iff in Hin. destruct Hin as (s & Hs & Hin).
    specialize (H s Hin). rewrite Hs, String.eqb_refl in H. discriminate.
  - intros H s Hin. destruct (String.eqb_spec (ServiceType.name s) name) as [E|E];
      [|reflexivity].
    exfalso. apply H. rewrite <- E. now apply in_map.
Qed.

(** With names that are all different, a name has at most one row. *)
Lemma rows_named_unique (name : string) (table : list ServiceType.t) :
  NoDup (map ServiceType.name table) ->
  rows_named name table = [] \/ exists row, rows_named name table = [row].
Proof.
  induction table as [|s table IH]; simpl; [auto|].
  intro Hnd. inversion Hnd as [|? ? Hnotin Hnd']; subst.
  destruct (String.eqb_spec (ServiceType.name s) name) as [E|E].
  - right. exists s. f_equal. apply rows_named_in. now rewrite <- E.
  - now apply IH.
Qed.

Lemma NoDup_app_iff_last {A : Type} (l : list A) (x : A) :
  NoDup l -> ~ In x l -> NoDup (l ++ [x]).
Proof.
  intros Hnd Hx. induction l as [|a l IH]; simpl.
  - constructor; [intros []|constructor].
  - inversion Hnd as [|? ? Ha Hnd']; subst. constructor.
    + intro Hin. apply in_app_or in Hin. destruct Hin as [Hin|[Hin|[]]].
      * now apply Ha.
      * apply Hx. now left.
    + apply IH; [exact Hnd'|]. intro Hin. apply Hx. now right.
Qed.

(** One [get_or_create] on a table with different names: it does not raise,
    it leaves the rows that are there, and the name has its one row after. *)
Lemma get_or_create_by_name_spec (table : list ServiceType.t) (name : string)
    (minutes : Z) :
  NoDup (map ServiceType.name table) ->
  exists added,
    get_or_create_by_name table name minutes
    = Some ((table ++ added)%list, negb (is_empty_list added))
    /\ NoDup (map ServiceType.name (table ++ added))
    /\ (rows_named name table = [] -> List.length added = 1%nat)
    /\ (rows_named name table <> [] -> added = [])
    /\ exists row, rows_named name (table ++ added) = [row].
Proof.
  intro Hnd. unfold get_or_create_by_name. fold (rows_named name table).
  destruct (rows_named_unique name table Hnd) as [E|[row E]]; rewrite E.
  - exists [ServiceType.mk name (Some minutes) true].
    split; [reflexivity|]. split; [|split; [reflexivity|split; [congruence|]]].
    + rewrite map_app. simpl. apply NoDup_app_iff_last; auto.
      now apply rows_named_in.
    + rewrite rows_named_app, E. simpl. unfold rows_named. simpl.
      rewrite String.eqb_refl. eauto.
  - exists []. rewrite app_nil_r.
    split; [reflexivity|]. split; [exact Hnd|]. split; [discriminate|].
    split; [reflexivity|]. eauto.
Qed.

Lemma seed_loop_spec (data : list (string * Z)) :
  forall (table : list ServiceType.t) (c : nat),
    NoDup (map ServiceType.name table) ->
    exists added,
      seed_loop data table c = ((table ++ added)%list, Some (c + List.length added)%nat)
      /\ NoDup (map ServiceType.name (table ++ added))
      /\ forall name m, In (name, m) data ->
           exists row, rows_named name (table ++ added) = [row].
Proof.
  induction data as [|[name m] data IH]; intros table c Hnd.
  - exists []. rewrite app_nil_r, Nat.add_0_r. simpl.
    split; [reflexivity|]. split; [exact Hnd | intros ? ? []].
  - destruct (get_or_create_by_name_spec table name m Hnd)
      as (added1 & Hcall & Hnd1 & Hnew & Hold & row & Hrow).
    destruct (IH (table ++ added1)%list
                 (if negb (is_empty_list added1) then S c else c) Hnd1)
      as (added2 & Hloop & Hnd2 & Hall).
    exists (added1 ++ added2)%list. rewrite app_assoc.
    split; [|split; [exact Hnd2|]].
    + simpl. rewrite Hcall, Hloop. f_equal. f_equal. rewrite length_app.
      destruct added1 as [|a l]; simpl; [reflexivity|].
      assert (rows_named name table = []) as E.
      { destruct (rows_named name table) eqn:E; [reflexivity|].
        assert (a :: l = []) by (apply Hold; discriminate). discriminate. }
      specialize (Hnew E). simpl in Hnew. lia.
    + intros n k [Hin|Hin]; [|now apply (Hall n k)].
      injection Hin as <- <-.
      destruct (rows_named_unique name _ Hnd2) as [E|E]; [|exact E].
      rewrite rows_named_app, Hrow in E. discriminate.
Qed.

(** A loop over names that all have their one row creates nothing. *)
Lemma seed_loop_noop (data : list (string * Z)) (table : list ServiceType.t) (c : nat) :
  (forall name m, In (name, m) data -> exists row, rows_named name table = [row]) ->
  seed_loop data table c = (table, Some c).
Proof.
  revert c. induction data as [|[name m] data IH]; intros c H; simpl; [reflexivity|].
  destruct (H name m (or_introl eq_refl)) as [row Hrow].
  unfold get_or_create_by_name. fold (rows_named name table). rewrite Hrow.
  apply IH. intros n k Hin. apply (H n k). now right.
Qed.

(** X18. Seeding the service types, and likewise the add-ons, of a table
    whose names are all different never raises. It leaves every row that was
    there as it was and appends the rows it reports as created, after which
    each seeded name has exactly one row; a second run creates nothing and
    leaves the table as the first run left it. *)
Theorem seed_is_idempotent (table : list ServiceType.t) :
  NoDup (map ServiceType.name table) ->
  (exists added,
     seed_service_types table = ((table ++ added)%list, Some (List.length added))
     /\ (forall name m, In (name, m) service_types_data ->
           exists row, rows_named name (table ++ added) = [row])
     /\ seed_service_types (table ++ added) = ((table ++ added)%list, Some 0%nat))
  /\ (exists added,
        seed_service_addons table = ((table ++ added)%list, Some (List.length added))
        /\ (forall name m, In (name, m) service_addons_data ->
              exists row, rows_named name (table ++ added) = [row])
        /\ seed_service_addons (table ++ added) = ((table ++ added)%list, Some 0%nat)).
Proof.
  intro Hnd. unfold seed_service_types, seed_service_addons. split.
  - destruct (seed_loop_spec service_types_data table 0 Hnd) as (added & H1 & _ & H3).
    exists added. split; [exact H1|]. split; [exact H3 | now apply seed_loop_noop].
  - destruct (seed_loop_spec service_addons_data table 0 Hnd) as (added & H1 & _ & H3).
    exists added. split; [exact H1|]. split; [exact H3 | now apply seed_loop_noop].
Qed.

Lemma seed_is_idempotent_witness :
  let edited := [ServiceType.mk "Brake Service" (Some 50) false] in
  exists added,
    seed_service_types edited = ((edited ++ added)%list, Some (List.length added))
    /\ List.length added = 16%nat
    /\ seed_service_types (edited ++ added) = ((edited ++ added)%list, Some 0%nat).
Proof.
  intro edited.
  assert (NoDup (map ServiceType.name edited)) as Hnd
      by (constructor; [intros []|constructor]).
  destruct (proj1 (@seed_is_idempotent edited Hnd)) as (added & H1 & _ & H3).
  exists added. split; [exact H1|]. split; [|exact H3].
  assert (snd (seed_service_types edited) = Some 16%nat) as E by reflexivity.
  rewrite H1 in E. simpl in E. now injection E.
Defined.

Lemma seed_loop_duplicate (data : list (string * Z)) :
  forall (table : list ServiceType.t) (c : nat) (name : string) (m : Z),
    In (name, m) data -> (2 <= List.length (rows_named name table))%nat ->
    exists added, seed_loop data table c = ((table ++ added)%list, None).
Proof.
  induction data as [|[n0 m0] data IH]; intros table c name m Hin Hdup; [destruct Hin|].
  simpl. unfold get_or_create_by_name. fold (rows_named n0 table).
  destruct (rows_named n0 table) as [|r0 [|r1 l]] eqn:E.
  - destruct Hin as [Hin|Hin].
    { injection Hin as <- <-. rewrite E in Hdup. simpl in Hdup. lia. }
    destruct (IH (table ++ [ServiceType.mk n0 (Some m0) true])%list (S c) name m Hin)
      as [added Hadd].
    + rewrite rows_named_app, length_app. lia.
    + exists (ServiceType.mk n0 (Some m0) true :: added).
      rewrite Hadd. now rewrite <- app_assoc.
  - destruct Hin as [Hin|Hin].
    { injection Hin as <- <-. rewrite E in Hdup. simpl in Hdup. lia. }
    exact (IH table c name m Hin Hdup).
  - exists []. now rewrite app_nil_r.
Qed.

(** X19. When a seeded service type has two or more rows in the table the
    seed raises; the rows that were there stay as they were, and the rows it
    created before the call that raised stay in the table. *)
Theorem seed_raises_on_duplicate_rows (table : list ServiceType.t) (name : string)
    (m : Z) :
  In (name, m) service_types_data ->
  (2 <= List.length (rows_named name table))%nat ->
  exists added, seed_service_types table = ((table ++ added)%list, None).
Proof. intros Hin Hdup. now apply seed_loop_duplicate with (name := name) (m := m). Qed.

Lemma seed_raises_on_duplicate_rows_witness :
  let twice := [ServiceType.mk "Brake Service" (Some 45) true;
                ServiceType.mk "Brake Service" (Some 50) true] in
  seed_service_types twice
  = ((twice ++ [ServiceType.mk "Oil Change" (Some 30) true])%list, None).
Proof.
  intro twice.
  destruct (@seed_raises_on_duplicate_rows twice "Brake Service" 45) as [added H].
  - simpl. auto.
  - simpl. lia.
  - rewrite H. f_equal. f_equal.
    assert (fst (seed_service_types twice)
            = (twice ++ [ServiceType.mk "Oil Change" (Some 30) true])%list) as E
        by reflexivity.
    rewrite H in E. cbn [fst] in E. now apply app_inv_head in E.
Defined.

(** ** Key figures *)

Lemma filter_length_le_weaker {A : Type} (p q : A -> bool) (l : list A) :
  (forall x, p x = true -> q x = true) ->
  (List.length (filter p l) <= List.length (filter q l))%nat.
Proof.
  intro H. induction l as [|a l IH]; simpl; [lia|].
  destruct (p a) eqn:E.
  - rewrite (H a E). simpl. lia.
  - destruct (q a); simpl; lia.
Qed.

Lemma filter_length_le_all {A : Type} (p : A -> bool) (l : list A) :
  (List.length (filter p l) <= List.length l)%nat.
Proof. induction l as [|a l IH]; simpl; [lia|]. destruct (p a); simpl; lia. Qed.

Lemma filter_or_length {A : Type} (p q : A -> bool) (l : list A) :
  (forall x, p x = true -> q x = false) ->
  List.length (filter (fun x => p x || q x) l)
  = (List.length (filter p l) + List.length (filter q l))%nat.
Proof.
  intro H. induction l as [|a l IH]; simpl; [reflexivity|].
  destruct (p a) eqn:E; simpl.
  - rewrite (H a E). simpl. lia.
  - destruct (q a); simpl; lia.
Qed.

(** Plates that occur twice take two entries each. *)
Lemma repeated_among (ds plates : list string) :
  NoDup ds ->
  (2 * List.length (filter (fun p => Nat.leb 2 (count_plate p plates)) ds)
   <= List.length (filter (fun x => existsb (String.eqb x) ds) plates))%nat.
Proof.
  induction ds as [|d ds IH]; intro Hnd; [simpl; lia|].
  inversion Hnd as [|? ? Hd Hnd']; subst. specialize (IH Hnd').
  cbn [existsb].
  rewrite (filter_or_length (fun x => String.eqb x d)
             (fun x => existsb (String.eqb x) ds)).
  - assert (List.length (filter (fun x => String.eqb x d) plates) = count_plate d plates)
      as Ec.
    { unfold count_plate. f_equal. apply filter_ext. intro x. apply String.eqb_sym. }
    rewrite Ec. cbn [filter].
    destruct (Nat.leb 2 (count_plate d plates)) eqn:E; cbn [List.length].
    + apply Nat.leb_le in E. lia.
    + lia.
  - intros x Hx. apply String.eqb_eq in Hx. subst x.
    destruct (existsb (String.eqb d) ds) eqn:E; [|reflexivity].
    exfalso. apply Hd. apply existsb_exists in E. destruct E as (y & Hy & Hxy).
    apply String.eqb_eq in Hxy. now subst.
Qed.

Lemma repeated_plates_bound (plates : list string) :
  (2 * repeated_plates plates <= List.length plates)%nat.
Proof.
  unfold repeated_plates.
  pose proof (@repeated_among (nodup string_dec plates) plates
                (NoDup_nodup string_dec plates)) as H.
  pose proof (filter_length_le_all
                (fun x => existsb (String.eqb x) (nodup string_dec plates)) plates).
  lia.
Qed.

Lemma vehicle_plates_length (db : Store) (os : list Order.t) :
  (List.length (vehicle_plates db os) <= List.length os)%nat.
Proof.
  unfold vehicle_plates. induction os as [|o os IH]; simpl; [lia|].
  rewrite length_app.
  destruct (Order.vehicle o) as [vid|]; [destruct (get_vehicle db vid)|]; simpl; lia.
Qed.

Section KeyFigures.

Variable date : Time -> Z.

(** X20. The key figures of the started orders are consistent: the orders
    started today are among the started orders, and every vehicle counted as
    repeated today stands for at least two of today's orders of the branch
    that have a vehicle. *)
Theorem key_figures_are_consistent (db : Store) (user : User.t) (now : Time) :
  let '(total_started, today_started, repeated_vehicles_today) :=
    api_started_orders_kpis date db user now in
  (today_started <= total_started)%nat
  /\ (2 * repeated_vehicles_today
      <= List.length
           (filter (fun o => in_user_branch user o
                             && Z.eqb (date (Order.created_at o)) (date now)
                             && is_some (Order.vehicle o)) (orders db)))%nat.
Proof.
  unfold api_started_orders_kpis. cbv zeta. split.
  - apply filter_length_le_weaker. intros o H.
    apply andb_true_iff in H. destruct H as [H H3].
    apply andb_true_iff in H. destruct H as [H1 _]. now rewrite H1, H3.
  - match goal with
    | |- (2 * repeated_plates (vehicle_plates db ?l) <= _)%nat =>
        pose proof (repeated_plates_bound (vehicle_plates db l));
        pose proof (vehicle_plates_length db l)
    end.
    lia.
Qed.

(** X21. The key figures count the orders of the branch of the user only:
    orders of other branches, added to the table, change none of the three
    figures. *)
Theorem key_figures_ignore_other_branches (db : Store) (user : User.t) (now : Time)
    (others : list Order.t) :
  (forall o, In o others -> in_user_branch user o = false) ->
  api_started_orders_kpis date (set_orders (orders db ++ others) db) user now
  = api_started_orders_kpis date db user now.
Proof.
  intro H. unfold api_started_orders_kpis. cbv zeta. cbn [orders set_orders].
  rewrite !filter_app.
  assert (forall q, filter (fun o => in_user_branch user o && q o) others = []) as E.
  { intro q. apply filter_nil_iff. intros o Ho. now rewrite (H o Ho). }
  assert (forall q r, filter (fun o => in_user_branch user o && q o && r o) others = [])
    as E2.
  { intros q r. apply filter_nil_iff. intros o Ho. now rewrite (H o Ho). }
  rewrite (E (fun o => status_in (Order.status o) [created; in_progress])).
  rewrite (E2 (fun o => date (Order.created_at o) =? date now)
              (fun o => status_in (Order.status o) [created; in_progress])).
  rewrite (E2 (fun o => date (Order.created_at o) =? date now)
              (fun o => is_some (Order.vehicle o))).
  rewrite !app_nil_r. reflexivity.
Qed.

End KeyFigures.

Lemma key_figures_ignore_other_branches_witness :
  let day (t : Time) := t / (24 * Shop.hour) in
  api_started_orders_kpis day
    (set_orders (orders (Shop.db_with [Shop.running]) ++ [Shop.new_order 8 2 0])
       (Shop.db_with [Shop.running])) Shop.clerk_south Shop.hour
  = api_started_orders_kpis day (Shop.db_with [Shop.running]) Shop.clerk_south Shop.hour.
Proof.
  intro day.
  apply (@key_figures_ignore_other_branches day (Shop.db_with [Shop.running])
           Shop.clerk_south Shop.hour [Shop.new_order 8 2 0]).
  intros o [<-|[]]. reflexivity.
Defined.

(** ** Orders grouped by plate *)

Lemma plate_group_append (p q : string) (o : Order.t)
    (groups : list (string * list Order.t)) :
  plate_group p (append_to_plate q o groups)
  = if String.eqb p q
    then Some (match plate_group p groups with
               | Some os => (os ++ [o])%list
               | None => [o]
               end)
    else plate_group p groups.
Proof.
  unfold plate_group. induction groups as [|[k os] rest IH]; simpl.
  - rewrite (String.eqb_sym q p). destruct (String.eqb p q); reflexivity.
  - destruct (String.eqb_spec k q) as [E|E]; simpl.
    + subst k. rewrite (String.eqb_sym q p). destruct (String.eqb p q); reflexivity.
    + destruct (String.eqb_spec k p) as [E'|E']; simpl.
      * subst k. destruct (String.eqb_spec p q); [congruence | reflexivity].
      * exact IH.
Qed.

Lemma append_to_plate_keys (q : string) (o : Order.t)
    (groups : list (string * list Order.t)) :
  map fst (append_to_plate q o groups)
  = if existsb (String.eqb q) (map fst groups) then map fst groups
    else (map fst groups ++ [q])%list.
Proof.
  induction groups as [|[k os] rest IH]; simpl; [reflexivity|].
  rewrite (String.eqb_sym q k).
  destruct (String.eqb k q); simpl; [reflexivity|].
  rewrite IH. destruct (existsb (String.eqb q) (map fst rest)); reflexivity.
Qed.

Lemma orders_by_plate_snoc (db : Store) (os : list Order.t) (o : Order.t) :
  orders_by_plate db (os ++ [o])
  = append_to_plate (plate_of db o) o (orders_by_plate db os).
Proof. unfold orders_by_plate. now rewrite fold_left_app. Qed.

(** X22. The dashboard files every order under its plate, or under
    ['Unknown'] without a vehicle: a plate is a key of the grouping exactly
    when some order has it, each key is there once, and its group holds the
    orders of that plate, all of them, in the order of the list. *)
Theorem orders_by_plate_partitions (db : Store) (os : list Order.t) (p : string) :
  NoDup (map fst (orders_by_plate db os))
  /\ plate_group p (orders_by_plate db os)
     = match filter (fun o => String.eqb (plate_of db o) p) os with
       | [] => None
       | group => Some group
       end.
Proof.
  split.
  - induction os as [|o os IH] using rev_ind; [constructor|].
    rewrite orders_by_plate_snoc, append_to_plate_keys.
    destruct (existsb _ (map fst (orders_by_plate db os))) eqn:E; [exact IH|].
    apply NoDup_app_iff_last; [exact IH|].
    intro Hin. assert (existsb (String.eqb (plate_of db o))
                         (map fst (orders_by_plate db os)) = true) as E'.
    { apply existsb_exists. exists (plate_of db o). split; [exact Hin|].
      apply String.eqb_refl. }
    congruence.
  - induction os as [|o os IH] using rev_ind; [reflexivity|].
    rewrite orders_by_plate_snoc, plate_group_append, IH, filter_app. cbn [filter].
    rewrite (String.eqb_sym p (plate_of db o)).
    destruct (String.eqb (plate_of db o) p).
    + destruct (filter _ os); reflexivity.
    + now rewrite app_nil_r.
Qed.

(** ** Looking up a labour code *)

Section LookupAnswers.

Variable lookup_by_code : Store -> string -> option LabourCode.t.
Variable lookup_by_name : Store -> string -> option string -> option LabourCode.t.
Variable search_by_description : Store -> string -> option string -> list LabourCode.t.

Let lookup := api_lookup_labour_code lookup_by_code lookup_by_name search_by_description.

(** X23. The labour code lookup answers with at most ten labour codes.
    A code, when one is given, decides the answer alone: item name and
    category are not looked at. Without a code and without an item name the
    answer is empty. *)
Theorem lookup_answers_at_most_ten (db : Store) (item_name code category : option string) :
  (List.length (lookup db item_name code category) <= 10)%nat
  /\ (if is_empty (strip (or_str code "")) then True
      else lookup db item_name code category = lookup db None code None
           /\ (List.length (lookup db item_name code category) <= 1)%nat)
  /\ lookup db None None category = [].
Proof.
  unfold lookup, api_lookup_labour_code. cbv zeta.
  split; [|split; [|reflexivity]].
  - destruct (is_empty (strip (or_str code ""))); cbn [negb].
    + destruct (is_empty (strip (or_str item_name ""))); cbn [negb]; [simpl; lia|].
      destruct (lookup_by_name _ _ _); [simpl; lia|]. apply firstn_le_length.
    + destruct (lookup_by_code _ _); simpl; lia.
  - destruct (is_empty (strip (or_str code ""))); cbn [negb]; [exact I|].
    destruct (lookup_by_code _ _); simpl; split; auto; lia.
Qed.

End LookupAnswers.

(** ** Lines of a description *)

Lemma has_newline_app (a b : string) :
  has_newline (a ++ b) = has_newline a || has_newline b.
Proof.
  induction a as [|c a IH]; simpl; [reflexivity|]. now rewrite IH, orb_assoc.
Qed.

Lemma split_lines_nonempty (s : string) : split_lines s <> [].
Proof.
  destruct s as [|c s]; simpl; [discriminate|].
  destruct (Ascii.eqb c newline); [discriminate|].
  destruct (split_lines s); discriminate.
Qed.

(** A string without a line break is its own single line. *)
Lemma split_lines_single (s : string) :
  has_newline s = false -> split_lines s = [s].
Proof.
  induction s as [|c s IH]; simpl; [reflexivity|].
  intro H. apply orb_false_iff in H. destruct H as [Hc Hs].
  now rewrite Hc, (IH Hs).
Qed.

Lemma split_lines_app (a b : string) :
  has_newline a = false ->
  split_lines (a ++ String newline b) = a :: split_lines b.
Proof.
  induction a as [|c a IH]; simpl; intro H.
  - reflexivity.
  - apply orb_false_iff in H. destruct H as [Hc Ha].
    now rewrite Hc, (IH Ha).
Qed.

(** The lines of a text have no line break in them. *)
Lemma split_lines_no_newline (s : string) :
  Forall (fun l => has_newline l = false) (split_lines s).
Proof.
  induction s as [|c s IH]; simpl; [repeat constructor|].
  destruct (Ascii.eqb c newline) eqn:E; [constructor; [reflexivity | exact IH]|].
  destruct (split_lines s) as [|h t]; [repeat constructor; simpl; now rewrite E|].
  inversion IH; subst. constructor; [simpl; now rewrite E | assumption].
Qed.

(** Joining lines with line breaks and splitting again gives the lines. *)
Lemma split_join_lines (lines : list string) :
  lines <> [] -> Forall (fun l => has_newline l = false) lines ->
  split_lines (join (String newline EmptyString) lines) = lines.
Proof.
  unfold join. induction lines as [|l [|l' rest] IH]; intros Hne Hall.
  - congruence.
  - simpl. inversion Hall; subst. now apply split_lines_single.
  - inversion Hall as [|? ? Hl Hrest]; subst.
    change (String.concat (String newline "") (l :: l' :: rest))
      with (l ++ String newline (String.concat (String newline "") (l' :: rest)))%string.
    rewrite (split_lines_app _ _ Hl). f_equal. apply IH; [discriminate | exact Hrest].
Qed.

Lemma join_no_newline (sep : string) (l : list string) :
  has_newline sep = false -> Forall (fun s => has_newline s = false) l ->
  has_newline (join sep l) = false.
Proof.
  intros Hsep. unfold join. induction l as [|a [|b rest] IH]; intro Hall.
  - reflexivity.
  - simpl. now inversion Hall.
  - inversion Hall as [|? ? Ha Hrest]; subst.
    change (String.concat sep (a :: b :: rest))
      with (a ++ sep ++ String.concat sep (b :: rest))%string.
    rewrite !has_newline_app, Ha, Hsep. simpl. now apply IH.
Qed.

(** Dropping the spaces at the end keeps everything up to a character that
    is not a space. *)
Lemma rstrip_keeps_prefix (p : string) (c : ascii) (t : string) :
  is_space c = false -> exists r, rstrip (p ++ String c t) = (p ++ String c r)%string.
Proof.
  intro Hc. induction p as [|a p IH]; simpl.
  - rewrite Hc. destruct (rstrip t) as [|d r]; eauto.
  - destruct IH as [r Hr]. rewrite Hr. exists r.
    destruct p; reflexivity.
Qed.

Lemma lower_app (a b : string) : lower (a ++ b) = (lower a ++ lower b)%string.
Proof. induction a as [|c a IH]; simpl; [reflexivity|]. now rewrite IH. Qed.

Lemma prefix_app (p x : string) : String.prefix p (p ++ x) = true.
Proof.
  induction p as [|c p IH]; simpl; [destruct x; reflexivity|].
  destruct (ascii_dec c c); [exact IH | congruence].
Qed.

(** The line that [update_order_details] writes for the services is a line
    that it drops the next time, and it is not blank. *)
Lemma services_line_is_dropped (sales : bool) (text : string) :
  let line := ((if sales then "Tire Services: " else "Services: ") ++ text)%string in
  is_services_line line = true /\ is_empty (strip line) = false.
Proof.
  destruct sales; cbv zeta.
  - destruct (rstrip_keeps_prefix "Tire Services" ":"%char (String " "%char text) eq_refl)
      as [r Hr].
    assert (strip ("Tire Services: " ++ text) = ("Tire Services" ++ String ":"%char r)%string)
      as E by (unfold strip; exact Hr).
    unfold is_services_line, line_starts, startswith. rewrite E.
    split; [|reflexivity].
    change (lower ("Tire Services" ++ String ":"%char r))
      with ("tire services:" ++ lower r)%string.
    rewrite (prefix_app "tire services:" (lower r)). apply orb_true_r.
  - destruct (rstrip_keeps_prefix "Services" ":"%char (String " "%char text) eq_refl)
      as [r Hr].
    assert (strip ("Services: " ++ text) = ("Services" ++ String ":"%char r)%string)
      as E by (unfold strip; exact Hr).
    unfold is_services_line, line_starts, startswith. rewrite E.
    split; [|reflexivity].
    change (lower ("Services" ++ String ":"%char r)) with ("services:" ++ lower r)%string.
    rewrite (prefix_app "services:" (lower r)). reflexivity.
Qed.

Lemma filter_twice {A : Type} (p q : A -> bool) (l : list A) :
  filter p (filter q (filter p l)) = filter q (filter p l).
Proof.
  induction l as [|a l IH]; simpl; [reflexivity|].
  destruct (p a) eqn:Ep; simpl; [|exact IH].
  destruct (q a); simpl; [rewrite Ep, IH|]; auto.
Qed.

Lemma filter_idempotent {A : Type} (q : A -> bool) (l : list A) :
  filter q (filter q l) = filter q l.
Proof.
  induction l as [|a l IH]; simpl; [reflexivity|].
  destruct (q a) eqn:E; simpl; [rewrite E, IH|]; auto.
Qed.

(** Dropping the old line, adding the new one and dropping blank lines, done
    on lines that went through it already, gives the same lines. *)
Lemma relines (keep shown : string -> bool) (line : string) (lines : list string) :
  shown line = true -> keep line = false ->
  let once := filter shown (filter keep lines ++ [line]) in
  filter shown (filter keep once ++ [line]) = once.
Proof.
  intros Hs Hk once. unfold once.
  assert (forall l, filter shown (l ++ [line]) = (filter shown l ++ [line])%list) as E.
  { intro l. rewrite filter_app. cbn [filter]. now rewrite Hs. }
  rewrite !E, (filter_app keep). cbn [filter]. rewrite Hk, app_nil_r.
  now rewrite (filter_twice keep shown), filter_idempotent.
Qed.

Lemma set_description_twice (x y : option string) (o : Order.t) :
  Order.set_description x (Order.set_description y o) = Order.set_description x o.
Proof. reflexivity. Qed.

(** The services step in one piece. *)
Lemma update_services_form (f : OrderDetailsForm) (o : Order.t) (s0 : string)
    (rest : list string) :
  post_services f = s0 :: rest ->
  update_services f o
  = Order.set_description
      (Some (join_lines
               (filter (fun l => negb (is_services_line l))
                       (split_lines (or_str (Order.description o) ""))
                ++ [((if String.eqb (Order.type o) "sales"
                      then "Tire Services: " else "Services: ")
                     ++ join ", " (s0 :: rest))%string]))) o.
Proof.
  intro Es. unfold update_services. rewrite Es.
  destruct (String.eqb (Order.type o) "sales"); reflexivity.
Qed.

(** X24. Posting the same services again does not pile up lines: when no
    service name has a line break in it, applying the services step of the
    update twice gives the order that applying it once gives. *)
Theorem update_services_is_idempotent (f : OrderDetailsForm) (o : Order.t) :
  forallb (fun s => negb (has_newline s)) (post_services f) = true ->
  update_services f (update_services f o) = update_services f o.
Proof.
  intro Hnames.
  destruct (post_services f) as [|s0 rest] eqn:Es;
    [unfold update_services; rewrite Es; reflexivity|].
  rewrite (update_services_form f (update_services f o) Es).
  rewrite (update_services_form f o Es).
  rewrite set_description_twice.
  match goal with
  | |- context [Order.type (Order.set_description ?x o)] =>
      change (Order.type (Order.set_description x o)) with (Order.type o);
      change (Order.description (Order.set_description x o)) with x
  end.
  set (svc_text := join ", " (s0 :: rest)).
  set (sales := String.eqb (Order.type o) "sales").
  set (line := ((if sales then "Tire Services: " else "Services: ") ++ svc_text)%string).
  set (keep := fun l => negb (is_services_line l)).
  set (base := or_str (Order.description o) "").
  assert (forall x, or_str (Some x) "" = x) as Eor by (intros []; reflexivity).
  rewrite Eor.
  destruct (services_line_is_dropped sales svc_text) as [Hdrop Hshown].
  fold line in Hdrop, Hshown.
  assert (has_newline line = false) as Hline_nl.
  { unfold line. rewrite has_newline_app.
    assert (has_newline svc_text = false) as Hsvc.
    { unfold svc_text. apply join_no_newline; [reflexivity|].
      apply Forall_forall. intros s Hs.
      pose proof (proj1 (forallb_forall _ _) Hnames s Hs) as H.
      now apply negb_true_iff in H. }
    rewrite Hsvc. destruct sales; reflexivity. }
  unfold join_lines.
  set (shown := fun l => negb (is_empty (strip l))).
  set (once := filter shown (filter keep (split_lines base) ++ [line])).
  assert (split_lines (join (String newline "") once) = once) as Hsplit.
  { apply split_join_lines.
    - unfold once. rewrite filter_app. cbn [filter]. unfold shown at 2.
      rewrite Hshown. cbn [negb]. intro H. apply app_eq_nil in H. destruct H; discriminate.
    - unfold once. apply Forall_forall. intros l Hl.
      apply filter_In in Hl. destruct Hl as [Hl _].
      apply in_app_or in Hl. destruct Hl as [Hl|[<-|[]]]; [|exact Hline_nl].
      apply filter_In in Hl. destruct Hl as [Hl _].
      exact (proj1 (Forall_forall _ _) (split_lines_no_newline base) l Hl). }
  rewrite Hsplit. f_equal. f_equal. f_equal.
  fold once. apply relines.
  - unfold shown. now rewrite Hshown.
  - unfold keep. now rewrite Hdrop.
Qed.

Lemma update_services_is_idempotent_witness :
  let form :=
    {| post_services := ["Oil Change"; "Tire Rotation"]; post_labour_codes := [];
       post_estimated_duration := Absent; post_item_id := Absent;
       post_item_quantity := Absent; post_order_type := None;
       post_labour_code_id := Absent; post_item_name_manual := None;
       post_item_brand_manual := None |} in
  update_services form (update_services form Shop.waiting)
  = update_services form Shop.waiting
  /\ Order.description (update_services form Shop.waiting)
     = Some (String.concat (String newline "")
               ["Order started for T123ABC"; "Services: Oil Change, Tire Rotation"]).
Proof.
  intro form. split; [|reflexivity].
  exact (@update_services_is_idempotent form Shop.waiting eq_refl).
Defined.

(** ** More on the updates of the detail page *)

(** X25. Changing the type of a sales order to a type that takes no item
    (any type but sales, service and labour) clears the item: the saved
    order has the new type and no item name, brand or quantity, whatever item
    candidates the same form posts. *)
Theorem leaving_sales_clears_item (db : Store) (f : OrderDetailsForm) (o : Order.t)
    (ty : string) :
  Order.type o = "sales" -> post_order_type f = Some ty ->
  is_empty ty = false ->
  string_in ty ["sales"; "service"; "labour"] = false ->
  let o' := update_order_details_action db f o in
  Order.type o' = ty /\ Order.item_name o' = None /\ Order.brand o' = None
  /\ Order.quantity o' = None.
Proof.
  intros Hsales Hpost Hne Hty o'.
  assert (change_order_type f o
          = Order.set_description (Some "")
              (Order.set_quantity None
                 (Order.set_brand None (Order.set_item_name None (Order.set_type ty o)))))
    as E1.
  { unfold change_order_type. rewrite Hpost. destruct ty as [|c t]; [discriminate|].
    rewrite Hsales.
    assert (String.eqb (String c t) "sales" = false) as En.
    { simpl in Hty. apply orb_false_iff in Hty. tauto. }
    rewrite En. reflexivity. }
  set (o1 := Order.set_description (Some "")
               (Order.set_quantity None
                  (Order.set_brand None (Order.set_item_name None (Order.set_type ty o)))))
    in *.
  assert (update_item db f o1 = o1) as E2.
  { unfold update_item. change (Order.type o1) with ty. now rewrite Hty. }
  assert (update_labour_codes db f o1 = o1) as E3.
  { unfold update_labour_codes. change (Order.type o1) with ty.
    assert (string_in ty ["service"; "labour"] = false) as Hsl.
    { simpl in Hty. apply orb_false_iff in Hty. destruct Hty as [_ Hty]. exact Hty. }
    now rewrite Hsl, andb_false_r. }
  unfold o', update_order_details_action. rewrite E1, E2, E3.
  assert (forall x, Order.type x = ty -> Order.item_name x = None ->
                    Order.brand x = None -> Order.quantity x = None ->
                    Order.type (update_services f x) = ty
                    /\ Order.item_name (update_services f x) = None
                    /\ Order.brand (update_services f x) = None
                    /\ Order.quantity (update_services f x) = None) as Hsvc.
  { intros x H1 H2 H3 H4. unfold update_services.
    destruct (post_services f); cbn; auto. }
  destruct (Hsvc o1 eq_refl eq_refl eq_refl eq_refl) as (H1 & H2 & H3 & H4).
  destruct (post_estimated_duration f); cbn; auto.
Qed.

Lemma leaving_sales_clears_item_witness :
  let sold :=
    Order.set_quantity (Some 4)
      (Order.set_brand (Some "Roadgrip")
         (Order.set_item_name (Some "Tyre 205/55")
            (Order.set_type "sales" Shop.waiting))) in
  let form :=
    {| post_services := []; post_labour_codes := [];
       post_estimated_duration := Absent; post_item_id := Number 9;
       post_item_quantity := Number 2; post_order_type := Some "inquiry";
       post_labour_code_id := Number 5; post_item_name_manual := Some "Oil filter";
       post_item_brand_manual := None |} in
  let o' := update_order_details_action (Shop.db_with [sold]) form sold in
  Order.type o' = "inquiry" /\ Order.item_name o' = None /\ Order.brand o' = None
  /\ Order.quantity o' = None.
Proof.
  intros sold form.
  exact (@leaving_sales_clears_item (Shop.db_with [sold]) form sold "inquiry"
           eq_refl eq_refl eq_refl eq_refl).
Defined.




